(** * OpenGL render manager v8.5.4: caches, physics step and animation engine

    A shallow embedding of [src/v1_Pre-release.py]:
    - [LRUTextureCache] (class of the same name, lines 29-159),
    - the text-texture cache of [OpenGLRenderManager]
      ([_render_text_optimized], [update_text_font], [_cleanup_text_cache]),
    - the physics side table and [_update_physics],
    - the animation table, [animate_task] and [_update_animations],
    - the texture loader ([_load_texture_with_cache]) and the cache
      statistics,
    - the font-instance cache ([_cleanup_font_instances]) and the teardown
      ([cleanup], [__del__]),
    - the task registry, the layers and the draw order of [render_frame],
    - the coordinate origin and [_update_performance_stats].

    Conventions.
    - A Python [dict] / [OrderedDict] whose iteration order the code relies on
      is an association list in insertion order with unique keys ([od_*]).
      [self.tasks], which is only ever looked up by key, is a [gmap].
    - Python [int] is [Z].  Python [float] is the primitive binary64 [float]:
      [+ - * /] and the comparisons are the IEEE operations Python uses
      (division by zero raises instead, see [Physics.py_div]).  Numeric task
      attributes are floats; an [int] attribute is the float of the same
      value, which is exact below 2^53.
    - The byte thresholds of the texture cache ([max_size_bytes * 0.1] and
      the like) are the binary64 products Python computes; they are only
      compared with integers, which Python does exactly, so each is kept as
      the rational its double stands for, see [LRU.oversize_limit].
    - Time stamps that are only stored and compared ([last_used]) are
      rationals: finite doubles compare exactly like the rationals they
      denote.
    - OpenGL is a collaborator: its state is the log of texture names handed
      to [glDeleteTextures], in call order.  Where the source does not wrap
      the call in [try ... except], which names make it raise is an input.
      The clock is a collaborator as well: the values [time.time()] returns
      are inputs.
    - An attribute that only some configurations initialise
      ([self.physics_tasks], with [enable_physics]) is optional; reading it
      where it is missing raises AttributeError.

    The definitions come first, module by module; the facts about them
    follow in modules of the same names with the suffix [_facts] or [_more],
    and the concrete instances in [Instances] and [More_instances]. *)

From stdpp Require Import gmap strings.
From Stdlib Require Import ZArith QArith Qminmax Qround Lia Lqa Bool String List Permutation Sorted.
From Stdlib Require Import Uint63 PrimFloat FloatOps FloatAxioms SpecFloat.
Import ListNotations.

#[local] Set Warnings "-inexact-float,-register-all".
#[local] Open Scope Z_scope.

(** ** Python exceptions that the modelled code can raise *)

Inductive exn : Type :=
| KeyError
| IndexError
| TypeError
| ZeroDivisionError
| RuntimeError      (* "dictionary changed size during iteration" *)
| UserException     (* any [Exception] raised by user code *)
| AttributeError    (* an attribute that was never initialised *)
| GLError.          (* raised by a failing OpenGL call *)

(** A call either returns a value in a new state or raises, leaving the state
    as mutated so far. *)
Inductive outcome (A S : Type) : Type :=
| Return (a : A) (s : S)
| Raise (e : exn) (s : S).
Arguments Return {A S} a s.
Arguments Raise {A S} e s.

Definition state_of {A S} (o : outcome A S) : S :=
  match o with Return _ s => s | Raise _ s => s end.

Definition raised {A S} (o : outcome A S) : option exn :=
  match o with Return _ _ => None | Raise e _ => Some e end.

(** ** Insertion-ordered dictionaries *)

Section OrderedDict.
Context {K V : Type}.
Variable eqb : K -> K -> bool.

Definition odict : Type := list (K * V).

(* d[k], or None for KeyError *)
Fixpoint od_get (k : K) (d : odict) : option V :=
  match d with
  | [] => None
  | (k', v) :: d' => if eqb k k' then Some v else od_get k d'
  end.

(* k in d *)
Definition od_mem (k : K) (d : odict) : bool :=
  match od_get k d with Some _ => true | None => false end.

(* del d[k]; the caller has checked membership *)
Fixpoint od_del (k : K) (d : odict) : odict :=
  match d with
  | [] => []
  | (k', v) :: d' => if eqb k k' then d' else (k', v) :: od_del k d'
  end.

(* d[k] = v: an existing key keeps its position, a new key goes last *)
Fixpoint od_set (k : K) (v : V) (d : odict) : odict :=
  match d with
  | [] => [(k, v)]
  | (k', v') :: d' => if eqb k k' then (k', v) :: d' else (k', v') :: od_set k v d'
  end.

(* OrderedDict.move_to_end(k); None for KeyError *)
Definition od_move_to_end (k : K) (d : odict) : option odict :=
  match od_get k d with
  | Some v => Some (od_del k d ++ [(k, v)])
  | None => None
  end.

Definition od_keys (d : odict) : list K := map fst d.

End OrderedDict.

(** ** Task attribute values and the task registry *)

(* The attribute values the modelled code distinguishes:
   [isinstance(v, (int, float))], [isinstance(v, (tuple, list))], a string,
   anything else.  Numbers are binary64: an [int] attribute such as [x=100]
   becomes a float as soon as the code adds a float to it, and [bool] counts
   as [int] for [isinstance]. *)
Inductive pyval : Type :=
| VNum (f : float)
| VSeq (l : list float)
| VStr (s : string)
| VOther (repr : string).

(* self.tasks: task_id -> attribute dictionary *)
Abbreviation task := (gmap string pyval).
Abbreviation registry := (gmap string (gmap string pyval)).


(** ** Integers and binary64 *)

(* float(n), as in [n * 0.1] for an int n: the double nearest to n, ties to
   even.  Beyond the range of doubles the result here is infinite, where
   Python raises OverflowError. *)
Definition float_of_int (n : Z) : float := SF2Prim (binary_normalize prec emax n 0 false).

(* the rational that a finite double stands for (0 for an infinity or NaN) *)
Definition Q_of_float (f : float) : Q :=
  match Prim2SF f with
  | S754_finite s m e =>
      let n := if s then Zneg m else Zpos m in
      match e with
      | Zneg p => Qmake n (2 ^ p)%positive
      | _ => inject_Z (n * 2 ^ e)
      end
  | _ => 0%Q
  end.
(** ** OpenGL texture names released so far *)

Definition gl_log := list Z.

(* glDeleteTextures([texture_id]); the call itself is taken to succeed, so the
   [try ... except: pass] that some call sites wrap around it has no effect *)
Definition glDeleteTextures (texture_id : Z) (gl : gl_log) : gl_log := gl ++ [texture_id].

(** ** class LRUTextureCache *)

Module LRU.

(* The dictionaries stored in the cache; only these keys are read. *)
Record texture_data : Type := {
  texture_id : option Z;
  width : option Z;
  height : option Z
}.

Record LRUTextureCache : Type := {
  max_size_bytes : Z;
  cleanup_threshold : Q;
  cache : list (string * texture_data);   (* OrderedDict, least recently used first *)
  total_memory_usage : Z;
  hits : Z;
  misses : Z;
  evictions : Z
}.

Definition state : Type := LRUTextureCache * gl_log.

Definition __init__ (max_size_mb : Z) (threshold : Q) : LRUTextureCache :=
  {| max_size_bytes := max_size_mb * 1024 * 1024;
     cleanup_threshold := threshold;
     cache := [];
     total_memory_usage := 0;
     hits := 0; misses := 0; evictions := 0 |}.

Definition set_cache (c : LRUTextureCache) (d : list (string * texture_data)) :=
  {| max_size_bytes := max_size_bytes c; cleanup_threshold := cleanup_threshold c;
     cache := d; total_memory_usage := total_memory_usage c;
     hits := hits c; misses := misses c; evictions := evictions c |}.

Definition set_total (c : LRUTextureCache) (n : Z) :=
  {| max_size_bytes := max_size_bytes c; cleanup_threshold := cleanup_threshold c;
     cache := cache c; total_memory_usage := n;
     hits := hits c; misses := misses c; evictions := evictions c |}.

Definition set_hits (c : LRUTextureCache) (n : Z) :=
  {| max_size_bytes := max_size_bytes c; cleanup_threshold := cleanup_threshold c;
     cache := cache c; total_memory_usage := total_memory_usage c;
     hits := n; misses := misses c; evictions := evictions c |}.

Definition set_misses (c : LRUTextureCache) (n : Z) :=
  {| max_size_bytes := max_size_bytes c; cleanup_threshold := cleanup_threshold c;
     cache := cache c; total_memory_usage := total_memory_usage c;
     hits := hits c; misses := n; evictions := evictions c |}.

Definition set_evictions (c : LRUTextureCache) (n : Z) :=
  {| max_size_bytes := max_size_bytes c; cleanup_threshold := cleanup_threshold c;
     cache := cache c; total_memory_usage := total_memory_usage c;
     hits := hits c; misses := misses c; evictions := n |}.

Definition _calculate_texture_size (td : texture_data) : Z :=
  match width td, height td with
  | Some w, Some h => w * h * 4
  | _, _ => 0
  end.

(** The double a threshold stands for.  [cleanup_threshold] is kept as a
    fraction whose quotient in binary64 is the double given to [__init__]:
    [8 # 10] stands for [8 / 10], the double 0.8. *)
Definition as_float (q : Q) : float :=
  (float_of_int (Qnum q) / float_of_int (Zpos (Qden q)))%float.

(** The three float products of [put], as Python computes them in binary64.
    [max_size_bytes] is an [int] that is converted first.  The products are
    only ever compared with [int]s, which Python does exactly, so each is
    kept as the rational its double stands for. *)
Definition oversize_limit (c : LRUTextureCache) : Q :=
  Q_of_float (float_of_int (max_size_bytes c) * 0.1)%float.
Definition cleanup_trigger (c : LRUTextureCache) : Q :=
  Q_of_float (float_of_int (max_size_bytes c) * as_float (cleanup_threshold c))%float.
Definition cleanup_target (c : LRUTextureCache) : Q :=
  Q_of_float (float_of_int (max_size_bytes c) * 0.5)%float.

(** The budget converts to a double and the trigger is a finite double.
    Otherwise Python raises OverflowError at the first product, or compares
    with an infinity or a NaN, and the rationals above mean nothing: the
    facts that depend on a limit assume [finite_limits]. *)
Definition finite_limits (c : LRUTextureCache) : bool :=
  is_finite (float_of_int (max_size_bytes c)) &&
  is_finite (float_of_int (max_size_bytes c) * as_float (cleanup_threshold c))%float.

(* a > b *)
Definition Qgtb (a b : Q) : bool := negb (Qle_bool a b).

Definition release (td : texture_data) (gl : gl_log) : gl_log :=
  match texture_id td with
  | Some t => glDeleteTextures t gl
  | None => gl
  end.

(* first loop of _cleanup: walk the entries from the least recently used *)
Fixpoint scan (target_size : Q) (entries : list (string * texture_data))
         (current_size : Z) (keys_to_remove : list string) (ev : Z)
  : Z * list string * Z :=
  match entries with
  | [] => (current_size, keys_to_remove, ev)
  | (key, td) :: rest =>
      if Qle_bool (inject_Z current_size) target_size
      then (current_size, keys_to_remove, ev)
      else scan target_size rest (current_size - _calculate_texture_size td)
                (keys_to_remove ++ [key]) (ev + 1)
  end.

(* second loop of _cleanup *)
Fixpoint release_keys (keys : list string) (d : list (string * texture_data)) (gl : gl_log)
  : outcome unit (list (string * texture_data) * gl_log) :=
  match keys with
  | [] => Return tt (d, gl)
  | key :: rest =>
      match od_get String.eqb key d with
      | None => Raise KeyError (d, gl)
      | Some td => release_keys rest (od_del String.eqb key d) (release td gl)
      end
  end.

Definition _cleanup (target_size : Q) (s : state) : outcome unit state :=
  let (c, gl) := s in
  if Qle_bool (inject_Z (total_memory_usage c)) target_size then Return tt s
  else
    let '(current_size, keys_to_remove, ev) :=
      scan target_size (cache c) (total_memory_usage c) [] (evictions c) in
    let c1 := set_evictions c ev in
    match release_keys keys_to_remove (cache c1) gl with
    | Return _ (d, gl') => Return tt (set_total (set_cache c1 d) current_size, gl')
    | Raise e (d, gl') => Raise e (set_cache c1 d, gl')
    end.

Definition put (key : string) (td : texture_data) (s : state) : outcome bool state :=
  let texture_size := _calculate_texture_size td in
  if Qgtb (inject_Z texture_size) (oversize_limit (fst s)) then Return false s
  else
    let cleaned :=
      if Qgtb (inject_Z (total_memory_usage (fst s) + texture_size)) (cleanup_trigger (fst s))
      then _cleanup (cleanup_target (fst s)) s
      else Return tt s in
    match cleaned with
    | Raise e s' => Raise e s'
    | Return _ (c1, gl1) =>
        let c2 :=
          match od_get String.eqb key (cache c1) with
          | Some old_data =>
              set_cache (set_total c1 (total_memory_usage c1 - _calculate_texture_size old_data))
                        (od_del String.eqb key (cache c1))
          | None => c1
          end in
        let c3 := set_total (set_cache c2 (od_set String.eqb key td (cache c2)))
                            (total_memory_usage c2 + texture_size) in
        match od_move_to_end String.eqb key (cache c3) with
        | Some d => Return true (set_cache c3 d, gl1)
        | None => Raise KeyError (c3, gl1)
        end
    end.

Definition get (key : string) (s : state) : outcome (option texture_data) state :=
  let (c, gl) := s in
  if od_mem String.eqb key (cache c) then
    match od_move_to_end String.eqb key (cache c) with
    | Some d => let c' := set_hits (set_cache c d) (hits c + 1) in
                Return (od_get String.eqb key d) (c', gl)
    | None => Raise KeyError s
    end
  else Return None (set_misses c (misses c + 1), gl).

Definition contains (key : string) (s : state) : bool := od_mem String.eqb key (cache (fst s)).

Definition remove (key : string) (s : state) : outcome bool state :=
  let (c, gl) := s in
  match od_get String.eqb key (cache c) with
  | Some td =>
      let c1 := set_total c (total_memory_usage c - _calculate_texture_size td) in
      Return true (set_cache c1 (od_del String.eqb key (cache c1)), gl)
  | None => Return false s
  end.

Definition clear (s : state) : outcome unit state :=
  let (c, gl) := s in
  let gl' := fold_left (fun g e => release (snd e) g) (cache c) gl in
  Return tt (set_total (set_cache c []) 0, gl').

(** Operations a client can issue, and their sequential execution. *)
Inductive op : Type :=
| Put (key : string) (td : texture_data)
| Get (key : string)
| Remove (key : string)
| Clear
| Cleanup (target_size : Q).

Definition forget {A} (o : outcome A state) : outcome unit state :=
  match o with Return _ s => Return tt s | Raise e s => Raise e s end.

Definition step (o : op) (s : state) : outcome unit state :=
  match o with
  | Put k td => forget (put k td s)
  | Get k => forget (get k s)
  | Remove k => forget (remove k s)
  | Clear => clear s
  | Cleanup t => _cleanup t s
  end.

Fixpoint run (ops : list op) (s : state) : outcome unit state :=
  match ops with
  | [] => Return tt s
  | o :: rest =>
      match step o s with
      | Return _ s' => run rest s'
      | Raise e s' => Raise e s'
      end
  end.

Definition sum_sizes (d : list (string * texture_data)) : Z :=
  fold_right (fun e acc => _calculate_texture_size (snd e) + acc) 0 d.

End LRU.

(** ** The text-texture cache of OpenGLRenderManager *)

Module TextCache.

(* one value of self.text_texture_cache *)
Record entry : Type := {
  texture_id : Z;
  width : Z;
  height : Z;
  last_used : Q;            (* time.time() *)
  created : option Q;       (* only _render_text_optimized stores it *)
  font_info : string
}.

Definition set_last_used (e : entry) (t : Q) : entry :=
  {| texture_id := texture_id e; width := width e; height := height e;
     last_used := t; created := created e; font_info := font_info e |}.

Record text_cache : Type := {
  text_texture_cache : list (string * entry);   (* dict, insertion order *)
  text_cache_max_size : Z;
  text_cache_hits : Z;
  text_cache_misses : Z
}.

Definition state : Type := text_cache * gl_log.

(* __init__, lines 247-250 *)
Definition init : text_cache :=
  {| text_texture_cache := []; text_cache_max_size := 500;
     text_cache_hits := 0; text_cache_misses := 0 |}.

Definition set_entries (c : text_cache) (d : list (string * entry)) : text_cache :=
  {| text_texture_cache := d; text_cache_max_size := text_cache_max_size c;
     text_cache_hits := text_cache_hits c; text_cache_misses := text_cache_misses c |}.

Definition set_max_size (c : text_cache) (n : Z) : text_cache :=
  {| text_texture_cache := text_texture_cache c; text_cache_max_size := n;
     text_cache_hits := text_cache_hits c; text_cache_misses := text_cache_misses c |}.

Definition count_hit (c : text_cache) : text_cache :=
  {| text_texture_cache := text_texture_cache c; text_cache_max_size := text_cache_max_size c;
     text_cache_hits := text_cache_hits c + 1; text_cache_misses := text_cache_misses c |}.

Definition count_miss (c : text_cache) : text_cache :=
  {| text_texture_cache := text_texture_cache c; text_cache_max_size := text_cache_max_size c;
     text_cache_hits := text_cache_hits c; text_cache_misses := text_cache_misses c + 1 |}.

(* sorted(items, key=lambda x: x[1]['last_used']): Python's sort is stable,
   and a stable sort has one result; insertion sort computes it. *)
Fixpoint insert_by_last_used (x : string * entry) (l : list (string * entry))
  : list (string * entry) :=
  match l with
  | [] => [x]
  | y :: l' =>
      if Qle_bool (last_used (snd x)) (last_used (snd y))
      then x :: y :: l'
      else y :: insert_by_last_used x l'
  end.

Definition sorted_by_last_used (d : list (string * entry)) : list (string * entry) :=
  fold_right insert_by_last_used [] d.

(* the while loop of _cleanup_text_cache.  The release is not wrapped in
   [try ... except] here: [gl_raises t] tells whether glDeleteTextures([t])
   raises, which ends the loop before the entry is deleted *)
Fixpoint evict_oldest (gl_raises : Z -> bool) (sorted_cache : list (string * entry))
         (d : list (string * entry)) (gl : gl_log) (max_size : Z)
  : outcome unit (list (string * entry) * gl_log) :=
  if Z.of_nat (List.length d) <=? max_size then Return tt (d, gl)
  else
    match sorted_cache with
    | [] => Raise IndexError (d, gl)                     (* pop from empty list *)
    | (key, data) :: rest =>
        if gl_raises (texture_id data) then Raise GLError (d, gl)
        else
          let gl' := glDeleteTextures (texture_id data) gl in
          match od_get String.eqb key d with
          | None => Raise KeyError (d, gl')
          | Some _ => evict_oldest gl_raises rest (od_del String.eqb key d) gl' max_size
          end
    end.

Definition _cleanup_text_cache (gl_raises : Z -> bool) (s : state) : outcome unit state :=
  let (c, gl) := s in
  if Z.of_nat (List.length (text_texture_cache c)) <=? text_cache_max_size c
  then Return tt s
  else
    match evict_oldest gl_raises (sorted_by_last_used (text_texture_cache c))
                       (text_texture_cache c) gl (text_cache_max_size c) with
    | Return _ (d, gl') => Return tt (set_entries c d, gl')
    | Raise e (d, gl') => Raise e (set_entries c d, gl')
    end.

(** One call of a text-render path, with what its collaborators answer. *)
Record render_call : Type := {
  text : string;
  font_size_str : string;      (* str(font_size) *)
  color_str : string;          (* str(color) *)
  call_font_info : string;     (* f"{font_name or ''}_{font_file or ''}_{force_chinese}" *)
  font_info_hash : string;     (* str(hash(font_info)) *)
  font_found : bool;           (* get_font(...) returned a font *)
  surface_size : Z * Z;        (* text_surface.get_size() *)
  new_texture : Z;             (* glGenTextures(1) *)
  t_used : Q;                  (* first time.time() of the call *)
  t_created : Q                (* second time.time() of the call *)
}.

(* f"{text}_{font_size}_{color}_{hash(font_info)}" *)
Definition cache_key (r : render_call) : string :=
  (text r ++ "_" ++ font_size_str r ++ "_" ++ color_str r ++ "_" ++ font_info_hash r)%string.

(* Common body of _render_text_optimized ([with_created = true]) and
   _render_text_direct_optimized ([with_created = false]) up to the draw
   call.  Both run inside [try ... except Exception], so an exception of the
   cleanup ends the call with the state as it is. *)
Definition render_text (gl_raises : Z -> bool) (with_created : bool) (r : render_call)
           (s : state) : state :=
  let (c, gl) := s in
  let key := cache_key r in
  match od_get String.eqb key (text_texture_cache c) with
  | Some texture_data =>
      let c1 := count_hit c in
      (set_entries c1 (od_set String.eqb key (set_last_used texture_data (t_used r))
                              (text_texture_cache c1)), gl)
  | None =>
      let c1 := count_miss c in
      if negb (font_found r) then (c1, gl)
      else if (fst (surface_size r) =? 0) || (snd (surface_size r) =? 0) then (c1, gl)
      else
        let e := {| texture_id := new_texture r;
                    width := fst (surface_size r);
                    height := snd (surface_size r);
                    last_used := t_used r;
                    created := if with_created then Some (t_created r) else None;
                    font_info := call_font_info r |} in
        let c2 := set_entries c1 (od_set String.eqb key e (text_texture_cache c1)) in
        state_of (_cleanup_text_cache gl_raises (c2, gl))
  end.

Definition _render_text_optimized (gl_raises : Z -> bool) := render_text gl_raises true.
Definition _render_text_direct_optimized (gl_raises : Z -> bool) := render_text gl_raises false.

(* the call puts a new entry into the cache *)
Definition inserts (r : render_call) (s : state) : bool :=
  negb (od_mem String.eqb (cache_key r) (text_texture_cache (fst s))) &&
  font_found r &&
  negb ((fst (surface_size r) =? 0) || (snd (surface_size r) =? 0)).

Fixpoint run (gl_raises : Z -> bool) (calls : list (bool * render_call)) (s : state) : state :=
  match calls with
  | [] => s
  | (with_created, r) :: rest => run gl_raises rest (render_text gl_raises with_created r s)
  end.

(* str() of the task's 'text' attribute, '' when the task has none *)
Definition text_of (py_str : pyval -> string) (t : task) : string :=
  match t !! "text"%string with
  | None => ""%string
  | Some (VStr s) => s
  | Some v => py_str v
  end.

Definition set_attr (name : string) (v : option pyval) (t : task) : task :=
  match v with
  | Some x => <[name := x]> t
  | None => t
  end.

(* update_text_font, lines 747-772 *)
Definition update_text_font (py_str : pyval -> string) (task_id : string)
           (font_size font_name font_file force_chinese : option pyval)
           (tasks : registry) (s : state)
  : outcome bool (registry * state) :=
  match tasks !! task_id with
  | None => Return false (tasks, s)
  | Some t =>
      match t !! "type"%string with
      | None => Raise KeyError (tasks, s)
      | Some ty =>
          match ty with
          | VStr "text" =>
              let t' := set_attr "force_chinese" force_chinese
                          (set_attr "font_file" font_file
                             (set_attr "font_name" font_name
                                (set_attr "font_size" font_size t))) in
              let prefix := (text_of py_str t' ++ "_")%string in
              let keys_to_delete :=
                List.filter (fun key => String.prefix prefix key)
                            (od_keys (text_texture_cache (fst s))) in
              let d := fold_left (fun d key => od_del String.eqb key d) keys_to_delete
                                 (text_texture_cache (fst s)) in
              Return true (<[task_id := t']> tasks, (set_entries (fst s) d, snd s))
          | _ => Return false (tasks, s)
          end
      end
  end.

(* the text-cache part of cleanup(), lines 920-926 *)
Definition cleanup_text_cache (s : state) : state :=
  let (c, gl) := s in
  (set_entries c [],
   fold_left (fun g e => glDeleteTextures (texture_id (snd e)) g) (text_texture_cache c) gl).

End TextCache.

(** ** The physics side table and its integrator *)

Module Physics.
#[local] Open Scope float_scope.

(* one value of self.physics_tasks, as add_physics_body builds it *)
Record physics_body : Type := {
  body_type : string;
  mass : float;
  friction : float;
  restitution : float;
  damping : float;
  velocity_x : float;
  velocity_y : float;
  collision_enabled : bool;
  affected_by_gravity : bool;
  enabled : bool
}.

Definition set_velocity (b : physics_body) (vx vy : float) : physics_body :=
  {| body_type := body_type b; mass := mass b; friction := friction b;
     restitution := restitution b; damping := damping b;
     velocity_x := vx; velocity_y := vy;
     collision_enabled := collision_enabled b;
     affected_by_gravity := affected_by_gravity b; enabled := enabled b |}.

(* self.physics_world *)
Record world : Type := {
  gravity : float * float;
  pixels_per_meter : float;
  time_scale : float;
  world_enabled : bool;          (* key 'enabled' *)
  iterations : Z;
  max_delta_time : float;
  accumulator : float
}.

(* _init_physics_systems *)
Definition default_world : world :=
  {| gravity := (0, 9.8);
     pixels_per_meter := 100.0;
     time_scale := 1.0;
     world_enabled := true;
     iterations := 10%Z;
     max_delta_time := 0.1;
     accumulator := 0.0 |}.

(* the attributes of the manager that the physics code reads or writes *)
Record state : Type := {
  tasks : registry;
  physics_tasks : list (string * physics_body);   (* dict, insertion order *)
  physics_world : world;
  last_physics_update : float;
  original_window_size : float * float
}.

Definition set_tasks (s : state) (t : registry) : state :=
  {| tasks := t; physics_tasks := physics_tasks s; physics_world := physics_world s;
     last_physics_update := last_physics_update s;
     original_window_size := original_window_size s |}.

Definition set_physics_tasks (s : state) (p : list (string * physics_body)) : state :=
  {| tasks := tasks s; physics_tasks := p; physics_world := physics_world s;
     last_physics_update := last_physics_update s;
     original_window_size := original_window_size s |}.

Definition set_last_physics_update (s : state) (t : float) : state :=
  {| tasks := tasks s; physics_tasks := physics_tasks s; physics_world := physics_world s;
     last_physics_update := t;
     original_window_size := original_window_size s |}.

Definition add_physics_body (task_id : string) (body_type : string)
           (mass friction restitution damping : float)
           (collision_enabled affected_by_gravity : bool) (s : state) : bool * state :=
  match tasks s !! task_id with
  | None => (false, s)
  | Some _ =>
      let b := {| body_type := body_type; mass := mass; friction := friction;
                  restitution := restitution; damping := damping;
                  velocity_x := 0.0; velocity_y := 0.0;
                  collision_enabled := collision_enabled;
                  affected_by_gravity := affected_by_gravity;
                  enabled := true |} in
      (true, set_physics_tasks s (od_set String.eqb task_id b (physics_tasks s)))
  end.

(* add_physics_body(task_id, body_type=...) with the other defaults *)
Definition add_physics_body_default (task_id : string) (body_type : string) (s : state) :=
  add_physics_body task_id body_type 1.0 0.3 0.5 0.99 true true s.

(* a / b on floats: Python raises where IEEE returns an infinity or a NaN *)
Definition py_div (a b : float) : option float :=
  if b =? 0 then None else Some (a / b).

Definition apply_force (task_id : string) (force_x force_y : float) (s : state)
  : outcome bool state :=
  match od_get String.eqb task_id (physics_tasks s) with
  | None => Return false s
  | Some physics_data =>
      if negb (String.eqb (body_type physics_data) "dynamic") then Return false s
      else
        let mass := mass physics_data in
        match py_div force_x mass, py_div force_y mass with
        | Some ax, Some ay =>
            let b := set_velocity physics_data (velocity_x physics_data + ax)
                                  (velocity_y physics_data + ay) in
            Return true (set_physics_tasks s (od_set String.eqb task_id b (physics_tasks s)))
        | _, _ => Raise ZeroDivisionError s
        end
  end.

Definition apply_impulse (task_id : string) (impulse_x impulse_y : float) (s : state)
  : outcome bool state :=
  match od_get String.eqb task_id (physics_tasks s) with
  | None => Return false s
  | Some physics_data =>
      if negb (String.eqb (body_type physics_data) "dynamic") then Return false s
      else
        let mass := mass physics_data in
        match py_div impulse_x mass, py_div impulse_y mass with
        | Some dx, Some dy =>
            let b := set_velocity physics_data (velocity_x physics_data + dx)
                                  (velocity_y physics_data + dy) in
            Return true (set_physics_tasks s (od_set String.eqb task_id b (physics_tasks s)))
        | _, _ => Raise ZeroDivisionError s
        end
  end.

(* task[name] used as a number *)
Definition attr_num (t : task) (name : string) : exn + float :=
  match t !! name with
  | None => inl KeyError
  | Some (VNum f) => inr f
  | Some _ => inl TypeError
  end.

(* task.get(name, 0) *)
Definition attr_or_0 (t : task) (name : string) : pyval :=
  match t !! name with
  | Some v => v
  | None => VNum 0
  end.

(* min(a, b) of Python: the first argument unless the second is smaller *)
Definition py_min (a b : float) : float := if b <? a then b else a.

(* one axis of _handle_boundary_collision: the new position, if it changes,
   and the new velocity.  The extent is read beforehand but only added in
   the elif, when the position is not negative; adding a value that is not
   a number raises TypeError *)
Definition bounce (pos : float) (extent : pyval) (window v restitution : float)
  : exn + (option float * float) :=
  if pos <? 0 then inr (Some 0, - v * restitution)
  else
    match extent with
    | VNum e =>
        if window <? pos + e then inr (Some (window - e), - v * restitution)
        else inr (None, v)
    | _ => inl TypeError
    end.

Definition set_pos (name : string) (p : option float) (t : task) : task :=
  match p with Some x => <[name := VNum x]> t | None => t end.

(* the four reads come first, then the x axis, then the y axis; what the x
   axis has written stays when the y axis raises *)
Definition _handle_boundary_collision (window : float * float) (t : task) (b : physics_body)
  : outcome unit (task * physics_body) :=
  match t !! "x"%string, t !! "y"%string with
  | None, _ => Raise KeyError (t, b)
  | _, None => Raise KeyError (t, b)
  | Some x, Some y =>
      let task_width := attr_or_0 t "width" in
      let task_height := attr_or_0 t "height" in
      match x with
      | VNum task_x =>
          match bounce task_x task_width (fst window) (velocity_x b) (restitution b) with
          | inl e => Raise e (t, b)
          | inr (px, vx) =>
              let t1 := set_pos "x" px t in
              let b1 := set_velocity b vx (velocity_y b) in
              match y with
              | VNum task_y =>
                  match bounce task_y task_height (snd window) (velocity_y b1)
                               (restitution b1) with
                  | inl e => Raise e (t1, b1)
                  | inr (py, vy) =>
                      Return tt (set_pos "y" py t1, set_velocity b1 (velocity_x b1) vy)
                  end
              | _ => Raise TypeError (t1, b1)       (* task_y < 0 *)
              end
          end
      | _ => Raise TypeError (t, b)                 (* task_x < 0 *)
      end
  end.

(* the body of the loop of _update_physics for one entry whose task exists *)
Definition integrate (w : world) (window : float * float) (delta_time : float)
           (t : task) (b : physics_body) : outcome unit (task * physics_body) :=
  let '(gravity_x, gravity_y) := gravity w in
  let b1 :=
    if affected_by_gravity b
    then set_velocity b (velocity_x b + gravity_x * delta_time * time_scale w)
                        (velocity_y b + gravity_y * delta_time * time_scale w)
    else b in
  let b2 := set_velocity b1 (velocity_x b1 * damping b1) (velocity_y b1 * damping b1) in
  match attr_num t "x" with
  | inl e => Raise e (t, b2)
  | inr x =>
      let t1 := <["x"%string :=
                    VNum (x + velocity_x b2 * delta_time * pixels_per_meter w * time_scale w)]> t in
      match attr_num t1 "y" with
      | inl e => Raise e (t1, b2)
      | inr y =>
          let t2 := <["y"%string :=
                        VNum (y + velocity_y b2 * delta_time * pixels_per_meter w * time_scale w)]> t1 in
          if collision_enabled b2 then _handle_boundary_collision window t2 b2
          else Return tt (t2, b2)
      end
  end.

(* for task_id, physics_data in self.physics_tasks.items(): the entries still
   to visit, those visited, and the registry; bodies are mutated in place, so
   the dictionary keeps its keys and their order *)
Fixpoint update_bodies (w : world) (window : float * float) (delta_time : float)
         (todo visited : list (string * physics_body)) (tasks : registry)
  : outcome unit (registry * list (string * physics_body)) :=
  match todo with
  | [] => Return tt (tasks, visited)
  | (task_id, physics_data) :: rest =>
      match tasks !! task_id with
      | None => update_bodies w window delta_time rest (visited ++ [(task_id, physics_data)]) tasks
      | Some t =>
          if negb (enabled physics_data)
          then update_bodies w window delta_time rest (visited ++ [(task_id, physics_data)]) tasks
          else
            match integrate w window delta_time t physics_data with
            | Return _ (t', b') =>
                update_bodies w window delta_time rest (visited ++ [(task_id, b')])
                              (<[task_id := t']> tasks)
            | Raise e (t', b') =>
                Raise e (<[task_id := t']> tasks, visited ++ (task_id, b') :: rest)
            end
      end
  end.

Definition _update_physics (current_time : float) (s : state) : outcome unit state :=
  if negb (world_enabled (physics_world s)) then Return tt s
  else
    let delta_time := current_time - last_physics_update s in
    let s1 := set_last_physics_update s current_time in
    let delta_time := py_min delta_time (max_delta_time (physics_world s1)) in
    match update_bodies (physics_world s1) (original_window_size s1) delta_time
                        (physics_tasks s1) [] (tasks s1) with
    | Return _ (t, p) => Return tt (set_physics_tasks (set_tasks s1 t) p)
    | Raise e (t, p) => Raise e (set_physics_tasks (set_tasks s1 t) p)
    end.

End Physics.

(** ** The animation engine *)

Module Anim.
#[local] Open Scope float_scope.

(* What an on_complete callable does when it is called: it schedules
   animations through animate_task, then returns or raises. *)
Inductive callback : Type :=
| cb_return
| cb_raise
| cb_animate (task_id : string) (duration : float) (properties : list (string * pyval))
             (easing : string) (on_complete : option callback) (delay : float)
             (continue : callback).

(* one value of self.animations *)
Record animation : Type := {
  task_id : string;
  start_time : float;
  duration : float;
  start_values : list (string * pyval);
  target_values : list (string * pyval);
  easing : string;
  on_complete : option callback;
  completed : bool
}.

Definition set_completed (a : animation) (b : bool) : animation :=
  {| task_id := task_id a; start_time := start_time a; duration := duration a;
     start_values := start_values a; target_values := target_values a;
     easing := easing a; on_complete := on_complete a; completed := b |}.

(* animation_id = f"{task_id}_{time.time()}": str of a float has no
   underscore and determines the float, so the string determines the pair *)
Definition animation_id : Type := string * float.

Definition id_eqb (a b : animation_id) : bool :=
  String.eqb (fst a) (fst b) && PrimFloat.Leibniz.eqb (snd a) (snd b).

(* the attributes of the manager that the animation code reads or writes,
   and the clock: time_time n is what the n-th call of time.time() returns *)
Record state : Type := {
  tasks : registry;
  animations : list (animation_id * animation);   (* dict, insertion order *)
  time_time : nat -> float;
  clock_reads : nat
}.

Definition set_tasks (s : state) (t : registry) : state :=
  {| tasks := t; animations := animations s;
     time_time := time_time s; clock_reads := clock_reads s |}.

Definition set_animations (s : state) (a : list (animation_id * animation)) : state :=
  {| tasks := tasks s; animations := a;
     time_time := time_time s; clock_reads := clock_reads s |}.

Definition set_clock_reads (s : state) (n : nat) : state :=
  {| tasks := tasks s; animations := animations s;
     time_time := time_time s; clock_reads := n |}.

(* the loop of animate_task over the requested properties; None when the
   task lacks one of them *)
Fixpoint collect_start_values (t : task) (properties : list (string * pyval))
         (start_values : list (string * pyval)) : option (list (string * pyval)) :=
  match properties with
  | [] => Some start_values
  | (prop, _) :: rest =>
      match t !! prop with
      | Some v => collect_start_values t rest (od_set String.eqb prop v start_values)
      | None => None
      end
  end.

Definition animate_task (task_id : string) (duration : float)
           (properties : list (string * pyval)) (easing : string)
           (on_complete : option callback) (delay : float) (s : state) : bool * state :=
  match tasks s !! task_id with
  | None => (false, s)
  | Some t =>
      let animation_id := (task_id, time_time s (clock_reads s)) in
      let start_time := time_time s (S (clock_reads s)) + delay in
      let s1 := set_clock_reads s (S (S (clock_reads s))) in
      match collect_start_values t properties [] with
      | None => (false, s1)
      | Some start_values =>
          let a := {| task_id := task_id; start_time := start_time; duration := duration;
                      start_values := start_values; target_values := properties;
                      easing := easing; on_complete := on_complete; completed := false |} in
          (true, set_animations s1 (od_set id_eqb animation_id a (animations s1)))
      end
  end.

Section Easing.
(* libm, reached through math.cos, math.sin and float ** int *)
Variables (math_cos math_sin : float -> float) (float_pow : float -> float -> float).

Definition math_pi : float := 3.141592653589793.

Definition _create_easing_functions : list (string * (float -> float)) :=
  [ ("linear"%string, fun t => t);
    ("ease_in_quad"%string, fun t => t * t);
    ("ease_out_quad"%string, fun t => t * (2 - t));
    ("ease_in_out_quad"%string, fun t => if t <? 0.5 then 2 * t * t else -1 + (4 - 2 * t) * t);
    ("ease_in_cubic"%string, fun t => t * t * t);
    ("ease_out_cubic"%string, fun t => float_pow (t - 1) 3 + 1);
    ("ease_in_out_cubic"%string,
       fun t => if t <? 0.5 then 4 * t * t * t else (t - 1) * (2 * t - 2) * (2 * t - 2) + 1);
    ("ease_in_sine"%string, fun t => 1 - math_cos (t * math_pi / 2));
    ("ease_out_sine"%string, fun t => math_sin (t * math_pi / 2));
    ("ease_in_out_sine"%string, fun t => - (math_cos (math_pi * t) - 1) / 2);
    ("ease_in_back"%string, fun t => t * t * ((1.70158 + 1) * t - 1.70158));
    ("ease_out_back"%string,
       fun t => float_pow (t - 1) 2 * ((1.70158 + 1) * (t - 1) + 1.70158) + 1) ].

(* self.easing_functions.get(name, self.easing_functions['linear']) *)
Definition easing_func (name : string) : option (float -> float) :=
  match od_get String.eqb "linear" _create_easing_functions with
  | None => None                                        (* KeyError *)
  | Some linear =>
      match od_get String.eqb name _create_easing_functions with
      | Some f => Some f
      | None => Some linear
      end
  end.

Definition interpolate (start_value target_value : pyval) (eased_progress : float) : pyval :=
  match start_value, target_value with
  | VNum a, VNum b => VNum (a + (b - a) * eased_progress)
  | VSeq a, VSeq b =>
      VSeq (map (fun p => fst p + (snd p - fst p) * eased_progress) (combine a b))
  | _, _ => target_value
  end.

(* for prop, start_value in animation['start_values'].items(): ... *)
Fixpoint apply_values (target_values : list (string * pyval)) (eased_progress : float)
         (start_values : list (string * pyval)) (t : task) : outcome unit task :=
  match start_values with
  | [] => Return tt t
  | (prop, start_value) :: rest =>
      match od_get String.eqb prop target_values with
      | None => Raise KeyError t
      | Some target_value =>
          apply_values target_values eased_progress rest
                       (<[prop := interpolate start_value target_value eased_progress]> t)
      end
  end.

(* calling animation['on_complete']() *)
Fixpoint call (cb : callback) (s : state) : outcome unit state :=
  match cb with
  | cb_return => Return tt s
  | cb_raise => Raise UserException s
  | cb_animate task_id duration properties easing on_complete delay continue =>
      call continue (snd (animate_task task_id duration properties easing on_complete delay s))
  end.

(* the body of the loop of _update_animations for the entry (anim_id, a);
   the result tells whether anim_id was appended to completed_animations *)
Definition advance (current_time : float) (anim_id : animation_id) (a : animation) (s : state)
  : outcome bool state :=
  if completed a then Return false s
  else if current_time <? start_time a then Return false s
  else
    let elapsed := current_time - start_time a in
    if duration a =? 0 then Raise ZeroDivisionError s
    else
      let progress := if 1.0 <? elapsed / duration a then 1.0 else elapsed / duration a in
      match easing_func (easing a) with
      | None => Raise KeyError s
      | Some f =>
          let eased_progress := f progress in
          let moved :=
            match tasks s !! task_id a with
            | None => Return tt s
            | Some t =>
                match apply_values (target_values a) eased_progress (start_values a) t with
                | Return _ t' => Return tt (set_tasks s (<[task_id a := t']> (tasks s)))
                | Raise e t' => Raise e (set_tasks s (<[task_id a := t']> (tasks s)))
                end
            end in
          match moved with
          | Raise e s1 => Raise e s1
          | Return _ s1 =>
              if 1.0 <=? progress then
                let s2 := set_animations s1
                            (od_set id_eqb anim_id (set_completed a true) (animations s1)) in
                match on_complete a with
                | Some cb => Return true (state_of (call cb s2))   (* try/except Exception *)
                | None => Return true s2
                end
              else Return false s1
          end
      end.

(* for anim_id, animation in self.animations.items(): the iterator remembers
   the size of the dictionary (used) and a position (pos); each step first
   compares the size, then yields the entry at the position, if any *)
Fixpoint visit (remaining pos used : nat) (current_time : float)
         (completed_animations : list animation_id) (s : state)
  : outcome (list animation_id) state :=
  if negb (Nat.eqb (List.length (animations s)) used) then Raise RuntimeError s
  else
    match remaining with
    | O => Return completed_animations s
    | S remaining' =>
        match nth_error (animations s) pos with
        | None => Return completed_animations s
        | Some (anim_id, a) =>
            match advance current_time anim_id a s with
            | Raise e s' => Raise e s'
            | Return done s' =>
                visit remaining' (S pos) used current_time
                      (if done then completed_animations ++ [anim_id] else completed_animations) s'
            end
        end
    end.

(* for anim_id in completed_animations: del self.animations[anim_id] *)
Fixpoint delete_completed (completed_animations : list animation_id) (s : state)
  : outcome unit state :=
  match completed_animations with
  | [] => Return tt s
  | anim_id :: rest =>
      if od_mem id_eqb anim_id (animations s)
      then delete_completed rest (set_animations s (od_del id_eqb anim_id (animations s)))
      else Raise KeyError s
  end.

Definition _update_animations (current_time : float) (s : state) : outcome unit state :=
  let n := List.length (animations s) in
  match visit n 0 n current_time [] s with
  | Raise e s' => Raise e s'
  | Return completed_animations s' => delete_completed completed_animations s'
  end.

End Easing.

End Anim.

(** ** The manager's use of the texture cache *)

Module Loader.



(* what the collaborators answer during one call of _load_texture_with_cache *)
Record load_env : Type := {
  surface : option (Z * Z);    (* pygame.image.load(...).get_size(), None when loading raises *)
  new_texture : Z              (* glGenTextures(1) *)
}.

(* OpenGLRenderManager._load_texture_with_cache; a cached dictionary is
   never empty (the loader stores 'path' and 'last_used' as well), so
   [if cached_texture] holds for every hit *)
Definition _load_texture_with_cache (image_path : string) (env : load_env) (s : LRU.state)
  : outcome (option Z) LRU.state :=
  if String.eqb image_path "" then Return None s
  else
    match LRU.get image_path s with
    | Raise e s' => Raise e s'
    | Return (Some cached_texture) s1 =>
        match LRU.texture_id cached_texture with
        | Some t => Return (Some t) s1
        | None => Raise KeyError s1
        end
    | Return None s1 =>
        match surface env with
        | None => Return None s1                      (* except Exception: return None *)
        | Some (w, h) =>
            let texture_info :=
              {| LRU.texture_id := Some (new_texture env);
                 LRU.width := Some w; LRU.height := Some h |} in
            match LRU.put image_path texture_info s1 with
            | Raise _ s2 => Return None s2            (* except Exception: return None *)
            | Return _ s2 => Return (Some (new_texture env)) s2
            end
        end
    end.

(* OpenGLRenderManager._load_texture *)
Definition _load_texture := _load_texture_with_cache.

End Loader.

(** ** sorted(items, key=...) *)

Section StableSort.
Context {A : Type}.
Variable key : A -> Q.

(* Python's sort is stable, so the result is the one insertion sort gives *)
Fixpoint insert_by (x : A) (l : list A) : list A :=
  match l with
  | [] => [x]
  | y :: l' => if Qle_bool (key x) (key y) then x :: y :: l' else y :: insert_by x l'
  end.

Definition sorted_by (l : list A) : list A := fold_right insert_by [] l.

End StableSort.

(** ** The font-instance cache *)

Module FontCache.

(* one value of self.font_instances; the pygame font is an opaque handle *)
Record font_instance : Type := {
  font : Z;
  size : Z;
  name : string;
  last_used : Q;
  created : Q;
  supports_chinese : bool
}.

Record font_cache : Type := {
  font_instances : list (string * font_instance);   (* dict, insertion order *)
  max_font_instances : Z
}.

(* __init__, lines 253-254 *)
Definition init : font_cache := {| font_instances := []; max_font_instances := 50 |}.

Definition set_instances (c : font_cache) (d : list (string * font_instance)) : font_cache :=
  {| font_instances := d; max_font_instances := max_font_instances c |}.

(* the while loop of _cleanup_font_instances *)
Fixpoint drop_oldest (sorted_instances : list (string * font_instance))
         (d : list (string * font_instance)) (target : Z)
  : outcome unit (list (string * font_instance)) :=
  if Z.of_nat (List.length d) <=? target then Return tt d
  else
    match sorted_instances with
    | [] => Raise IndexError d
    | (key, _) :: rest =>
        match od_get String.eqb key d with
        | None => Raise KeyError d
        | Some _ => drop_oldest rest (od_del String.eqb key d) target
        end
    end.

Definition _cleanup_font_instances (c : font_cache) : outcome unit font_cache :=
  if Z.of_nat (List.length (font_instances c)) <=? max_font_instances c then Return tt c
  else
    match drop_oldest (sorted_by (fun e => last_used (snd e)) (font_instances c))
                      (font_instances c)
                      (Z.max 5 (max_font_instances c / 2)) with
    | Return _ d => Return tt (set_instances c d)
    | Raise e d => Raise e (set_instances c d)
    end.

End FontCache.

(** ** Teardown *)

Module Teardown.

(* the caches that cleanup() empties *)
Record caches : Type := {
  lru_texture_cache : LRU.LRUTextureCache;
  texture_cache : list (string * Z);              (* the compatibility dictionary *)
  text_cache : TextCache.text_cache;
  font_cache : list (string * FontCache.font_instance);
  font_instances : list (string * FontCache.font_instance);
  _cleaned_up : bool
}.

Definition state : Type := caches * gl_log.

(* OpenGLRenderManager.cleanup, up to the calls into pygame *)
Definition cleanup (s : state) : outcome unit state :=
  let (m, gl) := s in
  if _cleaned_up m then Return tt s
  else
    match LRU.clear (lru_texture_cache m, gl) with
    | Raise e (c, gl1) =>
        Raise e ({| lru_texture_cache := c; texture_cache := texture_cache m;
                    text_cache := text_cache m; font_cache := font_cache m;
                    font_instances := font_instances m; _cleaned_up := false |}, gl1)
    | Return _ (c, gl1) =>
        let gl2 := fold_left (fun g e => glDeleteTextures (snd e) g) (texture_cache m) gl1 in
        let (t, gl3) := TextCache.cleanup_text_cache (text_cache m, gl2) in
        Return tt ({| lru_texture_cache := c; texture_cache := [];
                      text_cache := t; font_cache := [];
                      font_instances := []; _cleaned_up := true |}, gl3)
    end.

(* OpenGLRenderManager.__del__ *)
Definition __del__ (s : state) : outcome unit state :=
  if negb (_cleaned_up (fst s)) then cleanup s else Return tt s.

End Teardown.

(** ** The task registry, the layers and the draw order *)

Module Registry.
#[local] Open Scope float_scope.

(* one value of self.draggable_tasks *)
Record drag_config : Type := {
  constraint_x : bool;
  constraint_y : bool;
  min_x : option float;
  max_x : option float;
  min_y : option float;
  max_y : option float
}.

(* the attributes of the manager that the registry code reads or writes;
   self.physics_tasks only exists when the manager was built with
   enable_physics=True (_init_all_systems) *)
Record state : Type := {
  tasks : registry;
  task_layers : list (string * list string);        (* dict: layer -> task ids *)
  draggable_tasks : list (string * drag_config);
  physics_tasks : option (list (string * Physics.physics_body));
  clickable_tasks : list (string * pyval);
  default_font_size : float
}.

(* _init_render_systems *)
Definition layer_order : list string :=
  ["background"; "world"; "game"; "gui"; "overlay"; "particles"; "effects"; "debug"]%string.

Definition initial_task_layers : list (string * list string) :=
  map (fun layer => (layer, [])) layer_order.

Definition set_tasks (s : state) (t : registry) : state :=
  {| tasks := t; task_layers := task_layers s; draggable_tasks := draggable_tasks s;
     physics_tasks := physics_tasks s; clickable_tasks := clickable_tasks s;
     default_font_size := default_font_size s |}.

Definition set_task_layers (s : state) (l : list (string * list string)) : state :=
  {| tasks := tasks s; task_layers := l; draggable_tasks := draggable_tasks s;
     physics_tasks := physics_tasks s; clickable_tasks := clickable_tasks s;
     default_font_size := default_font_size s |}.

(* {..., **properties} *)
Definition with_properties (properties : list (string * pyval)) (t : task) : task :=
  fold_left (fun t p => <[fst p := snd p]> t) properties t.

(* dict.setdefault *)
Definition setdefault (k : string) (v : pyval) (t : task) : task :=
  match t !! k with Some _ => t | None => <[k := v]> t end.

Definition white : pyval := VSeq [255; 255; 255; 255].

(* the dictionary create_task builds; created is the reading of time.time(),
   and True is the integer 1 *)
Definition new_task (task_type task_id : string) (properties : list (string * pyval))
           (created font_size : float) : task :=
  let task :=
    with_properties properties
      (<["layer"%string := VStr "game"]>
         (<["visible"%string := VNum 1]>
            (<["created"%string := VNum created]>
               (<["type"%string := VStr task_type]>
                  (<["id"%string := VStr task_id]> ∅))))) in
  if String.eqb task_type "rect" then
    setdefault "color" white
      (setdefault "height" (VNum 100)
         (setdefault "width" (VNum 100)
            (setdefault "y" (VNum 0) (setdefault "x" (VNum 0) task))))
  else if String.eqb task_type "circle" then
    setdefault "color" white
      (setdefault "radius" (VNum 50)
         (setdefault "y" (VNum 0) (setdefault "x" (VNum 0) task)))
  else if String.eqb task_type "text" then
    setdefault "font_size" (VNum font_size)
      (setdefault "color" white
         (setdefault "text" (VStr "")
            (setdefault "y" (VNum 0) (setdefault "x" (VNum 0) task))))
  else task.

(* task.get('layer', 'game') when it is a string, as the layer names are;
   a layer of another type is outside this model *)
Definition layer_of (t : task) : option string :=
  match t !! "layer"%string with
  | None => Some "game"%string
  | Some (VStr layer) => Some layer
  | Some _ => None
  end.

(* create_task; None where the layer is not a string *)
Definition create_task (task_type task_id : string) (properties : list (string * pyval))
           (created : float) (s : state) : option (string * state) :=
  let task := new_task task_type task_id properties created (default_font_size s) in
  match layer_of task with
  | None => None
  | Some layer =>
      let s1 := set_tasks s (<[task_id := task]> (tasks s)) in
      let layers :=
        if negb (od_mem String.eqb layer (task_layers s1))
        then od_set String.eqb layer [] (task_layers s1)
        else task_layers s1 in
      match od_get String.eqb layer layers with
      | None => None                                  (* not reached *)
      | Some ids =>
          Some (task_id, set_task_layers s1 (od_set String.eqb layer (ids ++ [task_id]) layers))
      end
  end.

Definition create_rect (task_id : string) (x y width height : pyval)
           (kwargs : list (string * pyval)) :=
  create_task "rect" task_id
    ([("x", x); ("y", y); ("width", width); ("height", height)]%string ++ kwargs).

Definition create_circle (task_id : string) (x y radius : pyval)
           (kwargs : list (string * pyval)) :=
  create_task "circle" task_id ([("x", x); ("y", y); ("radius", radius)]%string ++ kwargs).

Definition create_line_task (task_id : string) (x1 y1 x2 y2 : pyval)
           (kwargs : list (string * pyval)) :=
  create_task "line" task_id
    ([("x1", x1); ("y1", y1); ("x2", x2); ("y2", y2)]%string ++ kwargs).

Definition get_task (task_id : string) (s : state) : option task := tasks s !! task_id.

(* list.remove(x): the first occurrence *)
Fixpoint list_remove (x : string) (l : list string) : list string :=
  match l with
  | [] => []
  | y :: l' => if String.eqb x y then l' else y :: list_remove x l'
  end.

(* remove_task; None where the layer of the task is not a string.  Without
   self.physics_tasks the membership test raises AttributeError after the
   layer list and the drag table have been updated, before the task is
   unregistered *)
Definition remove_task (task_id : string) (s : state) : option (outcome bool state) :=
  match tasks s !! task_id with
  | None => Some (Return false s)
  | Some task =>
      match layer_of task with
      | None => None
      | Some layer =>
          let layers :=
            match od_get String.eqb layer (task_layers s) with
            | Some ids =>
                if existsb (String.eqb task_id) ids
                then od_set String.eqb layer (list_remove task_id ids) (task_layers s)
                else task_layers s
            | None => task_layers s
            end in
          let draggable :=
            if od_mem String.eqb task_id (draggable_tasks s)
            then od_del String.eqb task_id (draggable_tasks s)
            else draggable_tasks s in
          match physics_tasks s with
          | None =>
              Some (Raise AttributeError
                          {| tasks := tasks s;
                             task_layers := layers;
                             draggable_tasks := draggable;
                             physics_tasks := None;
                             clickable_tasks := clickable_tasks s;
                             default_font_size := default_font_size s |})
          | Some bodies =>
              Some (Return true
                          {| tasks := delete task_id (tasks s);
                             task_layers := layers;
                             draggable_tasks := draggable;
                             physics_tasks :=
                               Some (if od_mem String.eqb task_id bodies
                                     then od_del String.eqb task_id bodies
                                     else bodies);
                             clickable_tasks :=
                               if od_mem String.eqb task_id (clickable_tasks s)
                               then od_del String.eqb task_id (clickable_tasks s)
                               else clickable_tasks s;
                             default_font_size := default_font_size s |})
          end
      end
  end.

Definition update_task_property (task_id property_name : string) (value : pyval) (s : state)
  : bool * state :=
  match tasks s !! task_id with
  | Some task => (true, set_tasks s (<[task_id := <[property_name := value]> task]> (tasks s)))
  | None => (false, s)
  end.

Definition set_task_visibility (task_id : string) (visible : pyval) (s : state) : bool * state :=
  update_task_property task_id "visible" visible s.

Section Drawing.
(* bool(v) for a value of another class, given by its repr: False for None,
   an empty dict or set and the like, True for most objects *)
Variable other_true : string -> bool.

(* bool(v) *)
Definition truthy (v : pyval) : bool :=
  match v with
  | VNum f => negb (f =? 0)
  | VSeq l => negb (Nat.eqb (List.length l) 0)
  | VStr s => negb (Nat.eqb (String.length s) 0)
  | VOther repr => other_true repr
  end.

(* task and task.get('visible', True), for task = self.tasks.get(task_id) *)
Definition is_drawable (tasks : registry) (task_id : string) : bool :=
  match tasks !! task_id with
  | None => false
  | Some task =>
      negb (Nat.eqb (base.size task) 0) &&
      match task !! "visible"%string with
      | None => true
      | Some v => truthy v
      end
  end.

(* the loops of render_frame: the ids for which the condition holds, layer
   by layer *)
Definition selected (s : state) : list string :=
  flat_map (fun layer =>
              match od_get String.eqb layer (task_layers s) with
              | Some ids => filter (is_drawable (tasks s)) ids
              | None => []
              end) layer_order.

(* _render_task_optimized reads task['type'] outside its try block: the
   first selected task without a type ends the frame (render_frame catches
   the KeyError and returns False) *)
Fixpoint until_untyped (tasks : registry) (ids : list string) : list string :=
  match ids with
  | [] => []
  | task_id :: rest =>
      match tasks !! task_id with
      | None => []
      | Some task =>
          match task !! "type"%string with
          | None => []
          | Some _ => task_id :: until_untyped tasks rest
          end
      end
  end.

(* the tasks that render_frame draws in a created window, in drawing order *)
Definition render_calls (s : state) : list string := until_untyped (tasks s) (selected s).

End Drawing.

End Registry.

(** ** The coordinate origin and the frame statistics *)

Module Coordinates.

(* self.coordinate_transform *)
Record transform : Type := { base_x : Z; base_y : Z; flip_y : Z }.

(* _init_coordinate_system *)
Definition coordinate_origin_options (window_size : Z * Z) : list (string * (Z * Z)) :=
  [ ("top_left"%string, (0, 0));
    ("bottom_left"%string, (0, snd window_size));
    ("top_right"%string, (fst window_size, 0));
    ("bottom_right"%string, (fst window_size, snd window_size));
    ("center"%string, (fst window_size / 2, snd window_size / 2)) ].

Definition initial_transform : transform := {| base_x := 0; base_y := 0; flip_y := 1 |}.

Definition _update_coordinate_transform (coordinate_origin : string) (window_size : Z * Z)
           (t : transform) : transform :=
  let '(window_width, window_height) := window_size in
  if String.eqb coordinate_origin "top_left" then
    {| base_x := 0; base_y := 0; flip_y := 1 |}
  else if String.eqb coordinate_origin "bottom_left" then
    {| base_x := 0; base_y := window_height; flip_y := -1 |}
  else if String.eqb coordinate_origin "top_right" then
    {| base_x := window_width; base_y := 0; flip_y := 1 |}
  else if String.eqb coordinate_origin "bottom_right" then
    {| base_x := window_width; base_y := window_height; flip_y := -1 |}
  else if String.eqb coordinate_origin "center" then
    {| base_x := window_width / 2; base_y := window_height / 2; flip_y := 1 |}
  else t.

Definition _transform_mouse_position (t : transform) (mouse_x mouse_y : Z) : Z * Z :=
  let transformed_x := mouse_x - base_x t in
  let transformed_y := mouse_y - base_y t in
  (transformed_x, if flip_y t =? -1 then - transformed_y else transformed_y).

End Coordinates.

Module Perf.
#[local] Open Scope float_scope.

(* the attributes _update_performance_stats writes, with the entries of
   self.stats that it updates *)
Record perf : Type := {
  frame_times : list float;
  fps_history : list float;
  max_history_size : Z;
  last_frame_time : float;
  current_fps : float;
  frame_count : Z;
  last_fps_update : float;
  average_frame_time : float;
  stats_fps : float;
  stats_frame_time : float;
  stats_task_count : Z;
  stats_animation_count : Z;
  stats_physics_body_count : Z;
  stats_texture_count : Z
}.

(* the sizes of the tables of the other subsystems at the time of the call;
   self.physics_tasks only exists when the manager was built with
   enable_physics=True, so its len() may raise AttributeError *)
Record sizes : Type := {
  task_count : Z;               (* len(self.tasks) *)
  animation_count : Z;          (* len(self.animations) *)
  physics_body_count : option Z;  (* len(self.physics_tasks) *)
  texture_count : Z             (* len(self.texture_cache) *)
}.

(* l.append(x); if len(l) > max_history_size: l.pop(0) *)
Definition append_bounded (max_history_size : Z) (l : list float) (x : float) : list float :=
  let l1 := l ++ [x] in
  if (max_history_size <? Z.of_nat (List.length l1))%Z then tl l1 else l1.

Section Update.
(* sum() of a list of floats *)
Variable py_sum : list float -> float.

(* self.stats.update({...}): the dictionary is built first, value by value *)
Definition update_stats (n : sizes) (p : perf) : outcome unit perf :=
  match physics_body_count n with
  | None => Raise AttributeError p
  | Some bodies =>
      Return tt
             {| frame_times := frame_times p; fps_history := fps_history p;
                max_history_size := max_history_size p;
                last_frame_time := last_frame_time p;
                current_fps := current_fps p; frame_count := frame_count p;
                last_fps_update := last_fps_update p;
                average_frame_time := average_frame_time p;
                stats_fps := current_fps p;
                stats_frame_time := average_frame_time p * 1000;
                stats_task_count := task_count n;
                stats_animation_count := animation_count n;
                stats_physics_body_count := bodies;
                stats_texture_count := texture_count n |}
  end.

Definition _update_performance_stats (current_time : float) (n : sizes) (p : perf)
  : outcome unit perf :=
  let frame_time := current_time - last_frame_time p in
  let times := append_bounded (max_history_size p) (frame_times p) frame_time in
  let average :=
    match times with
    | [] => average_frame_time p
    | _ :: _ => py_sum times / float_of_int (Z.of_nat (List.length times))
    end in
  let count := (frame_count p + 1)%Z in
  let p1 :=
    {| frame_times := times; fps_history := fps_history p;
       max_history_size := max_history_size p; last_frame_time := current_time;
       current_fps := current_fps p; frame_count := count;
       last_fps_update := last_fps_update p; average_frame_time := average;
       stats_fps := stats_fps p; stats_frame_time := stats_frame_time p;
       stats_task_count := stats_task_count p;
       stats_animation_count := stats_animation_count p;
       stats_physics_body_count := stats_physics_body_count p;
       stats_texture_count := stats_texture_count p |} in
  if 1.0 <=? current_time - last_fps_update p then
    match Physics.py_div (float_of_int count) (current_time - last_fps_update p) with
    | None => Raise ZeroDivisionError p1
    | Some fps =>
        update_stats n
          {| frame_times := times;
             fps_history := append_bounded (max_history_size p) (fps_history p) fps;
             max_history_size := max_history_size p; last_frame_time := current_time;
             current_fps := fps; frame_count := 0;
             last_fps_update := current_time; average_frame_time := average;
             stats_fps := stats_fps p; stats_frame_time := stats_frame_time p;
             stats_task_count := stats_task_count p;
             stats_animation_count := stats_animation_count p;
             stats_physics_body_count := stats_physics_body_count p;
             stats_texture_count := stats_texture_count p |}
    end
  else update_stats n p1.

End Update.

End Perf.
(** * Facts about insertion-ordered dictionaries *)

Section OrderedDictFacts.
Context {K V : Type}.
Variable eqb : K -> K -> bool.
Hypothesis eqb_spec : forall a b, eqb a b = true <-> a = b.

Lemma eqb_refl_od k : eqb k k = true.
Proof. now apply eqb_spec. Qed.

Lemma od_get_None_notin k (d : list (K * V)) : od_get eqb k d = None <-> ~ In k (od_keys d).
Proof.
  induction d as [|[k' v] d IH]; simpl.
  - tauto.
  - destruct (eqb k k') eqn:E.
    + apply eqb_spec in E. subst. split; [discriminate | intros H; exfalso; apply H; now left].
    + rewrite IH. split.
      * intros H [H1 | H1]; [|tauto]. subst k'. rewrite eqb_refl_od in E. discriminate.
      * intros H H1. apply H. now right.
Qed.

Lemma od_get_Some_in k v (d : list (K * V)) : od_get eqb k d = Some v -> In (k, v) d.
Proof.
  induction d as [|[k' v'] d IH]; simpl; [discriminate|].
  destruct (eqb k k') eqn:E.
  - apply eqb_spec in E. subst. intros [= ->]. now left.
  - intros H. right. auto.
Qed.

Lemma od_mem_true_in k (d : list (K * V)) : od_mem eqb k d = true <-> In k (od_keys d).
Proof.
  unfold od_mem. destruct (od_get eqb k d) eqn:E.
  - split; [intros _ | reflexivity].
    apply od_get_Some_in in E. apply (in_map fst) in E. exact E.
  - apply od_get_None_notin in E. split; [discriminate | tauto].
Qed.

Lemma od_del_notin k (d : list (K * V)) : ~ In k (od_keys d) -> od_del eqb k d = d.
Proof.
  induction d as [|[k' v] d IH]; simpl; [reflexivity|].
  intros H. destruct (eqb k k') eqn:E.
  - apply eqb_spec in E. subst. exfalso. apply H. now left.
  - f_equal. apply IH. tauto.
Qed.

Lemma od_del_keys_incl k (d : list (K * V)) x : In x (od_keys (od_del eqb k d)) -> In x (od_keys d).
Proof.
  induction d as [|[k' v] d IH]; simpl; [tauto|].
  destruct (eqb k k'); simpl; [tauto|]. intros [H | H]; [now left | right; auto].
Qed.

Lemma od_del_incl k (d : list (K * V)) : incl (od_del eqb k d) d.
Proof.
  induction d as [|[k' v] d IH]; simpl; [apply incl_refl|].
  destruct (eqb k k').
  - apply incl_tl, incl_refl.
  - intros x [<- | H]; [now left | right; now apply IH].
Qed.

Lemma od_del_NoDup k (d : list (K * V)) : NoDup (od_keys d) -> NoDup (od_keys (od_del eqb k d)).
Proof.
  induction d as [|[k' v] d IH]; simpl; [auto|].
  intros H. inversion H as [|? ? Hn Hd]; subst.
  destruct (eqb k k'); simpl; [assumption|].
  constructor; [|auto]. intros Hin. apply Hn. eapply od_del_keys_incl; eauto.
Qed.

Lemma od_del_gone k (d : list (K * V)) : NoDup (od_keys d) -> ~ In k (od_keys (od_del eqb k d)).
Proof.
  induction d as [|[k' v] d IH]; simpl; [tauto|].
  intros H. inversion H as [|? ? Hn Hd]; subst.
  destruct (eqb k k') eqn:E.
  - apply eqb_spec in E. now subst.
  - simpl. intros [H1 | H1].
    + subst. rewrite eqb_refl_od in E. discriminate.
    + now apply IH.
Qed.

Lemma od_del_length k (d : list (K * V)) :
  In k (od_keys d) -> S (length (od_del eqb k d)) = length d.
Proof.
  induction d as [|[k' v] d IH]; simpl; [tauto|].
  destruct (eqb k k') eqn:E; [reflexivity|].
  intros [H | H].
  - subst. rewrite eqb_refl_od in E. discriminate.
  - simpl. f_equal. auto.
Qed.

Lemma od_set_notin k v (d : list (K * V)) : ~ In k (od_keys d) -> od_set eqb k v d = d ++ [(k, v)].
Proof.
  induction d as [|[k' v'] d IH]; simpl; [reflexivity|].
  intros H. destruct (eqb k k') eqn:E.
  - apply eqb_spec in E. subst. exfalso. apply H. now left.
  - f_equal. apply IH. tauto.
Qed.

Lemma od_get_app_last k v (d : list (K * V)) :
  ~ In k (od_keys d) -> od_get eqb k (d ++ [(k, v)]) = Some v.
Proof.
  induction d as [|[k' v'] d IH]; simpl.
  - now rewrite eqb_refl_od.
  - intros H. destruct (eqb k k') eqn:E.
    + apply eqb_spec in E. subst. exfalso. apply H. now left.
    + apply IH. tauto.
Qed.

Lemma od_del_app_last k v (d : list (K * V)) :
  ~ In k (od_keys d) -> od_del eqb k (d ++ [(k, v)]) = d.
Proof.
  induction d as [|[k' v'] d IH]; simpl.
  - now rewrite eqb_refl_od.
  - intros H. destruct (eqb k k') eqn:E.
    + apply eqb_spec in E. subst. exfalso. apply H. now left.
    + f_equal. apply IH. tauto.
Qed.

Lemma od_set_mem_keys k v (d : list (K * V)) :
  In k (od_keys d) -> od_keys (od_set eqb k v d) = od_keys d.
Proof.
  induction d as [|[k' v'] d IH]; simpl; [tauto|].
  intros H. destruct (eqb k k') eqn:E; simpl; [reflexivity|].
  f_equal. apply IH. destruct H as [H | H]; [|assumption].
  subst. rewrite eqb_refl_od in E. discriminate.
Qed.

Lemma od_del_Permutation k v (d : list (K * V)) :
  NoDup (od_keys d) -> In (k, v) d -> Permutation d ((k, v) :: od_del eqb k d).
Proof.
  induction d as [|[k' v'] d IH]; simpl; [tauto|].
  intros Hnd Hin. inversion Hnd as [|? ? Hn Hd]; subst.
  destruct (eqb k k') eqn:E.
  - apply eqb_spec in E. subst k'. destruct Hin as [[= ->] | Hin]; [reflexivity|].
    exfalso. apply Hn. apply (in_map fst) in Hin. exact Hin.
  - destruct Hin as [[= -> ->] | Hin].
    + rewrite eqb_refl_od in E. discriminate.
    + rewrite perm_swap. constructor. now apply IH.
Qed.

Lemma od_get_In_NoDup k v (d : list (K * V)) :
  NoDup (od_keys d) -> In (k, v) d -> od_get eqb k d = Some v.
Proof.
  induction d as [|[k' v'] d IH]; simpl; [tauto|].
  intros Hnd Hin. inversion Hnd as [|? ? Hn Hd]; subst.
  destruct Hin as [[= -> ->] | Hin].
  - now rewrite eqb_refl_od.
  - destruct (eqb k k') eqn:E; [|auto].
    apply eqb_spec in E. subst k'. exfalso. apply Hn.
    apply (in_map fst) in Hin. exact Hin.
Qed.

(* replacing the value of another key does not change what k maps to *)
Lemma od_get_app_other k k' v v' (d1 d2 : list (K * V)) :
  k <> k' ->
  od_get eqb k (d1 ++ (k', v') :: d2) = od_get eqb k (d1 ++ (k', v) :: d2).
Proof.
  intros Hne. induction d1 as [|[k1 v1] d1 IH]; simpl.
  - destruct (eqb k k') eqn:E; [|reflexivity]. apply eqb_spec in E. contradiction.
  - now rewrite IH.
Qed.

Lemma od_keys_app (d1 d2 : list (K * V)) : od_keys (d1 ++ d2) = od_keys d1 ++ od_keys d2.
Proof. apply map_app. Qed.

Lemma NoDup_snoc_od k v (d : list (K * V)) :
  NoDup (od_keys d) -> ~ In k (od_keys d) -> NoDup (od_keys (d ++ [(k, v)])).
Proof.
  intros Hd Hn. rewrite od_keys_app. simpl.
  apply NoDup_app; [assumption | repeat constructor; simpl; tauto |].
  intros x Hx [<- | []]. tauto.
Qed.
End OrderedDictFacts.

Lemma string_eqb_iff (a b : string) : String.eqb a b = true <-> a = b.
Proof. apply String.eqb_eq. Qed.

(** * Further facts about insertion-ordered dictionaries *)

Section OrderedDictMore.
Context {K V : Type}.
Variable eqb : K -> K -> bool.
Hypothesis eqb_spec : forall a b, eqb a b = true <-> a = b.

Lemma eqb_neq_od a b : a <> b -> eqb a b = false.
Proof.
  intros Hne. destruct (eqb a b) eqn:E; [|reflexivity].
  apply eqb_spec in E. contradiction.
Qed.

Lemma od_get_set_same k v (d : list (K * V)) : od_get eqb k (od_set eqb k v d) = Some v.
Proof.
  induction d as [|[k1 v1] d IH]; simpl.
  - now rewrite (eqb_refl_od eqb eqb_spec).
  - destruct (eqb k k1) eqn:E; simpl; rewrite E; [reflexivity | exact IH].
Qed.

Lemma od_get_set_other k k' v (d : list (K * V)) :
  k' <> k -> od_get eqb k' (od_set eqb k v d) = od_get eqb k' d.
Proof.
  intros Hne. induction d as [|[k1 v1] d IH]; simpl.
  - now rewrite (eqb_neq_od k' k).
  - destruct (eqb k k1) eqn:E; simpl.
    + apply eqb_spec in E. subst k1. now rewrite (eqb_neq_od k' k).
    + now rewrite IH.
Qed.

Lemma od_get_del_same k (d : list (K * V)) :
  NoDup (od_keys d) -> od_get eqb k (od_del eqb k d) = None.
Proof.
  intros Hnd. apply (od_get_None_notin eqb eqb_spec). now apply (od_del_gone eqb eqb_spec).
Qed.

Lemma od_get_del_neq k k' (d : list (K * V)) :
  k' <> k -> od_get eqb k' (od_del eqb k d) = od_get eqb k' d.
Proof.
  intros Hne. induction d as [|[k1 v1] d IH]; simpl; [reflexivity|].
  destruct (eqb k k1) eqn:E.
  - apply eqb_spec in E. subst k1. now rewrite (eqb_neq_od k' k).
  - simpl. now rewrite IH.
Qed.

Lemma od_set_keys_mem k v (d : list (K * V)) :
  In k (od_keys d) -> od_keys (od_set eqb k v d) = od_keys d.
Proof.
  induction d as [|[k1 v1] d IH]; simpl; [tauto|].
  intros Hin. destruct (eqb k k1) eqn:E; simpl; [reflexivity|].
  f_equal. apply IH. destruct Hin as [-> | H]; [|exact H].
  rewrite (eqb_refl_od eqb eqb_spec) in E. discriminate.
Qed.

Lemma od_set_NoDup k v (d : list (K * V)) :
  NoDup (od_keys d) -> NoDup (od_keys (od_set eqb k v d)).
Proof.
  intros Hnd. destruct (od_mem eqb k d) eqn:E.
  - apply (od_mem_true_in eqb eqb_spec) in E. now rewrite od_set_keys_mem.
  - assert (Hnin : ~ In k (od_keys d)).
    { intros H. apply (od_mem_true_in eqb eqb_spec) in H. congruence. }
    rewrite (od_set_notin eqb eqb_spec) by exact Hnin.
    now apply NoDup_snoc_od.
Qed.




End OrderedDictMore.

(** * LRUTextureCache: byte accounting and eviction *)

Module LRU_facts.
Import LRU.

Lemma Qgtb_true a b : Qgtb a b = true <-> (b < a)%Q.
Proof.
  unfold Qgtb. rewrite negb_true_iff. split.
  - intros H. apply Qnot_le_lt. intros Hle. apply Qle_bool_iff in Hle. congruence.
  - intros H. destruct (Qle_bool a b) eqn:E; [|reflexivity].
    apply Qle_bool_iff in E. exfalso. eapply Qlt_not_le; eauto.
Qed.

Lemma Qgtb_false a b : Qgtb a b = false <-> (a <= b)%Q.
Proof.
  unfold Qgtb. rewrite negb_false_iff. apply Qle_bool_iff.
Qed.

Lemma sum_sizes_app d1 d2 : sum_sizes (d1 ++ d2) = sum_sizes d1 + sum_sizes d2.
Proof.
  induction d1 as [|e d1 IH]; simpl; [reflexivity|]. rewrite IH. lia.
Qed.

Lemma sum_sizes_del k v d :
  od_get String.eqb k d = Some v ->
  sum_sizes (od_del String.eqb k d) = sum_sizes d - _calculate_texture_size v.
Proof.
  induction d as [|[k' v'] d IH]; simpl; [discriminate|].
  destruct (String.eqb k k').
  - intros [= ->]. lia.
  - intros H. simpl. rewrite (IH H). lia.
Qed.

Definition releases (pre : list (string * texture_data)) (gl : gl_log) : gl_log :=
  fold_left (fun g e => release (snd e) g) pre gl.

(** The first loop selects a prefix of the recency order. *)
Lemma scan_prefix target entries :
  forall cur keys ev,
  exists pre post,
    entries = pre ++ post /\
    scan target entries cur keys ev =
      (cur - sum_sizes pre, keys ++ od_keys pre, ev + Z.of_nat (List.length pre)) /\
    (post = [] \/ (inject_Z (cur - sum_sizes pre) <= target)%Q).
Proof.
  induction entries as [|[key td] rest IH]; intros cur keys ev.
  - exists [], []. simpl. rewrite Z.sub_0_r, Z.add_0_r, app_nil_r. auto.
  - simpl. destruct (Qle_bool (inject_Z cur) target) eqn:E.
    + exists [], ((key, td) :: rest). simpl.
      rewrite Z.sub_0_r, Z.add_0_r, app_nil_r. repeat split; auto.
      right. now apply Qle_bool_iff.
    + destruct (IH (cur - _calculate_texture_size td) (keys ++ [key]) (ev + 1))
        as (pre & post & -> & Hs & Hstop).
      exists ((key, td) :: pre), post. simpl. rewrite Hs.
      repeat split.
      * f_equal; [f_equal|]; [lia | now rewrite <- app_assoc | lia].
      * destruct Hstop as [-> | Hle]; [now left | right].
        replace (cur - (_calculate_texture_size td + sum_sizes pre))
          with (cur - _calculate_texture_size td - sum_sizes pre) by lia.
        exact Hle.
Qed.

(** The second loop deletes exactly that prefix and releases its textures. *)
Lemma release_keys_prefix pre :
  forall post gl,
    release_keys (od_keys pre) (pre ++ post) gl = Return tt (post, releases pre gl).
Proof.
  induction pre as [|[key td] pre IH]; intros post gl; simpl; [reflexivity|].
  rewrite String.eqb_refl. apply IH.
Qed.

(** Key uniqueness and the accounting equation. *)
Definition inv (c : LRUTextureCache) : Prop :=
  NoDup (od_keys (cache c)) /\ total_memory_usage c = sum_sizes (cache c).

Definition nonneg (d : list (string * texture_data)) : Prop :=
  Forall (fun e => 0 <= _calculate_texture_size (snd e)) d.

Lemma _cleanup_spec target c gl :
  exists pre post,
    cache c = pre ++ post /\
    _cleanup target (c, gl) =
      Return tt ({| max_size_bytes := max_size_bytes c;
                    cleanup_threshold := cleanup_threshold c;
                    cache := post;
                    total_memory_usage := total_memory_usage c - sum_sizes pre;
                    hits := hits c; misses := misses c;
                    evictions := evictions c + Z.of_nat (List.length pre) |},
                 releases pre gl) /\
    (post = [] \/ (inject_Z (total_memory_usage c - sum_sizes pre) <= target)%Q).
Proof.
  unfold _cleanup.
  destruct (Qle_bool (inject_Z (total_memory_usage c)) target) eqn:E.
  - exists [], (cache c). simpl. rewrite Z.sub_0_r, Z.add_0_r.
    repeat split; [destruct c; reflexivity|]. right. now apply Qle_bool_iff.
  - destruct (scan_prefix target (cache c) (total_memory_usage c) [] (evictions c))
      as (pre & post & Hc & Hs & Hstop).
    exists pre, post. rewrite Hs. simpl. rewrite Hc, release_keys_prefix.
    repeat split; auto.
Qed.

Lemma NoDup_app_r_od (pre post : list (string * texture_data)) :
  NoDup (od_keys (pre ++ post)) -> NoDup (od_keys post).
Proof.
  rewrite od_keys_app. induction (od_keys pre) as [|k l IH]; simpl; [auto|].
  intros H. inversion H; auto.
Qed.

Lemma _cleanup_inv target c gl :
  inv c ->
  exists c' gl',
    _cleanup target (c, gl) = Return tt (c', gl') /\ inv c' /\
    max_size_bytes c' = max_size_bytes c /\
    cleanup_threshold c' = cleanup_threshold c /\
    incl (cache c') (cache c) /\
    (cache c' = [] \/ (inject_Z (total_memory_usage c') <= target)%Q).
Proof.
  intros [Hnd Hsum].
  destruct (_cleanup_spec target c gl) as (pre & post & Hc & Hr & Hstop).
  eexists _, _. split; [exact Hr|]. split; [split; simpl|]; simpl.
  - rewrite Hc in Hnd. eapply NoDup_app_r_od; eauto.
  - rewrite Hsum, Hc, sum_sizes_app. lia.
  - repeat split; auto. rewrite Hc. apply incl_appr, incl_refl.
Qed.

(** What [put] does on a state whose keys are unique, once the size test
    has passed and the optional cleanup has returned [c1]. *)
Lemma put_tail_cache key td (d : list (string * texture_data)) :
  NoDup (od_keys d) ->
  let d2 := od_del String.eqb key d in
  od_set String.eqb key td d2 = d2 ++ [(key, td)] /\
  od_move_to_end String.eqb key (d2 ++ [(key, td)]) = Some (d2 ++ [(key, td)]) /\
  NoDup (od_keys (d2 ++ [(key, td)])).
Proof.
  intros Hnd d2.
  assert (Hgone : ~ In key (od_keys d2)) by (apply od_del_gone; [apply string_eqb_iff | assumption]).
  split; [|split].
  - apply od_set_notin; [apply string_eqb_iff | assumption].
  - unfold od_move_to_end.
    rewrite (od_get_app_last _ string_eqb_iff) by assumption.
    rewrite (od_del_app_last _ string_eqb_iff) by assumption. reflexivity.
  - apply NoDup_snoc_od; [|assumption]. apply od_del_NoDup. assumption.
Qed.

Definition old_size (key : string) (d : list (string * texture_data)) : Z :=
  match od_get String.eqb key d with
  | Some old_data => _calculate_texture_size old_data
  | None => 0
  end.

Lemma sum_sizes_del_old key d :
  sum_sizes (od_del String.eqb key d) = sum_sizes d - old_size key d.
Proof.
  unfold old_size. destruct (od_get String.eqb key d) eqn:E.
  - now apply sum_sizes_del.
  - rewrite od_del_notin; [lia | apply string_eqb_iff |].
    now apply (od_get_None_notin _ string_eqb_iff).
Qed.

Lemma put_accepted key td c gl :
  inv c ->
  Qgtb (inject_Z (_calculate_texture_size td)) (oversize_limit c) = false ->
  exists c1 gl1 c',
    (if Qgtb (inject_Z (total_memory_usage c + _calculate_texture_size td)) (cleanup_trigger c)
     then _cleanup (cleanup_target c) (c, gl) else Return tt (c, gl)) = Return tt (c1, gl1) /\
    inv c1 /\ incl (cache c1) (cache c) /\
    put key td (c, gl) = Return true (c', gl1) /\
    cache c' = od_del String.eqb key (cache c1) ++ [(key, td)] /\
    total_memory_usage c' =
      total_memory_usage c1 - old_size key (cache c1) + _calculate_texture_size td /\
    max_size_bytes c' = max_size_bytes c /\
    cleanup_threshold c' = cleanup_threshold c /\
    inv c'.
Proof.
  intros Hinv Hsize. unfold put. simpl fst. rewrite Hsize.
  set (cleaned := if Qgtb _ _ then _ else _).
  assert (Hcl : exists c1 gl1, cleaned = Return tt (c1, gl1) /\ inv c1 /\
                 max_size_bytes c1 = max_size_bytes c /\
                 cleanup_threshold c1 = cleanup_threshold c /\
                 incl (cache c1) (cache c)).
  { subst cleaned. destruct (Qgtb _ (cleanup_trigger c)).
    - destruct (_cleanup_inv (cleanup_target c) c gl Hinv)
        as (c1 & gl1 & Hr & Hi & Hm & Ht & Hincl & _).
      exists c1, gl1. auto.
    - exists c, gl. repeat split; auto; try apply Hinv. apply incl_refl. }
  destruct Hcl as (c1 & gl1 & Hr & Hi & Hm & Ht & Hincl).
  exists c1, gl1. rewrite Hr.
  destruct Hi as [Hnd Hsum].
  destruct (put_tail_cache key td (cache c1) Hnd) as (Hset & Hmove & Hnd').
  pose proof (sum_sizes_del_old key (cache c1)) as Hdel.
  unfold old_size in *.
  destruct (od_get String.eqb key (cache c1)) as [old_data|] eqn:Eg; simpl.
  - simpl in Hset, Hmove. rewrite Hset, Hmove.
    eexists. repeat split; simpl; auto.
    rewrite sum_sizes_app, Hdel. simpl. lia.
  - assert (Hd : od_del String.eqb key (cache c1) = cache c1).
    { apply od_del_notin; [apply string_eqb_iff|].
      now apply (od_get_None_notin _ string_eqb_iff). }
    rewrite Hd in *. simpl in Hset, Hmove. rewrite Hset, Hmove.
    eexists. repeat split; simpl; auto.
    + lia.
    + rewrite sum_sizes_app. simpl. lia.
Qed.

Lemma put_inv key td c gl :
  inv c -> exists b c' gl', put key td (c, gl) = Return b (c', gl') /\ inv c'.
Proof.
  intros Hinv.
  destruct (Qgtb (inject_Z (_calculate_texture_size td)) (oversize_limit c)) eqn:E.
  - exists false, c, gl. unfold put. simpl fst. rewrite E. auto.
  - destruct (put_accepted key td c gl Hinv E)
      as (c1 & gl1 & c' & _ & _ & _ & Hp & _ & _ & _ & _ & Hi).
    eauto.
Qed.

Lemma get_inv key c gl :
  inv c -> exists r c', get key (c, gl) = Return r (c', gl) /\ inv c'.
Proof.
  intros [Hnd Hsum]. unfold get, od_mem, od_move_to_end.
  destruct (od_get String.eqb key (cache c)) as [v|] eqn:Eg.
  - eexists _, _. split; [reflexivity|]. split; simpl.
    + apply NoDup_snoc_od; [now apply od_del_NoDup|].
      apply od_del_gone; [apply string_eqb_iff | assumption].
    + rewrite sum_sizes_app, (sum_sizes_del _ _ _ Eg). simpl. lia.
  - eexists _, _. split; [reflexivity|]. split; simpl; auto.
Qed.

Lemma remove_inv key c gl :
  inv c -> exists b c', remove key (c, gl) = Return b (c', gl) /\ inv c'.
Proof.
  intros [Hnd Hsum]. unfold remove.
  destruct (od_get String.eqb key (cache c)) as [v|] eqn:Eg.
  - eexists _, _. split; [reflexivity|]. split; simpl.
    + now apply od_del_NoDup.
    + rewrite (sum_sizes_del _ _ _ Eg). lia.
  - eexists _, _. split; [reflexivity|]. split; auto.
Qed.

Lemma step_inv o c gl :
  inv c -> exists c' gl', step o (c, gl) = Return tt (c', gl') /\ inv c'.
Proof.
  intros Hinv. destruct o as [k td | k | k | | t]; unfold step.
  - destruct (put_inv k td c gl Hinv) as (b & c' & gl' & -> & Hi). simpl. eauto.
  - destruct (get_inv k c gl Hinv) as (r & c' & -> & Hi). simpl. eauto.
  - destruct (remove_inv k c gl Hinv) as (b & c' & -> & Hi). simpl. eauto.
  - eexists _, _. split; [reflexivity|]. split; simpl; [constructor | reflexivity].
  - destruct (_cleanup_inv t c gl Hinv) as (c' & gl' & -> & Hi & _). eauto.
Qed.


Lemma init_inv mb t : inv (__init__ mb t).
Proof. split; simpl; [constructor | reflexivity]. Qed.

(** Entries never acquire a negative size when only textures of non-negative
    size are put. *)
Definition op_nonneg (o : op) : Prop :=
  match o with
  | Put _ td => 0 <= _calculate_texture_size td
  | _ => True
  end.

Lemma nonneg_incl d d' : incl d' d -> nonneg d -> nonneg d'.
Proof.
  unfold nonneg. rewrite !Forall_forall. intros Hi H x Hx. apply H, Hi, Hx.
Qed.

Lemma nonneg_snoc d key td :
  nonneg d -> 0 <= _calculate_texture_size td -> nonneg (d ++ [(key, td)]).
Proof.
  intros Hd Htd. apply Forall_app. split; [assumption|]. now repeat constructor.
Qed.

Lemma step_nonneg o c gl c' gl' :
  inv c -> nonneg (cache c) -> op_nonneg o ->
  step o (c, gl) = Return tt (c', gl') -> nonneg (cache c').
Proof.
  intros Hinv Hnn Ho. destruct o as [k td | k | k | | t]; unfold step.
  - destruct (Qgtb (inject_Z (_calculate_texture_size td)) (oversize_limit c)) eqn:E.
    + unfold put. simpl fst. rewrite E. simpl. now intros [= <- <-].
    + destruct (put_accepted k td c gl Hinv E)
        as (c1 & gl1 & c2 & _ & _ & Hincl & Hp & Hc & _).
      rewrite Hp. simpl. intros [= <- <-]. rewrite Hc.
      apply nonneg_snoc; [|exact Ho].
      eapply nonneg_incl; [apply od_del_incl|]. eapply nonneg_incl; eauto.
  - unfold get, od_mem, od_move_to_end.
    destruct (od_get String.eqb k (cache c)) as [v|] eqn:Eg; simpl; intros [= <- <-]; simpl; auto.
    apply Forall_app. split.
    + eapply nonneg_incl; [apply od_del_incl | assumption].
    + constructor; [|constructor].
      apply (od_get_Some_in _ string_eqb_iff) in Eg.
      unfold nonneg in Hnn. rewrite Forall_forall in Hnn. apply (Hnn _ Eg).
  - unfold remove.
    destruct (od_get String.eqb k (cache c)) as [v|] eqn:Eg; intros [= <- <-]; simpl; auto.
    eapply nonneg_incl; [apply od_del_incl | assumption].
  - simpl. intros [= <- <-]. constructor.
  - destruct (_cleanup_inv t c gl Hinv) as (c1 & gl1 & Hr & _ & _ & _ & Hincl & _).
    rewrite Hr. intros [= <- <-]. eapply nonneg_incl; eauto.
Qed.

Lemma run_nonneg ops :
  forall c gl c' gl',
    inv c -> nonneg (cache c) -> Forall op_nonneg ops ->
    run ops (c, gl) = Return tt (c', gl') -> inv c' /\ nonneg (cache c').
Proof.
  induction ops as [|o ops IH]; intros c gl c' gl' Hinv Hnn Hops; simpl.
  - intros [= <- <-]. auto.
  - inversion Hops as [|? ? Ho Hrest]; subst.
    destruct (step_inv o c gl Hinv) as (c1 & gl1 & Hs & Hi). rewrite Hs.
    intros Hrun. eapply IH; [exact Hi | | exact Hrest | exact Hrun].
    eapply step_nonneg; [exact Hinv | exact Hnn | exact Ho | exact Hs].
Qed.

(** [put] reaches its call of [_cleanup]: the size test passes and the
    usage test fires. *)
Definition put_triggers_cleanup (td : texture_data) (c : LRUTextureCache) : bool :=
  negb (Qgtb (inject_Z (_calculate_texture_size td)) (oversize_limit c)) &&
  Qgtb (inject_Z (total_memory_usage c + _calculate_texture_size td)) (cleanup_trigger c).


(** A [put] that reaches its eviction call returns success with tracked
    usage at most the target the code computes plus the byte size of the
    texture just inserted. *)
Lemma put_after_eviction_binary64 :
  forall (max_size_mb : Z) (threshold : Q) (gl0 : gl_log) (ops : list op)
         (c : LRUTextureCache) (gl : gl_log) (key : string) (td : texture_data),
    Forall op_nonneg ops ->
    run ops (__init__ max_size_mb threshold, gl0) = Return tt (c, gl) ->
    0 <= _calculate_texture_size td ->
    (0 <= cleanup_target c)%Q ->
    put_triggers_cleanup td c = true ->
    exists c' gl',
      put key td (c, gl) = Return true (c', gl') /\
      (inject_Z (total_memory_usage c') <=
         cleanup_target c + inject_Z (_calculate_texture_size td))%Q.
Proof.
  intros mb t gl0 ops c gl key td Hops Hrun Htd Hpos Htrig.
  destruct (run_nonneg ops _ _ _ _ (init_inv mb t) (Forall_nil _) Hops Hrun) as [Hinv Hnn].
  unfold put_triggers_cleanup in Htrig. apply andb_true_iff in Htrig.
  destruct Htrig as [Hsize Hover]. apply negb_true_iff in Hsize.
  destruct (put_accepted key td c gl Hinv Hsize)
    as (c1 & gl1 & c' & Hcl & Hinv1 & Hincl & Hp & Hc & Htot & _).
  exists c', gl1. split; [exact Hp|].
  rewrite Hover in Hcl.
  destruct (_cleanup_inv (cleanup_target c) c gl Hinv)
    as (c1' & gl1' & Hr & _ & _ & _ & _ & Hstop).
  rewrite Hr in Hcl. injection Hcl as -> ->.
  assert (Hold : 0 <= old_size key (cache c1)).
  { unfold old_size. destruct (od_get String.eqb key (cache c1)) as [v|] eqn:Eg; [|lia].
    apply (od_get_Some_in _ string_eqb_iff) in Eg. apply Hincl in Eg.
    unfold nonneg in Hnn. rewrite Forall_forall in Hnn. apply (Hnn _ Eg). }
  assert (Hhalf : (inject_Z (total_memory_usage c1) <= cleanup_target c)%Q).
  { destruct Hstop as [Hempty | Hle]; [|exact Hle].
    destruct Hinv1 as [_ Hsum]. rewrite Hsum, Hempty. exact Hpos. }
  rewrite Htot.
  replace (total_memory_usage c1 - old_size key (cache c1) + _calculate_texture_size td)
    with ((total_memory_usage c1 - old_size key (cache c1)) + _calculate_texture_size td) by lia.
  rewrite inject_Z_plus. apply Qplus_le_compat; [|apply Qle_refl].
  eapply Qle_trans; [|exact Hhalf]. rewrite <- Zle_Qle. lia.
Qed.

(** The binary64 limits of a cache decide like the exact fractions of its
    budget: an integer is above the rounded product when it is above the
    exact one, and the eviction target is half the budget. *)
Definition exact_limits (c : LRUTextureCache) : bool :=
  (Qfloor (oversize_limit c) =? Qfloor (inject_Z (max_size_bytes c) * (1 # 10))) &&
  (Qfloor (cleanup_trigger c) =?
     Qfloor (inject_Z (max_size_bytes c) * cleanup_threshold c)) &&
  Qeq_bool (cleanup_target c) (inject_Z (max_size_bytes c) * (1 # 2)).

Lemma floor_decides (x y : Q) (n : Z) :
  Qfloor x = Qfloor y -> Qgtb (inject_Z n) x = Qgtb (inject_Z n) y.
Proof.
  intros Hf.
  assert (H : forall z, (z < inject_Z n)%Q <-> Qfloor z < n).
  { intros z. split.
    - intros Hz. rewrite Zlt_Qlt. eapply Qle_lt_trans; [apply Qfloor_le | exact Hz].
    - intros Hz. eapply Qlt_le_trans; [apply Qlt_floor|]. rewrite <- Zle_Qle. lia. }
  destruct (Qgtb (inject_Z n) x) eqn:Ex, (Qgtb (inject_Z n) y) eqn:Ey; try reflexivity.
  - apply Qgtb_true, H in Ex. rewrite Hf in Ex. apply H, Qgtb_true in Ex. congruence.
  - apply Qgtb_true, H in Ey. rewrite <- Hf in Ey. apply H, Qgtb_true in Ey. congruence.
Qed.

Lemma exact_limits_decide c :
  exact_limits c = true ->
  (forall n, Qgtb (inject_Z n) (oversize_limit c) =
             Qgtb (inject_Z n) (inject_Z (max_size_bytes c) * (1 # 10))) /\
  (forall n, Qgtb (inject_Z n) (cleanup_trigger c) =
             Qgtb (inject_Z n) (inject_Z (max_size_bytes c) * cleanup_threshold c)) /\
  (cleanup_target c == inject_Z (max_size_bytes c) * (1 # 2))%Q.
Proof.
  unfold exact_limits. rewrite !andb_true_iff, !Z.eqb_eq. intros [[H1 H2] H3].
  split; [|split].
  - intros n. now apply floor_decides.
  - intros n. now apply floor_decides.
  - now apply Qeq_bool_iff.
Qed.

(* f holds of 0, 1, ..., n - 1 *)
Definition check_step (f : Z -> bool) (st : Z * bool) : Z * bool :=
  (fst st + 1, snd st && f (fst st)).

Definition all_below (f : Z -> bool) (n : positive) : bool :=
  snd (Pos.iter (check_step f) (0, true) n).

Lemma all_below_spec (f : Z -> bool) (n : positive) :
  all_below f n = true -> forall k, 0 <= k < Zpos n -> f k = true.
Proof.
  unfold all_below.
  assert (H : fst (Pos.iter (check_step f) (0, true) n) = Zpos n /\
              (snd (Pos.iter (check_step f) (0, true) n) = true ->
               forall k, 0 <= k < Zpos n -> f k = true)).
  { induction n as [|n [IH1 IH2]] using Pos.peano_ind.
    - cbn. split; [reflexivity|]. intros H k Hk. assert (k = 0) as -> by lia. exact H.
    - rewrite Pos.iter_succ. unfold check_step at 1 3. cbn [fst snd]. rewrite IH1.
      split; [lia|]. intros H k Hk. apply andb_true_iff in H. destruct H as [Hs Hf].
      destruct (Z.eq_dec k (Zpos n)) as [-> | Hne]; [exact Hf|].
      apply IH2; [exact Hs | lia]. }
  apply H.
Qed.

Definition default_limits_ok (max_size_mb : Z) : bool :=
  finite_limits (__init__ max_size_mb (8 # 10)) && exact_limits (__init__ max_size_mb (8 # 10)).

(** For every budget of 0 to 4096 MB and the threshold 0.8, the three
    products are finite and decide like 0.1 B, 0.8 B and 0.5 B. *)
Lemma limits_are_exact_up_to_4096_MB :
  forall max_size_mb, 0 <= max_size_mb <= 4096 -> default_limits_ok max_size_mb = true.
Proof.
  intros mb Hmb. apply (all_below_spec default_limits_ok 4097); [|lia].
  vm_compute. reflexivity.
Qed.

(* no operation changes the budget or the threshold *)
Lemma step_keeps_budget o s :
  max_size_bytes (fst (state_of (step o s))) = max_size_bytes (fst s) /\
  cleanup_threshold (fst (state_of (step o s))) = cleanup_threshold (fst s).
Proof.
  assert (Hc : forall target s0,
             max_size_bytes (fst (state_of (_cleanup target s0))) = max_size_bytes (fst s0) /\
             cleanup_threshold (fst (state_of (_cleanup target s0))) =
               cleanup_threshold (fst s0)).
  { intros target [c gl]. unfold _cleanup.
    destruct (Qle_bool _ _); [split; reflexivity|].
    destruct (scan _ _ _ _ _) as [[current_size keys] ev].
    destruct (release_keys _ _ _) as [u [d gl'] | e [d gl']]; split; reflexivity. }
  destruct o as [k td | k | k | | target]; cbn [step].
  - unfold put. destruct (Qgtb _ (oversize_limit (fst s))); [split; reflexivity|].
    destruct (Qgtb _ (cleanup_trigger (fst s))).
    + pose proof (Hc (cleanup_target (fst s)) s) as H.
      destruct (_cleanup (cleanup_target (fst s)) s) as [u [c1 gl1] | e s']; [|exact H].
      cbn [state_of fst] in H.
      destruct (od_get String.eqb k (cache c1));
        destruct (od_move_to_end _ _ _); cbn; exact H.
    + destruct s as [c gl]. cbn [fst].
      destruct (od_get String.eqb k (cache c));
        destruct (od_move_to_end _ _ _); cbn; split; reflexivity.
  - destruct s as [c gl]. unfold get. destruct (od_mem _ _ _); [|split; reflexivity].
    destruct (od_move_to_end _ _ _); split; reflexivity.
  - destruct s as [c gl]. unfold remove. destruct (od_get _ _ _); split; reflexivity.
  - destruct s as [c gl]. split; reflexivity.
  - apply Hc.
Qed.

Lemma run_keeps_budget ops :
  forall s,
    max_size_bytes (fst (state_of (run ops s))) = max_size_bytes (fst s) /\
    cleanup_threshold (fst (state_of (run ops s))) = cleanup_threshold (fst s).
Proof.
  induction ops as [|o ops IH]; intros s; cbn [run]; [split; reflexivity|].
  pose proof (step_keeps_budget o s) as H.
  destruct (step o s) as [u s' | e s']; cbn [state_of] in H.
  - destruct (IH s') as [H1 H2]. rewrite H1, H2. exact H.
  - exact H.
Qed.

(** Every cache reached from a fresh one of 0 to 4096 MB with the threshold
    0.8 has finite limits that decide like the exact fractions. *)
Lemma reached_limits_are_exact_up_to_4096_MB :
  forall max_size_mb gl0 ops c gl,
    0 <= max_size_mb <= 4096 ->
    run ops (__init__ max_size_mb (8 # 10), gl0) = Return tt (c, gl) ->
    finite_limits c = true /\ exact_limits c = true.
Proof.
  intros mb gl0 ops c gl Hmb Hrun.
  destruct (run_keeps_budget ops (__init__ mb (8 # 10), gl0)) as [Hb Ht].
  rewrite Hrun in Hb, Ht. cbn [state_of fst] in Hb, Ht.
  pose proof (limits_are_exact_up_to_4096_MB mb Hmb) as H.
  unfold default_limits_ok in H. apply andb_true_iff in H.
  unfold finite_limits, exact_limits, oversize_limit, cleanup_trigger, cleanup_target in *.
  rewrite Hb, Ht. exact H.
Qed.

(** C5: in every state reached from a fresh cache by operations that only
    put textures of non-negative size, and whose binary64 limits decide like
    the exact fractions of the budget (every budget of up to 4096 MB with
    the threshold 0.8 does), a [put] that triggers eviction (the texture is
    within 10% of the budget, and current usage plus its size exceeds the
    threshold fraction of the budget) returns success with tracked usage at
    most half the budget plus the byte size of the texture just inserted. *)
Theorem put_after_eviction_within_target :
  forall (max_size_mb : Z) (threshold : Q) (gl0 : gl_log) (ops : list op)
         (c : LRUTextureCache) (gl : gl_log) (key : string) (td : texture_data),
    Forall op_nonneg ops ->
    run ops (__init__ max_size_mb threshold, gl0) = Return tt (c, gl) ->
    finite_limits c = true ->
    exact_limits c = true ->
    0 <= _calculate_texture_size td ->
    (inject_Z (_calculate_texture_size td) <= inject_Z (max_size_bytes c) * (1 # 10))%Q ->
    (inject_Z (max_size_bytes c) * cleanup_threshold c <
       inject_Z (total_memory_usage c + _calculate_texture_size td))%Q ->
    exists c' gl',
      put key td (c, gl) = Return true (c', gl') /\
      (inject_Z (total_memory_usage c') <=
         inject_Z (max_size_bytes c) * (1 # 2) + inject_Z (_calculate_texture_size td))%Q.
Proof.
  intros mb t gl0 ops c gl key td Hops Hrun _ Hexact Htd Hfits Hover.
  destruct (exact_limits_decide c Hexact) as (Hov & Htr & Htg).
  assert (Hpos : (0 <= cleanup_target c)%Q).
  { rewrite Htg.
    assert (H0 : (inject_Z 0 <= inject_Z (_calculate_texture_size td))%Q)
      by (rewrite <- Zle_Qle; exact Htd).
    assert (HB : (0 <= inject_Z (max_size_bytes c) * (1 # 10))%Q)
      by (eapply Qle_trans; [exact H0 | exact Hfits]).
    unfold Qle in HB |- *. simpl in HB |- *. lia. }
  assert (Htrig : put_triggers_cleanup td c = true).
  { unfold put_triggers_cleanup. rewrite Hov, Htr. apply andb_true_iff. split.
    - apply negb_true_iff, Qgtb_false. exact Hfits.
    - apply Qgtb_true. exact Hover. }
  destruct (put_after_eviction_binary64 mb t gl0 ops c gl key td Hops Hrun Htd Hpos Htrig)
    as (c' & gl' & Hp & Hle).
  exists c', gl'. split; [exact Hp|]. rewrite <- Htg. exact Hle.
Qed.

(** A [put] of a texture above the limit the code computes is rejected. *)
Lemma put_rejects_above_binary64_limit :
  forall (s : state) (key : string) (td : texture_data),
    (oversize_limit (fst s) < inject_Z (_calculate_texture_size td))%Q ->
    put key td s = Return false s.
Proof.
  intros s key td Hbig. unfold put.
  assert (H : Qgtb (inject_Z (_calculate_texture_size td)) (oversize_limit (fst s)) = true)
    by (apply Qgtb_true; exact Hbig).
  now rewrite H.
Qed.

(** C6: in a cache whose binary64 limits decide like the exact fractions of
    the budget (every budget of up to 4096 MB does), a [put] of a texture
    whose computed byte size is larger than one tenth of the byte budget
    returns [False] and leaves the cache (entry map, [total_memory_usage],
    all counters) and the GL state exactly as they were. *)
Theorem put_rejects_oversized_texture :
  forall (s : state) (key : string) (td : texture_data),
    finite_limits (fst s) = true ->
    exact_limits (fst s) = true ->
    (inject_Z (max_size_bytes (fst s)) * (1 # 10) < inject_Z (_calculate_texture_size td))%Q ->
    put key td s = Return false s.
Proof.
  intros s key td _ Hexact Hbig. apply put_rejects_above_binary64_limit.
  destruct (exact_limits_decide (fst s) Hexact) as (Hov & _).
  apply Qgtb_true. rewrite Hov. apply Qgtb_true. exact Hbig.
Qed.

End LRU_facts.

(** * The text-texture cache: count bound and eviction order *)

Module TextCache_facts.
Import TextCache.

Definition older (a b : string * entry) : Prop :=
  (last_used (snd a) <= last_used (snd b))%Q.

Lemma insert_by_last_used_perm x l : Permutation (insert_by_last_used x l) (x :: l).
Proof.
  induction l as [|y l IH]; simpl; [reflexivity|].
  destruct (Qle_bool _ _); [reflexivity|].
  rewrite IH. apply perm_swap.
Qed.

Lemma sorted_by_last_used_perm d : Permutation (sorted_by_last_used d) d.
Proof.
  induction d as [|x d IH]; simpl; [reflexivity|].
  rewrite insert_by_last_used_perm. now constructor.
Qed.

Lemma insert_by_last_used_sorted x l :
  StronglySorted older l -> StronglySorted older (insert_by_last_used x l).
Proof.
  induction l as [|y l IH]; simpl; intros Hs.
  - repeat constructor.
  - inversion Hs as [|? ? Hl Hy]; subst.
    destruct (Qle_bool (last_used (snd x)) (last_used (snd y))) eqn:E.
    + apply Qle_bool_iff in E. constructor; [assumption|].
      constructor; [exact E|].
      rewrite Forall_forall in Hy |- *. intros z Hz.
      unfold older in *. eapply Qle_trans; [exact E | now apply Hy].
    + assert (Hyx : older y x).
      { unfold older. apply Qlt_le_weak, Qnot_le_lt. intros H.
        apply Qle_bool_iff in H. congruence. }
      constructor; [now apply IH|].
      rewrite Forall_forall in Hy |- *. intros z Hz.
      apply (Permutation_in _ (insert_by_last_used_perm x l)) in Hz.
      destruct Hz as [<- | Hz]; [exact Hyx | now apply Hy].
Qed.

Lemma sorted_by_last_used_sorted d : StronglySorted older (sorted_by_last_used d).
Proof.
  induction d as [|x d IH]; simpl; [constructor|].
  now apply insert_by_last_used_sorted.
Qed.

Lemma StronglySorted_app_older (a b : list (string * entry)) :
  StronglySorted older (a ++ b) ->
  forall x y, In x a -> In y b -> older x y.
Proof.
  induction a as [|z a IH]; simpl; intros Hs x y Hx Hy; [tauto|].
  inversion Hs as [|? ? Hrest Hz]; subst.
  destruct Hx as [<- | Hx].
  - rewrite Forall_forall in Hz. apply Hz, in_or_app. now right.
  - now apply IH.
Qed.

Definition unique_keys (c : text_cache) : Prop := NoDup (od_keys (text_texture_cache c)).

(* the entry a call stores on a miss *)
Definition new_entry (with_created : bool) (r : render_call) : entry :=
  {| texture_id := new_texture r;
     width := fst (surface_size r);
     height := snd (surface_size r);
     last_used := t_used r;
     created := if with_created then Some (t_created r) else None;
     font_info := call_font_info r |}.

Lemma od_set_mem_length k (v : entry) (d : list (string * entry)) :
  In k (od_keys d) -> List.length (od_set String.eqb k v d) = List.length d.
Proof.
  intros H. rewrite <- (length_map fst (od_set _ _ _ _)).
  change (map fst (od_set String.eqb k v d)) with (od_keys (od_set String.eqb k v d)).
  rewrite (od_set_mem_keys _ string_eqb_iff) by exact H.
  apply length_map.
Qed.

Section ReleaseSucceeds.
(* glDeleteTextures does not raise *)
Variable gl_raises : Z -> bool.
Hypothesis gl_ok : forall t, gl_raises t = false.

(** The eviction loop pops a prefix of the sorted list; what it leaves is the
    rest of that list, in the dictionary's own order. *)
Lemma evict_oldest_spec max_size :
  0 <= max_size ->
  forall sorted_cache d gl,
    NoDup (od_keys d) ->
    Permutation sorted_cache d ->
    exists evicted rest d',
      sorted_cache = evicted ++ rest /\
      evict_oldest gl_raises sorted_cache d gl max_size =
        Return tt (d', gl ++ map (fun e => texture_id (snd e)) evicted) /\
      Permutation rest d' /\
      NoDup (od_keys d') /\
      Z.of_nat (List.length d') <= max_size /\
      (Z.of_nat (List.length d) <= max_size -> evicted = []) /\
      Z.of_nat (List.length d') = Z.min (Z.of_nat (List.length d)) max_size.
Proof.
  intros Hmax sorted_cache.
  induction sorted_cache as [|[key data] srt IH]; intros d gl Hnd Hperm.
  - apply Permutation_nil in Hperm. subst d.
    exists [], [], []. simpl. change (Z.of_nat 0) with 0.
    destruct (0 <=? max_size) eqn:E; [|apply Z.leb_gt in E; lia].
    rewrite app_nil_r. repeat split; auto. simpl. lia.
  - simpl. destruct (Z.of_nat (List.length d) <=? max_size) eqn:E.
    + apply Z.leb_le in E.
      exists [], ((key, data) :: srt), d. simpl. rewrite app_nil_r.
      repeat split; auto. lia.
    + apply Z.leb_gt in E. rewrite gl_ok.
      assert (Hin : In (key, data) d)
        by (eapply Permutation_in; [exact Hperm | now left]).
      assert (Hget : od_get String.eqb key d <> None).
      { intros Hn. apply (od_get_None_notin _ string_eqb_iff) in Hn.
        apply Hn. apply (in_map fst) in Hin. exact Hin. }
      destruct (od_get String.eqb key d) as [v|]; [|congruence].
      pose proof (od_del_Permutation _ string_eqb_iff key data d Hnd Hin) as Hdel.
      assert (Hperm' : Permutation srt (od_del String.eqb key d)).
      { eapply Permutation_cons_inv. rewrite Hperm. exact Hdel. }
      destruct (IH (od_del String.eqb key d) (glDeleteTextures (texture_id data) gl)
                   (od_del_NoDup _ key d Hnd) Hperm')
        as (evicted & rest & d' & Hsplit & Hrun & Hrest & Hnd' & Hlen & _ & Hmin).
      assert (Hd : S (List.length (od_del String.eqb key d)) = List.length d).
      { apply (od_del_length _ string_eqb_iff). apply (in_map fst) in Hin. exact Hin. }
      exists ((key, data) :: evicted), rest, d'. simpl. rewrite <- Hsplit.
      rewrite Hrun. unfold glDeleteTextures. rewrite <- app_assoc. simpl.
      repeat split; auto; lia.
Qed.

Lemma _cleanup_text_cache_spec c gl :
  0 <= text_cache_max_size c ->
  unique_keys c ->
  exists evicted d',
    _cleanup_text_cache gl_raises (c, gl) =
      Return tt (set_entries c d', gl ++ map (fun e => texture_id (snd e)) evicted) /\
    Permutation (text_texture_cache c) (evicted ++ d') /\
    NoDup (od_keys d') /\
    Z.of_nat (List.length d') <= text_cache_max_size c /\
    (forall e s, In e evicted -> In s d' -> older e s) /\
    (Z.of_nat (List.length (text_texture_cache c)) <= text_cache_max_size c -> evicted = []) /\
    Z.of_nat (List.length d') =
      Z.min (Z.of_nat (List.length (text_texture_cache c))) (text_cache_max_size c).
Proof.
  intros Hmax Hnd. unfold _cleanup_text_cache.
  destruct (Z.of_nat (List.length (text_texture_cache c)) <=? text_cache_max_size c) eqn:E.
  - apply Z.leb_le in E. exists [], (text_texture_cache c). simpl. rewrite app_nil_r.
    repeat split; auto; try tauto; try lia. destruct c; reflexivity.
  - apply Z.leb_gt in E.
    destruct (evict_oldest_spec _ Hmax (sorted_by_last_used (text_texture_cache c))
                (text_texture_cache c) gl Hnd (sorted_by_last_used_perm _))
      as (evicted & rest & d' & Hsplit & Hrun & Hrest & Hnd' & Hlen & _ & Hmin).
    exists evicted, d'. rewrite Hrun.
    repeat split; auto.
    + transitivity (evicted ++ rest); [|apply Permutation_app_head; exact Hrest].
      rewrite <- Hsplit. symmetry. apply sorted_by_last_used_perm.
    + intros e s He Hs. apply (StronglySorted_app_older evicted rest).
      * rewrite <- Hsplit. apply sorted_by_last_used_sorted.
      * exact He.
      * eapply Permutation_in; [symmetry; exact Hrest | exact Hs].
    + lia.
Qed.

Lemma render_text_insert with_created r c gl :
  0 <= text_cache_max_size c ->
  unique_keys c ->
  inserts r (c, gl) = true ->
  exists evicted d',
    render_text gl_raises with_created r (c, gl) =
      (set_entries (count_miss c) d', gl ++ map (fun e => texture_id (snd e)) evicted) /\
    Permutation (text_texture_cache c ++ [(cache_key r, new_entry with_created r)])
                (evicted ++ d') /\
    NoDup (od_keys d') /\
    Z.of_nat (List.length d') <= text_cache_max_size c /\
    (forall e s, In e evicted -> In s d' -> older e s) /\
    (Z.of_nat (List.length (text_texture_cache c)) < text_cache_max_size c -> evicted = []) /\
    Z.of_nat (List.length d') =
      Z.min (Z.of_nat (List.length (text_texture_cache c)) + 1) (text_cache_max_size c).
Proof.
  intros Hmax Hnd Hins. unfold inserts in Hins. simpl in Hins.
  apply andb_true_iff in Hins. destruct Hins as [Hins Hsz].
  apply andb_true_iff in Hins. destruct Hins as [Hmem Hfont].
  apply negb_true_iff in Hmem, Hsz.
  unfold od_mem in Hmem. unfold render_text.
  destruct (od_get String.eqb (cache_key r) (text_texture_cache c)) eqn:Eg; [discriminate|].
  rewrite Hfont, Hsz. simpl negb. cbv iota.
  apply (od_get_None_notin _ string_eqb_iff) in Eg.
  fold (new_entry with_created r).
  simpl text_texture_cache.
  rewrite (od_set_notin _ string_eqb_iff) by exact Eg.
  set (c2 := set_entries (count_miss c) _).
  assert (Hnd2 : unique_keys c2) by (apply NoDup_snoc_od; assumption).
  destruct (_cleanup_text_cache_spec c2 gl Hmax Hnd2)
    as (evicted & d' & Hrun & Hperm & Hnd' & Hlen & Hold & Hnone & Hmin).
  assert (Hc2 : Z.of_nat (List.length (text_texture_cache c2)) =
                Z.of_nat (List.length (text_texture_cache c)) + 1).
  { subst c2. simpl. rewrite length_app. simpl. lia. }
  change (text_cache_max_size c2) with (text_cache_max_size c) in *.
  exists evicted, d'. rewrite Hrun. simpl.
  repeat split; auto.
  - intros Hlt. apply Hnone. lia.
  - rewrite Hmin, Hc2. reflexivity.
Qed.

(** Every call keeps the keys unique and, once at or under the limit, the
    cache stays there. *)
Lemma render_text_bounded with_created r c gl :
  0 <= text_cache_max_size c ->
  unique_keys c ->
  Z.of_nat (List.length (text_texture_cache c)) <= text_cache_max_size c ->
  let s' := render_text gl_raises with_created r (c, gl) in
  text_cache_max_size (fst s') = text_cache_max_size c /\
  unique_keys (fst s') /\
  Z.of_nat (List.length (text_texture_cache (fst s'))) <= text_cache_max_size c.
Proof.
  intros Hmax Hnd Hlen.
  destruct (inserts r (c, gl)) eqn:Hins.
  - destruct (render_text_insert with_created r c gl Hmax Hnd Hins)
      as (evicted & d' & -> & _ & Hnd' & Hlen' & _). simpl. auto.
  - unfold inserts, od_mem in Hins. cbn [fst] in Hins. unfold render_text.
    destruct (od_get String.eqb (cache_key r) (text_texture_cache c)) eqn:Eg.
    + assert (Hin : In (cache_key r) (od_keys (text_texture_cache c))).
      { apply (od_mem_true_in _ string_eqb_iff). unfold od_mem. now rewrite Eg. }
      cbn [fst set_entries count_hit text_texture_cache text_cache_max_size].
      split; [reflexivity|]. split.
      * unfold unique_keys. simpl.
        rewrite (od_set_mem_keys _ string_eqb_iff); assumption.
      * simpl. rewrite od_set_mem_length; assumption.
    + cbn [negb andb] in Hins.
      destruct (font_found r); cbn [negb andb] in Hins |- *.
      * apply negb_false_iff in Hins. rewrite Hins. cbn [fst]. auto.
      * cbn [fst]. auto.
Qed.

Lemma run_bounded calls :
  forall c gl,
    0 <= text_cache_max_size c ->
    unique_keys c ->
    Z.of_nat (List.length (text_texture_cache c)) <= text_cache_max_size c ->
    Z.of_nat (List.length (text_texture_cache (fst (run gl_raises calls (c, gl))))) <=
      text_cache_max_size c.
Proof.
  induction calls as [|[wc r] calls IH]; intros c gl Hmax Hnd Hlen; [assumption|].
  cbn [run].
  pose proof (render_text_bounded wc r c gl Hmax Hnd Hlen) as H. cbv zeta in H.
  destruct (render_text gl_raises wc r (c, gl)) as [c1 gl1]. cbn [fst] in H.
  destruct H as (Hm & Hnd' & Hlen').
  rewrite <- Hm. apply IH; rewrite ?Hm; assumption.
Qed.

(** As long as glDeleteTextures does not raise, the claimed bound holds: with
    a non-negative limit, (1) after every sequence of text-render calls on an
    initially empty cache the entry count is at most the limit; (2) each
    call that inserts, from any cache with unique keys, ends with at most
    [limit] entries, having released and removed exactly a set of entries
    none of which was used later than any entry that stays, and none at all
    when there was room. *)
Lemma text_cache_within_limit_while_release_succeeds :
  forall (limit : Z) (gl : gl_log) (calls : list (bool * render_call)),
    0 <= limit ->
    Z.of_nat (List.length
      (text_texture_cache (fst (run gl_raises calls (set_max_size init limit, gl))))) <= limit
    /\
    forall (c : text_cache) (gl0 : gl_log) (with_created : bool) (r : render_call),
      text_cache_max_size c = limit ->
      NoDup (od_keys (text_texture_cache c)) ->
      inserts r (c, gl0) = true ->
      exists evicted,
        let s' := render_text gl_raises with_created r (c, gl0) in
        Z.of_nat (List.length (text_texture_cache (fst s'))) <= limit /\
        Permutation (text_texture_cache c ++ [(cache_key r, new_entry with_created r)])
                    (evicted ++ text_texture_cache (fst s')) /\
        snd s' = gl0 ++ map (fun e => texture_id (snd e)) evicted /\
        (forall e s, In e evicted -> In s (text_texture_cache (fst s')) ->
                     (last_used (snd e) <= last_used (snd s))%Q) /\
        (Z.of_nat (List.length (text_texture_cache c)) < limit -> evicted = []) /\
        Z.of_nat (List.length (text_texture_cache (fst s'))) =
          Z.min (Z.of_nat (List.length (text_texture_cache c)) + 1) limit.
Proof.
  intros limit gl calls Hlimit. split.
  - apply (run_bounded calls (set_max_size init limit) gl); simpl;
      [assumption | constructor | assumption].
  - intros c gl0 wc r Hc Hnd Hins. subst limit.
    destruct (render_text_insert wc r c gl0 Hlimit Hnd Hins)
      as (evicted & d' & Hr & Hperm & _ & Hlen & Hold & Hnone & Hmin).
    exists evicted. rewrite Hr. simpl. repeat split; auto.
Qed.

End ReleaseSucceeds.

(* one text-render call: the text, the texture glGenTextures returns, and
   the time of the call *)
Definition caption (txt : string) (tex : Z) (t : Q) : render_call :=
  {| text := txt;
     font_size_str := "14";
     color_str := "(255, 255, 255, 255)";
     call_font_info := "__False";
     font_info_hash := "77";
     font_found := true;
     surface_size := (40, 16);
     new_texture := tex;
     t_used := t;
     t_created := t |}.

(* "one" is drawn at time 1, "two" at 2, "one" again at 3, "three" at 4 *)
Definition three_captions : list (bool * render_call) :=
  [ (true, caption "one" 1 (1 # 1)); (true, caption "two" 2 (2 # 1));
    (true, caption "one" 1 (3 # 1)); (true, caption "three" 3 (4 # 1)) ].

(* a cache with room for two entries *)
Definition room_for_two : state := (set_max_size init 2, []).

(** C9 (at the failing input): in a cache limited to two entries the third
    text overflows the cache.  While glDeleteTextures works, the cleanup
    releases and removes "two", the entry used longest ago ("one" was
    inserted first but drawn again at time 3), and two entries stay.  When
    glDeleteTextures raises, as on a GL error, the cleanup is left before
    its [del]: nothing is released, nothing is removed, the render path
    swallows the exception, and the cache holds three entries, one more
    than its limit. *)
Theorem failed_release_leaves_text_cache_over_limit :
  let released := run (fun _ => false) three_captions room_for_two in
  let failed := run (fun _ => true) three_captions room_for_two in
  map (fun e => (texture_id (snd e), last_used (snd e))) (text_texture_cache (fst released)) =
    [(1, (3 # 1)%Q); (3, (4 # 1)%Q)] /\
  snd released = [2] /\
  map (fun e => (texture_id (snd e), last_used (snd e))) (text_texture_cache (fst failed)) =
    [(1, (3 # 1)%Q); (2, (2 # 1)%Q); (3, (4 # 1)%Q)] /\
  snd failed = [] /\
  text_cache_max_size (fst failed) <
    Z.of_nat (List.length (text_texture_cache (fst failed))).
Proof.
  cbv zeta. repeat split; vm_compute; reflexivity.
Qed.

End TextCache_facts.

(** * The physics step *)

Module Physics_facts.
Import Physics.
#[local] Open Scope float_scope.

(** A key all of whose entries are disabled is passed over by the loop:
    neither its body nor its task changes, also when the loop raises at some
    other body. *)
Lemma update_bodies_disabled w window dt task_id todo :
  forall visited (tasks : registry),
    (forall b, In (task_id, b) todo -> enabled b = false) ->
    let o := update_bodies w window dt todo visited tasks in
    fst (state_of o) !! task_id = tasks !! task_id /\
    od_get String.eqb task_id (snd (state_of o)) =
      od_get String.eqb task_id (visited ++ todo).
Proof.
  induction todo as [|[k b] rest IH]; intros visited tasks Hdis; cbn [update_bodies].
  - cbn. rewrite app_nil_r. auto.
  - assert (Hrest : forall b', In (task_id, b') rest -> enabled b' = false)
      by (intros b' Hb'; apply Hdis; now right).
    assert (Hskip : let o := update_bodies w window dt rest (visited ++ [(k, b)]) tasks in
                    fst (state_of o) !! task_id = tasks !! task_id /\
                    od_get String.eqb task_id (snd (state_of o)) =
                      od_get String.eqb task_id (visited ++ (k, b) :: rest)).
    { cbv zeta. destruct (IH (visited ++ [(k, b)]) tasks Hrest) as [H1 H2].
      split; [exact H1|]. rewrite H2, <- app_assoc. reflexivity. }
    destruct (tasks !! k) as [t|] eqn:Et; [|exact Hskip].
    destruct (enabled b) eqn:Een; cbn [negb]; [|exact Hskip].
    assert (Hne : task_id <> k).
    { intros ->. rewrite (Hdis b) in Een; [discriminate | now left]. }
    destruct (integrate w window dt t b) as [[] [t' b'] | e [t' b']].
    + destruct (IH (visited ++ [(k, b')]) (<[k := t']> tasks) Hrest) as [H1 H2].
      cbv zeta. split.
      * rewrite H1. apply lookup_insert_ne. congruence.
      * rewrite H2, <- app_assoc. cbn [app].
        apply (od_get_app_other _ string_eqb_iff). exact Hne.
    + cbn. split.
      * apply lookup_insert_ne. congruence.
      * apply (od_get_app_other _ string_eqb_iff). exact Hne.
Qed.

(** Bodies with [enabled = False] are skipped by [_update_physics]. *)
Lemma disabled_body_is_skipped current_time s task_id b :
  NoDup (od_keys (physics_tasks s)) ->
  od_get String.eqb task_id (physics_tasks s) = Some b ->
  enabled b = false ->
  let s' := state_of (_update_physics current_time s) in
  od_get String.eqb task_id (physics_tasks s') = Some b /\
  tasks s' !! task_id = tasks s !! task_id.
Proof.
  intros Hnd Hget Hdis. unfold _update_physics.
  destruct (world_enabled (physics_world s)); cbn [negb]; [|cbn; auto].
  cbn [physics_world set_last_physics_update max_delta_time original_window_size
       physics_tasks tasks].
  set (dt := py_min _ _).
  assert (Hall : forall b', In (task_id, b') (physics_tasks s) -> enabled b' = false).
  { intros b' Hin. apply (od_get_In_NoDup _ string_eqb_iff) in Hin; [|exact Hnd].
    rewrite Hget in Hin. now injection Hin as <-. }
  pose proof (update_bodies_disabled (physics_world s) (original_window_size s) dt
                task_id (physics_tasks s) [] (tasks s) Hall) as H.
  cbv zeta in H. cbn [app] in H. rewrite Hget in H.
  destruct (update_bodies _ _ _ _ _ _) as [[] [t p] | e [t p]]; cbn in *; tauto.
Qed.

Definition wall_task : task :=
  <["x"%string := VNum 100]> (<["y"%string := VNum 100]>
    (<["width"%string := VNum 50]> (<["height"%string := VNum 50]> ∅))).

(* a rectangle registered as "wall" in a 960x540 window, physics clock at 0 *)
Definition wall_scene : state :=
  {| tasks := <["wall"%string := wall_task]> ∅;
     physics_tasks := [];
     physics_world := default_world;
     last_physics_update := 0;
     original_window_size := (960, 540) |}.

(** C1 (at the failing input): add_physics_body("wall", body_type='static')
    succeeds, and one step of [_update_physics] a tenth of a second later has
    given the static body the velocity 0.9702000000000001 and moved its task
    from y = 100 to y = 109.702. *)
Theorem static_body_is_integrated :
  let s := snd (add_physics_body_default "wall" "static" wall_scene) in
  fst (add_physics_body_default "wall" "static" wall_scene) = true /\
  exists s',
    _update_physics 0.1 s = Return tt s' /\
    (body_type <$> od_get String.eqb "wall" (physics_tasks s')) = Some "static"%string /\
    (velocity_y <$> od_get String.eqb "wall" (physics_tasks s')) = Some 0.9702000000000001 /\
    (tasks s !! "wall"%string) ≫= (fun t => t !! "y"%string) = Some (VNum 100) /\
    (tasks s' !! "wall"%string) ≫= (fun t => t !! "y"%string) = Some (VNum 109.702).
Proof.
  cbv zeta. split; [reflexivity|].
  eexists. split; [vm_compute; reflexivity|].
  repeat split; vm_compute; reflexivity.
Qed.

(** [apply_force] and [apply_impulse] are the same function. *)
Lemma apply_force_is_apply_impulse task_id dx dy s :
  apply_force task_id dx dy s = apply_impulse task_id dx dy s.
Proof. reflexivity. Qed.

(* the data model's mass > 0, as far as the code depends on it *)
Definition dynamic_mass_nonzero (task_id : string) (s : state) : Prop :=
  forall b, od_get String.eqb task_id (physics_tasks s) = Some b ->
            body_type b = "dynamic"%string -> (mass b =? 0) = false.

(* two bodies that differ in their velocity at most *)
Definition same_but_velocity (b b' : physics_body) : Prop :=
  body_type b' = body_type b /\ mass b' = mass b /\ friction b' = friction b /\
  restitution b' = restitution b /\ damping b' = damping b /\
  collision_enabled b' = collision_enabled b /\
  affected_by_gravity b' = affected_by_gravity b /\ enabled b' = enabled b.

(** C7: for every task identity, every delta and every state in which a
    dynamic body under that identity has a non-zero mass, [apply_force] and
    [apply_impulse] give the same result.  When the identity has no body or
    a non-dynamic one the result is failure and the unchanged state.
    Otherwise it is success, and in the new state the body under the
    identity has velocity_x + dx / mass and velocity_y + dy / mass for
    velocity and is otherwise the same, every other body is the same, the
    bodies keep their order, and nothing but the bodies has changed. *)
Theorem apply_force_apply_impulse_equivalent :
  forall (task_id : string) (dx dy : float) (s : state),
    dynamic_mass_nonzero task_id s ->
    apply_force task_id dx dy s = apply_impulse task_id dx dy s /\
    match od_get String.eqb task_id (physics_tasks s) with
    | None => apply_force task_id dx dy s = Return false s
    | Some b =>
        if String.eqb (body_type b) "dynamic"
        then
          exists s' b',
            apply_force task_id dx dy s = Return true s' /\
            od_get String.eqb task_id (physics_tasks s') = Some b' /\
            velocity_x b' = velocity_x b + dx / mass b /\
            velocity_y b' = velocity_y b + dy / mass b /\
            same_but_velocity b b' /\
            od_keys (physics_tasks s') = od_keys (physics_tasks s) /\
            (forall k, k <> task_id ->
               od_get String.eqb k (physics_tasks s') = od_get String.eqb k (physics_tasks s)) /\
            tasks s' = tasks s /\
            physics_world s' = physics_world s /\
            last_physics_update s' = last_physics_update s /\
            original_window_size s' = original_window_size s
        else apply_force task_id dx dy s = Return false s
    end.
Proof.
  intros task_id dx dy s Hmass. split; [reflexivity|].
  unfold apply_force, dynamic_mass_nonzero in *.
  destruct (od_get String.eqb task_id (physics_tasks s)) as [b|] eqn:Hget; [|reflexivity].
  destruct (String.eqb (body_type b) "dynamic") eqn:E; cbn [negb]; [|reflexivity].
  apply String.eqb_eq in E. unfold py_div. rewrite (Hmass b eq_refl E).
  eexists _, _. split; [reflexivity|].
  cbn [physics_tasks set_physics_tasks tasks physics_world last_physics_update
       original_window_size].
  split; [apply (od_get_set_same _ string_eqb_iff)|].
  split; [reflexivity|]. split; [reflexivity|].
  split; [unfold same_but_velocity; cbn; repeat split; reflexivity|].
  split.
  { apply (od_set_keys_mem _ string_eqb_iff).
    apply (od_mem_true_in _ string_eqb_iff). unfold od_mem. now rewrite Hget. }
  split; [|repeat split; reflexivity].
  intros k Hk. apply (od_get_set_other _ string_eqb_iff). exact Hk.
Qed.

(* a task with the given position, registered under task_id next to others,
   to which add_physics_body(task_id, 'dynamic', mass=1, damping=1,
   collision_enabled=False) has been applied *)
Definition falling_scene (others : registry) (task_id : string) (t : task)
           (friction restitution : float) (last_update : float) (window : float * float)
  : state :=
  snd (add_physics_body task_id "dynamic" 1 friction restitution 1 false true
         {| tasks := <[task_id := t]> others;
            physics_tasks := [];
            physics_world := default_world;
            last_physics_update := last_update;
            original_window_size := window |}).

Definition falling_body (friction restitution vx vy : float) : physics_body :=
  {| body_type := "dynamic"; mass := 1; friction := friction; restitution := restitution;
     damping := 1; velocity_x := vx; velocity_y := vy;
     collision_enabled := false; affected_by_gravity := true; enabled := true |}.

(** C8: with the clamped elapsed time equal to 0.1, one step gives the body
    velocity_y = 0.9800000000000001 and adds 9.800000000000002 to the
    task's y.  These are the doubles next above the doubles 0.98 and 9.8:
    the velocity is within 10^-15 of 0.98 and the increase within 10^-14 of
    9.8. *)
Theorem gravity_step_in_binary64 :
  forall (others : registry) (task_id : string) (t : task) (x0 y0 : float)
         (friction restitution last_update current_time : float) (window : float * float),
    t !! "x"%string = Some (VNum x0) ->
    t !! "y"%string = Some (VNum y0) ->
    py_min (current_time - last_update) 0.1 = 0.1 ->
    _update_physics current_time
        (falling_scene others task_id t friction restitution last_update window) =
      Return tt
        {| tasks := <[task_id := <["y"%string := VNum (y0 + 9.800000000000002)]>
                                   (<["x"%string := VNum (x0 + 0)]> t)]>
                      (<[task_id := t]> others);
           physics_tasks := [(task_id, falling_body friction restitution 0 0.9800000000000001)];
           physics_world := default_world;
           last_physics_update := current_time;
           original_window_size := window |} /\
    0.9800000000000001 = next_up 0.98 /\
    9.800000000000002 = next_up 9.8 /\
    ((98 # 100) - (1 # 10 ^ 15) <= Q_of_float 0.9800000000000001 <= (98 # 100) + (1 # 10 ^ 15))%Q /\
    ((98 # 10) - (1 # 10 ^ 14) <= Q_of_float 9.800000000000002 <= (98 # 10) + (1 # 10 ^ 14))%Q.
Proof.
  intros others task_id t x0 y0 fr re last now window Hx Hy Hdt.
  split; [|split; [reflexivity | split; [reflexivity | split; split; vm_compute; discriminate]]].
  unfold falling_scene, add_physics_body. cbn [tasks]. rewrite lookup_insert_eq.
  unfold _update_physics. cbn [snd physics_world set_physics_tasks world_enabled default_world negb
    set_last_physics_update last_physics_update max_delta_time tasks physics_tasks
    original_window_size od_set].
  rewrite Hdt. cbn [update_bodies]. rewrite lookup_insert_eq.
  cbn [enabled negb]. unfold integrate.
  cbn [gravity default_world affected_by_gravity set_velocity velocity_x velocity_y damping
       time_scale pixels_per_meter collision_enabled].
  unfold attr_num. rewrite Hx. rewrite lookup_insert_ne by discriminate. rewrite Hy.
  cbn [app set_tasks set_physics_tasks tasks physics_tasks physics_world last_physics_update
       original_window_size].
  reflexivity.
Qed.

End Physics_facts.

(** * The animation engine *)

Module Anim_facts.
Import Anim.
#[local] Open Scope float_scope.

Lemma id_eqb_iff (a b : animation_id) : id_eqb a b = true <-> a = b.
Proof.
  destruct a as [s1 f1], b as [s2 f2]. unfold id_eqb. cbn [fst snd].
  rewrite andb_true_iff, String.eqb_eq, FloatAxioms.Leibniz.eqb_spec.
  split; [intros [-> ->]; reflexivity | intros [= -> ->]; auto].
Qed.





Definition ball_task : task := <["x"%string := VNum 0]> (<["y"%string := VNum 0]> ∅).

(* time.time() returns 10, 11, 15, 16, 16, ... *)
Definition ball_clock (n : nat) : float :=
  match n with O => 10 | 1%nat => 11 | 2%nat => 15 | _ => 16 end.

Definition ball_scene : state :=
  {| tasks := <["ball"%string := ball_task]> ∅;
     animations := [];
     time_time := ball_clock;
     clock_reads := 0 |}.

(* what the demo's completion callbacks do: schedule the next animation of
   the same task *)
Definition chain : callback :=
  cb_animate "ball" 1 [("y"%string, VNum 50)] "ease_in_out_back" None 0 cb_return.

(* animate_task("ball", 2.0, {'x': 100}, 'linear', on_complete=chain) *)
Definition chained_scene : state :=
  snd (animate_task "ball" 2 [("x"%string, VNum 100)] "linear" (Some chain) 0 ball_scene).

(** C2 (at the failing input): the animation of "ball" reaches progress 1.0
    at time 13.5, its completion callback schedules one more animation of
    "ball", and the update pass raises RuntimeError from the loop over
    self.animations.  The new animation is in the table; the completed one
    was never deleted from it. *)
Theorem chained_completion_callback_raises :
  forall (math_cos math_sin : float -> float) (float_pow : float -> float -> float),
    let o := _update_animations math_cos math_sin float_pow 13.5 chained_scene in
    fst (animate_task "ball" 2 [("x"%string, VNum 100)] "linear" (Some chain) 0 ball_scene) = true /\
    raised o = Some RuntimeError /\
    map (fun e => (fst e, completed (snd e))) (animations (state_of o)) =
      [(("ball"%string, 10), true); (("ball"%string, 15), false)] /\
    (tasks (state_of o) !! "ball"%string) ≫= (fun t => t !! "x"%string) = Some (VNum 100).
Proof.
  intros math_cos math_sin float_pow. cbv zeta.
  repeat split; vm_compute; reflexivity.
Qed.

(** Without a callback the same animation is completed and removed. *)
Lemma plain_completion_returns :
  forall (math_cos math_sin : float -> float) (float_pow : float -> float -> float),
    let s := snd (animate_task "ball" 2 [("x"%string, VNum 100)] "linear" None 0 ball_scene) in
    let o := _update_animations math_cos math_sin float_pow 13.5 s in
    raised o = None /\ animations (state_of o) = [].
Proof.
  intros math_cos math_sin float_pow. cbv zeta. split; vm_compute; reflexivity.
Qed.

Section UnknownEasing.
Variables (math_cos math_sin : float -> float) (float_pow : float -> float -> float).





End UnknownEasing.


End Anim_facts.

(** * Which removal paths release the texture *)

Module Release_facts.
#[local] Open Scope string_scope.

Definition icon : LRU.texture_data :=
  {| LRU.texture_id := Some 7; LRU.width := Some 64; LRU.height := Some 64 |}.

(* a cache holding the texture 7 under "icon.png" *)
Definition icon_cache : LRU.LRUTextureCache :=
  LRU.set_total (LRU.set_cache (LRU.__init__ 100 (8 # 10)) [("icon.png", icon)]) 16384.

Definition label_task : task := <["type" := VStr "text"]> (<["text" := VStr "Hi"]> ∅).

Definition hi_entry : TextCache.entry :=
  {| TextCache.texture_id := 5; TextCache.width := 20; TextCache.height := 10;
     TextCache.last_used := 1%Q; TextCache.created := Some 1%Q;
     TextCache.font_info := "__False" |}.

(* the text cache after the task "label" with text "Hi" has been drawn *)
Definition label_cache : TextCache.text_cache :=
  TextCache.set_entries TextCache.init [("Hi_14_(255, 255, 255, 255)_77", hi_entry)].

(** [remove] never calls glDeleteTextures. *)
Lemma remove_keeps_gl_log key s : snd (state_of (LRU.remove key s)) = snd s.
Proof.
  destruct s as [c gl]. unfold LRU.remove.
  destruct (od_get String.eqb key (LRU.cache c)); reflexivity.
Qed.

(** [clear] and [_cleanup] release what they remove, [_cleanup_text_cache]
    (when glDeleteTextures does not raise) and the teardown of the text
    cache likewise. *)
Lemma releasing_paths :
  LRU.clear (icon_cache, []) = Return tt (LRU.set_total (LRU.set_cache icon_cache []) 0, [7]) /\
  snd (state_of (LRU._cleanup 0 (icon_cache, []))) = [7] /\
  LRU.cache (fst (state_of (LRU._cleanup 0 (icon_cache, [])))) = [] /\
  TextCache._cleanup_text_cache (fun _ => false) (TextCache.set_max_size label_cache 0, []) =
    Return tt (TextCache.set_max_size (TextCache.set_entries label_cache []) 0, [5]) /\
  TextCache.cleanup_text_cache (label_cache, []) = (TextCache.set_entries label_cache [], [5]).
Proof. repeat split; vm_compute; reflexivity. Qed.

(** C3 (at the failing inputs): remove("icon.png") takes the entry with
    texture 7 out of the texture cache and update_text_font("label",
    font_size=20) takes the entry with texture 5 out of the text cache, and
    in both cases no texture has been handed to glDeleteTextures: the
    resource is released zero times. *)
Theorem removal_without_release :
  LRU.remove "icon.png" (icon_cache, []) =
    Return true (LRU.set_total (LRU.set_cache icon_cache []) 0, []) /\
  (forall py_str,
     exists tasks',
       TextCache.update_text_font py_str "label" (Some (VNum 20)) None None None
                                  (<["label" := label_task]> ∅) (label_cache, []) =
         Return true (tasks', (TextCache.set_entries label_cache [], []))).
Proof.
  split; [vm_compute; reflexivity|].
  intros py_str. eexists. vm_compute. reflexivity.
Qed.

End Release_facts.

(** * Concrete instances *)

Module Instances.
#[local] Open Scope string_scope.

(** ** Texture cache: a 100 MB cache filled with ten 8 MB photos *)

Definition photo (i : Z) : LRU.texture_data :=
  {| LRU.texture_id := Some i; LRU.width := Some 2048; LRU.height := Some 1024 |}.

Definition ten_photos : list LRU.op :=
  [ LRU.Put "p0" (photo 0); LRU.Put "p1" (photo 1); LRU.Put "p2" (photo 2);
    LRU.Put "p3" (photo 3); LRU.Put "p4" (photo 4); LRU.Put "p5" (photo 5);
    LRU.Put "p6" (photo 6); LRU.Put "p7" (photo 7); LRU.Put "p8" (photo 8);
    LRU.Put "p9" (photo 9) ].

Definition warm : LRU.state := state_of (LRU.run ten_photos (LRU.__init__ 100 (8 # 10), [])).

Example warm_usage :
  LRU.total_memory_usage (fst warm) = 83886080 /\ snd warm = [].
Proof. split; vm_compute; reflexivity. Qed.

Example eleventh_photo :
  match LRU.put "p10" (photo 10) warm with
  | Return b (c, gl) => (b, LRU.total_memory_usage c, od_keys (LRU.cache c), gl, LRU.evictions c)
  | Raise _ _ => (false, 0, [], [], 0)
  end = (true, 58720256, ["p4"; "p5"; "p6"; "p7"; "p8"; "p9"; "p10"], [0; 1; 2; 3], 4).
Proof. vm_compute. reflexivity. Qed.

Lemma put_after_eviction_within_target_witness :
  LRU_facts.exact_limits (fst warm) = true /\
  (inject_Z (LRU.max_size_bytes (fst warm)) * LRU.cleanup_threshold (fst warm) <
     inject_Z (LRU.total_memory_usage (fst warm) + LRU._calculate_texture_size (photo 10)))%Q /\
  exists c' gl',
    LRU.put "p10" (photo 10) (fst warm, snd warm) = Return true (c', gl') /\
    (inject_Z (LRU.total_memory_usage c') <=
       inject_Z (LRU.max_size_bytes (fst warm)) * (1 # 2) +
       inject_Z (LRU._calculate_texture_size (photo 10)))%Q.
Proof.
  split; [vm_compute; reflexivity|]. split; [vm_compute; reflexivity|].
  apply (LRU_facts.put_after_eviction_within_target 100 (8 # 10) [] ten_photos
           (fst warm) (snd warm) "p10" (photo 10)).
  - repeat constructor; vm_compute; discriminate.
  - vm_compute. reflexivity.
  - vm_compute. reflexivity.
  - vm_compute. reflexivity.
  - vm_compute. discriminate.
  - vm_compute. discriminate.
  - vm_compute. reflexivity.
Defined.

Definition poster : LRU.texture_data :=
  {| LRU.texture_id := Some 1; LRU.width := Some 4096; LRU.height := Some 4096 |}.

Lemma put_rejects_oversized_texture_witness :
  LRU_facts.exact_limits (fst warm) = true /\
  (inject_Z (LRU.max_size_bytes (fst warm)) * (1 # 10) <
     inject_Z (LRU._calculate_texture_size poster))%Q /\
  LRU.put "poster.png" poster warm = Return false warm.
Proof.
  split; [vm_compute; reflexivity|]. split; [vm_compute; reflexivity|].
  apply (LRU_facts.put_rejects_oversized_texture warm "poster.png" poster).
  - vm_compute. reflexivity.
  - vm_compute. reflexivity.
  - vm_compute. reflexivity.
Defined.

(** ** A budget of 2^43 MB (2^63 bytes): the rounded products lie above the
    fractions, [2^63 * 0.1] is 922337203685477632 and [2^63 * 0.8] is
    7378697629483821056 *)

(* a texture of 922337203685477580 bytes, just under a tenth of 2^63 *)
Definition strip (i : Z) : LRU.texture_data :=
  {| LRU.texture_id := Some i; LRU.width := Some 230584300921369395; LRU.height := Some 1 |}.

(* 100 bytes *)
Definition dot : LRU.texture_data :=
  {| LRU.texture_id := Some 7; LRU.width := Some 25; LRU.height := Some 1 |}.

Definition seven_strips : list LRU.op :=
  [ LRU.Put "s0" (strip 0); LRU.Put "s1" (strip 1); LRU.Put "s2" (strip 2);
    LRU.Put "s3" (strip 3); LRU.Put "s4" (strip 4); LRU.Put "s5" (strip 5);
    LRU.Put "s6" (strip 6); LRU.Put "dot" dot ].

Definition crowded : LRU.state :=
  state_of (LRU.run seven_strips (LRU.__init__ (2 ^ 43) (8 # 10), [])).

Example crowded_limits :
  LRU.total_memory_usage (fst crowded) = 6456360425798343160 /\
  Qred (LRU.oversize_limit (fst crowded)) = 922337203685477632%Q /\
  Qred (LRU.cleanup_trigger (fst crowded)) = 7378697629483821056%Q /\
  LRU_facts.exact_limits (fst crowded) = false.
Proof. repeat split; vm_compute; reflexivity. Qed.

(** C5 as stated, without a condition on the budget, refuted: in the cache
    of 2^63 bytes holding seven strips and the dot, usage plus the size of
    an eighth strip is 7378697629483820740, which exceeds 0.8 B, but not
    the rounded product the code compares with; nothing is evicted and the
    usage afterwards is above 0.5 B plus the size of the strip. *)
Lemma eviction_is_missed_at_2_63_bytes :
  ~ (forall (max_size_mb : Z) (threshold : Q) (gl0 : gl_log) (ops : list LRU.op)
            (c : LRU.LRUTextureCache) (gl : gl_log) (key : string) (td : LRU.texture_data),
       Forall LRU_facts.op_nonneg ops ->
       LRU.run ops (LRU.__init__ max_size_mb threshold, gl0) = Return tt (c, gl) ->
       0 <= LRU._calculate_texture_size td ->
       (inject_Z (LRU._calculate_texture_size td) <=
          inject_Z (LRU.max_size_bytes c) * (1 # 10))%Q ->
       (inject_Z (LRU.max_size_bytes c) * LRU.cleanup_threshold c <
          inject_Z (LRU.total_memory_usage c + LRU._calculate_texture_size td))%Q ->
       exists c' gl',
         LRU.put key td (c, gl) = Return true (c', gl') /\
         (inject_Z (LRU.total_memory_usage c') <=
            inject_Z (LRU.max_size_bytes c) * (1 # 2) +
            inject_Z (LRU._calculate_texture_size td))%Q).
Proof.
  intros H.
  destruct (H (2 ^ 43) (8 # 10) [] seven_strips (fst crowded) (snd crowded) "s7" (strip 7))
    as (c' & gl' & Hput & Hle).
  - repeat constructor; vm_compute; discriminate.
  - vm_compute. reflexivity.
  - vm_compute. discriminate.
  - vm_compute. discriminate.
  - vm_compute. reflexivity.
  - vm_compute in Hput. injection Hput as <- _. vm_compute in Hle. apply Hle. reflexivity.
Qed.

(* a texture of 922337203685477600 bytes, just over a tenth of 2^63 *)
Definition wide_strip : LRU.texture_data :=
  {| LRU.texture_id := Some 9; LRU.width := Some 230584300921369400; LRU.height := Some 1 |}.

(** C6 as stated, without a condition on the budget, refuted: an empty cache
    of 2^63 bytes accepts and stores a texture of 922337203685477600 bytes,
    which is larger than 0.1 B. *)
Lemma oversized_is_accepted_at_2_63_bytes :
  ~ (forall (s : LRU.state) (key : string) (td : LRU.texture_data),
       (inject_Z (LRU.max_size_bytes (fst s)) * (1 # 10) <
          inject_Z (LRU._calculate_texture_size td))%Q ->
       LRU.put key td s = Return false s).
Proof.
  intros H.
  specialize (H (LRU.__init__ (2 ^ 43) (8 # 10), []) "wide" wide_strip).
  assert (Hput : match LRU.put "wide" wide_strip (LRU.__init__ (2 ^ 43) (8 # 10), []) with
                 | Return b _ => b
                 | Raise _ _ => false
                 end = true) by (vm_compute; reflexivity).
  rewrite H in Hput; [discriminate|]. vm_compute. reflexivity.
Qed.

(** ** Text cache: three labels drawn with room for two *)

Definition label (txt : string) (tex : Z) (t : Q) : TextCache.render_call :=
  {| TextCache.text := txt;
     TextCache.font_size_str := "14";
     TextCache.color_str := "(255, 255, 255, 255)";
     TextCache.call_font_info := "__False";
     TextCache.font_info_hash := "77";
     TextCache.font_found := true;
     TextCache.surface_size := (40, 16);
     TextCache.new_texture := tex;
     TextCache.t_used := t;
     TextCache.t_created := t |}.

Definition three_labels : list (bool * TextCache.render_call) :=
  [ (true, label "one" 1 (1 # 1)); (false, label "two" 2 (2 # 1)); (true, label "one" 1 (3 # 1));
    (true, label "three" 3 (4 # 1)) ].

Example three_labels_run :
  let s := TextCache.run (fun _ => false) three_labels
                         (TextCache.set_max_size TextCache.init 2, []) in
  map (fun e => TextCache.texture_id (snd e)) (TextCache.text_texture_cache (fst s)) = [1; 3] /\
  snd s = [2].
Proof. cbv zeta. split; vm_compute; reflexivity. Qed.

(** ** Physics: a ball of mass 2 pushed, and a ball of mass 1 falling *)

Definition ball_task : task := <["x" := VNum 0]> (<["y" := VNum 0]> ∅).

Definition pushed_scene : Physics.state :=
  snd (Physics.add_physics_body "ball" "dynamic" 2 0.3 0.5 0.99 true true
         {| Physics.tasks := <["ball" := ball_task]> ∅;
            Physics.physics_tasks := [];
            Physics.physics_world := Physics.default_world;
            Physics.last_physics_update := 0;
            Physics.original_window_size := (960, 540)%float |}).

Example push_ball :
  match Physics.apply_force "ball" 3 4 pushed_scene with
  | Return b s =>
      (b, option_map (fun p => (Physics.velocity_x p, Physics.velocity_y p))
                     (od_get String.eqb "ball" (Physics.physics_tasks s)))
  | Raise _ _ => (false, None)
  end = (true, Some (1.5, 2)%float).
Proof. vm_compute. reflexivity. Qed.

Lemma apply_force_apply_impulse_equivalent_witness :
  Physics.apply_force "ball" 3 4 pushed_scene = Physics.apply_impulse "ball" 3 4 pushed_scene /\
  exists s' b',
    Physics.apply_force "ball" 3 4 pushed_scene = Return true s' /\
    od_get String.eqb "ball" (Physics.physics_tasks s') = Some b' /\
    Physics.velocity_x b' = 1.5%float /\ Physics.velocity_y b' = 2%float /\
    Physics.mass b' = 2%float.
Proof.
  destruct (Physics_facts.apply_force_apply_impulse_equivalent "ball" 3 4 pushed_scene)
    as [Heq Hspec].
  - intros b Hb _. vm_compute in Hb. injection Hb as <-. vm_compute. reflexivity.
  - split; [exact Heq|].
    change (od_get String.eqb "ball" (Physics.physics_tasks pushed_scene))
      with (Some {| Physics.body_type := "dynamic"; Physics.mass := 2;
                    Physics.friction := 0.3; Physics.restitution := 0.5;
                    Physics.damping := 0.99;
                    Physics.velocity_x := 0; Physics.velocity_y := 0;
                    Physics.collision_enabled := true;
                    Physics.affected_by_gravity := true;
                    Physics.enabled := true |}) in Hspec.
    cbn [Physics.body_type String.eqb Ascii.eqb Bool.eqb andb] in Hspec.
    destruct Hspec as (s' & b' & Hrun & Hget & Hvx & Hvy & (_ & Hm & _) & _).
    exists s', b'. repeat split; try assumption.
Defined.

Definition falling_ball : Physics.state :=
  Physics_facts.falling_scene ∅ "ball" ball_task 0.3 0.5 0 (960, 540)%float.

Lemma gravity_step_in_binary64_witness :
  Physics.py_min (0.1 - 0) 0.1 = 0.1%float /\
  (Physics.velocity_y <$>
     od_get String.eqb "ball" (Physics.physics_tasks
                                 (state_of (Physics._update_physics 0.1 falling_ball)))) =
    Some 0.9800000000000001%float /\
  Physics.tasks (state_of (Physics._update_physics 0.1 falling_ball)) !! "ball" =
    Some (<["y" := VNum 9.800000000000002]> (<["x" := VNum 0]> ball_task)).
Proof.
  split; [vm_compute; reflexivity|].
  unfold falling_ball.
  rewrite (proj1 (Physics_facts.gravity_step_in_binary64 ∅ "ball" ball_task 0 0 0.3 0.5 0 0.1
                    (960, 540)%float eq_refl eq_refl eq_refl)).
  split; [vm_compute; reflexivity|].
  cbn [state_of Physics.tasks]. rewrite lookup_insert_eq. reflexivity.
Defined.

(** ** Animation: the demo's 'ease_in_out_back' *)

(* the unknown-easing path never reaches libm *)
Definition no_libm (x : float) : float := x.
Definition no_pow (x y : float) : float := x.


End Instances.

(** * More about the texture cache: recency, eviction order, statistics *)

Module LRU_more.
Import LRU LRU_facts.

(* the texture names held by a list of entries, in order *)
Definition held_textures (d : list (string * texture_data)) : list Z :=
  flat_map (fun e => match texture_id (snd e) with Some t => [t] | None => [] end) d.

Lemma releases_held pre : forall gl, releases pre gl = gl ++ held_textures pre.
Proof.
  induction pre as [|[k td] pre IH]; intros gl; simpl.
  - now rewrite app_nil_r.
  - unfold releases in IH. rewrite IH. unfold release, glDeleteTextures.
    destruct (texture_id td); simpl; [now rewrite <- app_assoc | reflexivity].
Qed.

Lemma od_get_del_other (k k' : string) (d : list (string * texture_data)) :
  k' <> k -> od_get String.eqb k' (od_del String.eqb k d) = od_get String.eqb k' d.
Proof.
  intros Hne. induction d as [|[k1 v1] d IH]; simpl; [reflexivity|].
  destruct (String.eqb k k1) eqn:E.
  - apply String.eqb_eq in E. subst k1.
    destruct (String.eqb k' k) eqn:E'; [apply String.eqb_eq in E'; contradiction | reflexivity].
  - simpl. now rewrite IH.
Qed.

Lemma od_get_snoc_other (k k' : string) v (d : list (string * texture_data)) :
  k' <> k -> od_get String.eqb k' (d ++ [(k, v)]) = od_get String.eqb k' d.
Proof.
  intros Hne. induction d as [|[k1 v1] d IH]; simpl.
  - destruct (String.eqb k' k) eqn:E; [apply String.eqb_eq in E; contradiction | reflexivity].
  - now rewrite IH.
Qed.

(** The first loop stops at the first prefix whose removal brings the running
    size to the target. *)
Lemma scan_minimal target entries :
  forall cur keys ev,
  exists pre post,
    entries = pre ++ post /\
    scan target entries cur keys ev =
      (cur - sum_sizes pre, keys ++ od_keys pre, ev + Z.of_nat (List.length pre)) /\
    (post = [] \/ (inject_Z (cur - sum_sizes pre) <= target)%Q) /\
    (forall pre1 x pre2, pre = pre1 ++ x :: pre2 ->
       (target < inject_Z (cur - sum_sizes pre1))%Q).
Proof.
  induction entries as [|[key td] rest IH]; intros cur keys ev.
  - exists [], []. simpl. rewrite Z.sub_0_r, Z.add_0_r, app_nil_r.
    repeat split; auto. intros [|? ?] ? ? H; discriminate H.
  - simpl. destruct (Qle_bool (inject_Z cur) target) eqn:E.
    + exists [], ((key, td) :: rest). simpl.
      rewrite Z.sub_0_r, Z.add_0_r, app_nil_r. repeat split; auto.
      * right. now apply Qle_bool_iff.
      * intros [|? ?] ? ? H; discriminate H.
    + destruct (IH (cur - _calculate_texture_size td) (keys ++ [key]) (ev + 1))
        as (pre & post & -> & Hs & Hstop & Hmin).
      exists ((key, td) :: pre), post. simpl. rewrite Hs.
      repeat split.
      * f_equal; [f_equal|]; [lia | now rewrite <- app_assoc | lia].
      * destruct Hstop as [-> | Hle]; [now left | right].
        replace (cur - (_calculate_texture_size td + sum_sizes pre))
          with (cur - _calculate_texture_size td - sum_sizes pre) by lia.
        exact Hle.
      * intros pre1 x pre2 Hsplit. destruct pre1 as [|y pre1].
        -- change (sum_sizes []) with 0. rewrite Z.sub_0_r. apply Qnot_le_lt. intros Hle.
           apply Qle_bool_iff in Hle. congruence.
        -- cbn [app] in Hsplit. injection Hsplit as Hy Hsplit. subst y.
           change (sum_sizes ((key, td) :: pre1))
             with (_calculate_texture_size td + sum_sizes pre1).
           replace (cur - (_calculate_texture_size td + sum_sizes pre1))
             with (cur - _calculate_texture_size td - sum_sizes pre1) by lia.
           eapply Hmin; eauto.
Qed.

Lemma _cleanup_prefix :
  forall (target : Q) (c : LRUTextureCache) (gl : gl_log),
  exists pre post,
    cache c = pre ++ post /\
    _cleanup target (c, gl) =
      Return tt ({| max_size_bytes := max_size_bytes c;
                    cleanup_threshold := cleanup_threshold c;
                    cache := post;
                    total_memory_usage := total_memory_usage c - sum_sizes pre;
                    hits := hits c; misses := misses c;
                    evictions := evictions c + Z.of_nat (List.length pre) |},
                 gl ++ held_textures pre) /\
    (post = [] \/ (inject_Z (total_memory_usage c - sum_sizes pre) <= target)%Q) /\
    (forall pre1 x pre2, pre = pre1 ++ x :: pre2 ->
       (target < inject_Z (total_memory_usage c - sum_sizes pre1))%Q).
Proof.
  intros target c gl. unfold _cleanup.
  destruct (Qle_bool (inject_Z (total_memory_usage c)) target) eqn:E.
  - exists [], (cache c). simpl. rewrite Z.sub_0_r, Z.add_0_r, app_nil_r.
    repeat split; [destruct c; reflexivity | |].
    + right. now apply Qle_bool_iff.
    + intros [|? ?] ? ? H; discriminate H.
  - destruct (scan_minimal target (cache c) (total_memory_usage c) [] (evictions c))
      as (pre & post & Hc & Hs & Hstop & Hmin).
    exists pre, post. rewrite Hs. simpl. rewrite Hc, release_keys_prefix, releases_held.
    repeat split; auto.
Qed.

Lemma get_cases :
  forall (key : string) (c : LRUTextureCache) (gl : gl_log),
    NoDup (od_keys (cache c)) ->
    get key (c, gl) =
      match od_get String.eqb key (cache c) with
      | Some td =>
          Return (Some td)
            ({| max_size_bytes := max_size_bytes c;
                cleanup_threshold := cleanup_threshold c;
                cache := od_del String.eqb key (cache c) ++ [(key, td)];
                total_memory_usage := total_memory_usage c;
                hits := hits c + 1; misses := misses c; evictions := evictions c |}, gl)
      | None =>
          Return None
            ({| max_size_bytes := max_size_bytes c;
                cleanup_threshold := cleanup_threshold c;
                cache := cache c;
                total_memory_usage := total_memory_usage c;
                hits := hits c; misses := misses c + 1; evictions := evictions c |}, gl)
      end.
Proof.
  intros key c gl Hnd. unfold get, od_mem, od_move_to_end.
  destruct (od_get String.eqb key (cache c)) as [td|] eqn:Eg; [|reflexivity].
  rewrite (od_get_app_last _ string_eqb_iff); [reflexivity|].
  apply od_del_gone; [apply string_eqb_iff | exact Hnd].
Qed.

(** X1: what was put can be got.  In a cache with unique keys and exact
    accounting, whose budget and eviction trigger are finite doubles, a
    [put] of a texture within the per-texture limit the code computes,
    [max_size_bytes * 0.1] in binary64, returns True and leaves the key as
    the most recently used entry, whether or not it had to evict; a [get] of
    the key then returns exactly the dictionary that was put, counts a hit
    and leaves the order as it is. *)
Theorem put_then_get :
  forall (key : string) (td : texture_data) (c : LRUTextureCache) (gl : gl_log),
    inv c ->
    finite_limits c = true ->
    (inject_Z (_calculate_texture_size td) <= oversize_limit c)%Q ->
    exists c1 gl1 c2 rest,
      put key td (c, gl) = Return true (c1, gl1) /\
      cache c1 = rest ++ [(key, td)] /\
      get key (c1, gl1) = Return (Some td) (c2, gl1) /\
      cache c2 = cache c1 /\
      hits c2 = hits c1 + 1.
Proof.
  intros key td c gl Hinv _ Hsize.
  apply Qgtb_false in Hsize.
  destruct (put_accepted key td c gl Hinv Hsize)
    as (c0 & gl1 & c1 & _ & Hinv0 & _ & Hp & Hc & _ & _ & _ & Hinv1).
  exists c1, gl1. rewrite Hp.
  assert (Hgone : ~ In key (od_keys (od_del String.eqb key (cache c0)))).
  { apply od_del_gone; [apply string_eqb_iff | apply Hinv0]. }
  rewrite (get_cases key c1 gl1 (proj1 Hinv1)).
  rewrite Hc, (od_get_app_last _ string_eqb_iff) by exact Hgone.
  rewrite (od_del_app_last _ string_eqb_iff) by exact Hgone.
  eexists _, (od_del String.eqb key (cache c0)).
  repeat split; reflexivity.
Qed.

(** X2: [_cleanup] evicts a least-recently-used prefix and nothing else.
    It always returns; the entries removed are the first ones of the recency
    order, each texture among them is handed to glDeleteTextures once, in
    that order, the eviction counter grows by their number and the usage
    drops by their sizes; the loop stops as soon as the running size is at
    or below the target (no shorter prefix would do) or the cache is empty. *)
Theorem cleanup_evicts_least_recent_prefix :
  forall (target : Q) (c : LRUTextureCache) (gl : gl_log),
  exists pre post,
    cache c = pre ++ post /\
    _cleanup target (c, gl) =
      Return tt ({| max_size_bytes := max_size_bytes c;
                    cleanup_threshold := cleanup_threshold c;
                    cache := post;
                    total_memory_usage := total_memory_usage c - sum_sizes pre;
                    hits := hits c; misses := misses c;
                    evictions := evictions c + Z.of_nat (List.length pre) |},
                 gl ++ held_textures pre) /\
    (post = [] \/ (inject_Z (total_memory_usage c - sum_sizes pre) <= target)%Q) /\
    (forall pre1 x pre2, pre = pre1 ++ x :: pre2 ->
       (target < inject_Z (total_memory_usage c - sum_sizes pre1))%Q).
Proof. exact _cleanup_prefix. Qed.

Lemma suffix_keeps_last (A : Type) (pre post d : list A) (x : A) :
  pre ++ post = d ++ [x] -> post = [] \/ exists post', post = post' ++ [x].
Proof.
  revert pre d. induction post as [|y post IH] using rev_ind; intros pre d H; [now left|].
  right. rewrite app_assoc in H. apply app_inj_tail in H. destruct H as [_ ->]. eauto.
Qed.

(** X3: recency protects.  After a hit on [key], an eviction to any target
    either keeps [key] or has emptied the cache: the entry just used is the
    last one to go. *)
Theorem recently_used_is_evicted_last :
  forall (key : string) (td : texture_data) (c : LRUTextureCache) (gl : gl_log) (target : Q),
    NoDup (od_keys (cache c)) ->
    od_get String.eqb key (cache c) = Some td ->
    exists c1 c2 gl2,
      get key (c, gl) = Return (Some td) (c1, gl) /\
      _cleanup target (c1, gl) = Return tt (c2, gl2) /\
      (od_get String.eqb key (cache c2) = Some td \/ cache c2 = []).
Proof.
  intros key td c gl target Hnd Hget.
  rewrite (get_cases key c gl Hnd), Hget.
  pose (c1 := {| max_size_bytes := max_size_bytes c;
                 cleanup_threshold := cleanup_threshold c;
                 cache := od_del String.eqb key (cache c) ++ [(key, td)];
                 total_memory_usage := total_memory_usage c;
                 hits := hits c + 1; misses := misses c; evictions := evictions c |}).
  exists c1.
  destruct (_cleanup_prefix target c1 gl) as (pre & post & Hc & Hr & _).
  eexists _, _. split; [reflexivity|]. split; [exact Hr|]. cbn [cache].
  subst c1. cbn [cache] in Hc. symmetry in Hc.
  destruct (suffix_keeps_last _ _ _ _ _ Hc) as [-> | [post' ->]]; [now right | left].
  assert (Hnd1 : NoDup (od_keys (od_del String.eqb key (cache c) ++ [(key, td)]))).
  { apply NoDup_snoc_od; [now apply od_del_NoDup|].
    apply od_del_gone; [apply string_eqb_iff | exact Hnd]. }
  rewrite <- Hc in Hnd1. apply NoDup_app_r_od in Hnd1.
  apply (od_get_app_last _ string_eqb_iff).
  rewrite od_keys_app in Hnd1. apply NoDup_remove_2 in Hnd1.
  simpl in Hnd1. rewrite app_nil_r in Hnd1. exact Hnd1.
Qed.

Lemma clear_spec (c : LRUTextureCache) (gl : gl_log) :
  exists c',
    clear (c, gl) = Return tt (c', gl ++ held_textures (cache c)) /\
    cache c' = [] /\ total_memory_usage c' = 0.
Proof.
  unfold clear.
  change (fold_left (fun g e => release (snd e) g) (cache c) gl) with (releases (cache c) gl).
  rewrite releases_held. eexists. split; [reflexivity|]. simpl. auto.
Qed.

(** X4: [clear] hands every texture the cache holds to glDeleteTextures once,
    in cache order, empties the map and resets the usage; the counters stay.
    A second [clear] releases nothing more. *)
Theorem clear_releases_every_texture_once :
  forall (c : LRUTextureCache) (gl : gl_log),
  exists c',
    clear (c, gl) = Return tt (c', gl ++ held_textures (cache c)) /\
    cache c' = [] /\ total_memory_usage c' = 0 /\
    hits c' = hits c /\ misses c' = misses c /\ evictions c' = evictions c /\
    clear (c', gl ++ held_textures (cache c)) = Return tt (c', gl ++ held_textures (cache c)).
Proof.
  intros c gl. unfold clear.
  change (fold_left (fun g e => release (snd e) g) (cache c) gl) with (releases (cache c) gl).
  rewrite releases_held. eexists. split; [reflexivity|]. simpl. repeat split.
Qed.

(** X5: [remove] forgets exactly one key.  On a present key it returns True,
    the key is gone, every other key still maps to the same dictionary and
    the usage has dropped by the removed entry's size; on an absent key it
    returns False and changes nothing. *)
Theorem remove_forgets_one_key :
  forall (key : string) (c : LRUTextureCache) (gl : gl_log),
    NoDup (od_keys (cache c)) ->
    exists b c',
      remove key (c, gl) = Return b (c', gl) /\
      b = od_mem String.eqb key (cache c) /\
      od_mem String.eqb key (cache c') = false /\
      (forall k, k <> key -> od_get String.eqb k (cache c') = od_get String.eqb k (cache c)) /\
      total_memory_usage c' = total_memory_usage c - old_size key (cache c) /\
      (b = false -> c' = c).
Proof.
  intros key c gl Hnd. unfold remove, od_mem, old_size.
  destruct (od_get String.eqb key (cache c)) as [td|] eqn:Eg.
  - eexists _, _. split; [reflexivity|]. simpl. repeat split; try discriminate.
    + assert (H : od_get String.eqb key (od_del String.eqb key (cache c)) = None).
      { apply (od_get_None_notin _ string_eqb_iff).
        apply od_del_gone; [apply string_eqb_iff | exact Hnd]. }
      now rewrite H.
    + intros k Hk. now apply od_get_del_other.
  - exists false, c. rewrite Eg. repeat split; auto. lia.
Qed.

(** [put] and [_cleanup] leave the hit and miss counters alone. *)
Lemma put_counters key td s :
  hits (fst (state_of (put key td s))) = hits (fst s) /\
  misses (fst (state_of (put key td s))) = misses (fst s).
Proof.
  destruct s as [c gl]. unfold put. cbn [fst].
  destruct (Qgtb (inject_Z (_calculate_texture_size td)) (oversize_limit c)); [auto|].
  set (cleaned := if Qgtb _ (cleanup_trigger c) then _ else _).
  assert (Hcl : exists c1 gl1,
             cleaned = Return tt (c1, gl1) /\ hits c1 = hits c /\ misses c1 = misses c).
  { subst cleaned. destruct (Qgtb _ (cleanup_trigger c)).
    - destruct (_cleanup_prefix (cleanup_target c) c gl) as (pre & post & _ & Hr & _).
      rewrite Hr. eexists _, _. split; [reflexivity|]. auto.
    - eauto. }
  destruct Hcl as (c1 & gl1 & -> & Hh & Hm).
  destruct (od_get String.eqb key (cache c1)); cbn [set_cache set_total cache total_memory_usage];
    match goal with |- context [od_move_to_end ?e ?k ?d] => destruct (od_move_to_end e k d) end;
    cbn; auto.
Qed.





End LRU_more.

(** * The manager's use of the texture cache *)

Module Loader_facts.
Import LRU LRU_facts Loader.

(* the dictionary the loader stores for an image of the given size *)
Definition texture_info (env : load_env) (w h : Z) : texture_data :=
  {| texture_id := Some (new_texture env); width := Some w; height := Some h |}.

(** X8: Loading an image twice uploads it once.  In a cache with unique keys
    and exact accounting, whose budget and eviction trigger are finite
    doubles, a first load of an uncached image that is within the
    per-texture limit the code computes, [max_size_bytes * 0.1] in
    binary64, returns the freshly generated
    texture name and caches it as the most recent entry; a second load of
    the same path, whatever the collaborators would answer, is a hit: it
    returns the same name, generates and releases nothing and leaves the
    cache entries as they are. *)
Theorem load_twice_uploads_once :
  forall (image_path : string) (env env' : load_env) (w h : Z)
         (c : LRUTextureCache) (gl : gl_log),
    inv c ->
    finite_limits c = true ->
    image_path <> ""%string ->
    od_get String.eqb image_path (cache c) = None ->
    surface env = Some (w, h) ->
    (inject_Z (w * h * 4) <= oversize_limit c)%Q ->
    exists c1 gl1 c2 rest,
      _load_texture_with_cache image_path env (c, gl) =
        Return (Some (new_texture env)) (c1, gl1) /\
      cache c1 = rest ++ [(image_path, texture_info env w h)] /\
      misses c1 = misses c + 1 /\
      _load_texture_with_cache image_path env' (c1, gl1) =
        Return (Some (new_texture env)) (c2, gl1) /\
      cache c2 = cache c1 /\
      hits c2 = hits c1 + 1 /\ misses c2 = misses c1.
Proof.
  intros path env env' w h c gl Hinv _ Hpath Hnew Hsurf Hsize.
  assert (Hne : String.eqb path "" = false).
  { destruct (String.eqb path "") eqn:E; [|reflexivity].
    apply String.eqb_eq in E. contradiction. }
  unfold _load_texture_with_cache. rewrite Hne.
  rewrite (LRU_more.get_cases path c gl (proj1 Hinv)), Hnew, Hsurf.
  fold (texture_info env w h).
  set (cm := {| max_size_bytes := max_size_bytes c; cleanup_threshold := cleanup_threshold c;
                cache := cache c; total_memory_usage := total_memory_usage c;
                hits := hits c; misses := misses c + 1; evictions := evictions c |}).
  assert (Hinvm : inv cm) by exact Hinv.
  assert (Hok : Qgtb (inject_Z (_calculate_texture_size (texture_info env w h)))
                     (oversize_limit cm) = false)
    by (apply Qgtb_false; exact Hsize).
  destruct (put_accepted path (texture_info env w h) cm gl Hinvm Hok)
    as (c0 & gl1 & c1 & _ & Hinv0 & _ & Hp & Hc & _ & _ & _ & Hinv1).
  pose proof (LRU_more.put_counters path (texture_info env w h) (cm, gl)) as [Hh Hm].
  rewrite Hp in Hh, Hm |- *. cbn in Hh, Hm.
  assert (Hgone : ~ In path (od_keys (od_del String.eqb path (cache c0)))).
  { apply od_del_gone; [apply string_eqb_iff | apply Hinv0]. }
  exists c1, gl1. eexists. exists (od_del String.eqb path (cache c0)).
  split; [reflexivity|]. split; [exact Hc|]. split; [exact Hm|].
  rewrite (LRU_more.get_cases path c1 gl1 (proj1 Hinv1)).
  rewrite Hc, (od_get_app_last _ string_eqb_iff) by exact Hgone.
  rewrite (od_del_app_last _ string_eqb_iff) by exact Hgone.
  cbn. repeat split; reflexivity.
Qed.

(** X9: In a cache with unique keys, whose budget and eviction trigger are
    finite doubles, an image above the per-texture limit the code computes,
    [max_size_bytes * 0.1] in binary64, is uploaded on every load: the call
    returns the new texture name, but the cache is exactly as before apart
    from one more miss; it keeps no entry for the path, so the next load of
    the same path misses again, and nothing will release the texture. *)
Theorem oversized_image_is_never_cached :
  forall (image_path : string) (env : load_env) (w h : Z)
         (c : LRUTextureCache) (gl : gl_log),
    NoDup (od_keys (cache c)) ->
    finite_limits c = true ->
    image_path <> ""%string ->
    od_get String.eqb image_path (cache c) = None ->
    surface env = Some (w, h) ->
    (oversize_limit c < inject_Z (w * h * 4))%Q ->
    _load_texture_with_cache image_path env (c, gl) =
      Return (Some (new_texture env)) (set_misses c (misses c + 1), gl) /\
    od_get String.eqb image_path (cache (set_misses c (misses c + 1))) = None.
Proof.
  intros path env w h c gl Hnd _ Hpath Hnew Hsurf Hbig.
  assert (Hne : String.eqb path "" = false).
  { destruct (String.eqb path "") eqn:E; [|reflexivity].
    apply String.eqb_eq in E. contradiction. }
  split; [|exact Hnew].
  unfold _load_texture_with_cache. rewrite Hne.
  rewrite (LRU_more.get_cases path c gl Hnd), Hnew, Hsurf.
  unfold put. cbn [fst].
  match goal with
  | |- context [Qgtb ?a ?b] =>
      assert (H : Qgtb a b = true) by (apply Qgtb_true; exact Hbig); rewrite H
  end.
  reflexivity.
Qed.

End Loader_facts.

(** * More about the text cache: hits and font-update invalidation *)

Module TextCache_more.
Import TextCache TextCache_facts.

Lemma fold_del_notin (keys : list string) :
  forall d : list (string * entry),
    (forall k, In k keys -> ~ In k (od_keys d)) ->
    fold_left (fun d key => od_del String.eqb key d) keys d = d.
Proof.
  induction keys as [|k keys IH]; intros d H; simpl; [reflexivity|].
  rewrite (od_del_notin _ string_eqb_iff) by (apply H; now left).
  apply IH. intros k' Hk'. apply H. now right.
Qed.

(** Deleting, one after the other, the keys that satisfy a test leaves the
    entries that fail it, in their order. *)
Lemma fold_del_filter (p : string -> bool) :
  forall d : list (string * entry),
    NoDup (od_keys d) ->
    fold_left (fun d key => od_del String.eqb key d) (List.filter p (od_keys d)) d =
    List.filter (fun e => negb (p (fst e))) d.
Proof.
  induction d as [|[k v] d IH]; intros Hnd; [reflexivity|].
  inversion Hnd as [|? ? Hn Hd]; subst. cbn [od_keys map fst List.filter].
  destruct (p k) eqn:Ep; cbn [negb fold_left od_del].
  - rewrite String.eqb_refl. apply IH. exact Hd.
  - assert (Hgen : forall keys (d0 : list (string * entry)),
               ~ In k keys ->
               fold_left (fun d key => od_del String.eqb key d) keys ((k, v) :: d0) =
               (k, v) :: fold_left (fun d key => od_del String.eqb key d) keys d0).
    { induction keys as [|k' keys IHk]; intros d0 Hk; [reflexivity|].
      cbn [fold_left od_del].
      destruct (String.eqb k' k) eqn:E.
      - apply String.eqb_eq in E. subst. exfalso. apply Hk. now left.
      - apply IHk. intros Hin. apply Hk. now right. }
    rewrite Hgen.
    + f_equal. apply IH. exact Hd.
    + intros Hin. apply filter_In in Hin. destruct Hin as [Hin _]. contradiction.
Qed.

(* the attribute dictionary after the font fields have been written *)
Definition with_font (font_size font_name font_file force_chinese : option pyval) (t : task)
  : task :=
  set_attr "force_chinese" force_chinese
    (set_attr "font_file" font_file (set_attr "font_name" font_name
       (set_attr "font_size" font_size t))).

(* task['type'] == 'text' *)
Definition is_text (t : task) : bool :=
  match t !! "type"%string with
  | Some (VStr s) => String.eqb s "text"
  | _ => false
  end.

(** X10: update_text_font on a text task writes the given font attributes and
    drops from the text cache exactly the entries whose key starts with the
    task's text followed by an underscore (entries of any other task whose
    text begins that way included); the remaining entries keep their order
    and nothing is handed to glDeleteTextures.  On an unknown task, or one
    whose type is not 'text', it returns False and changes nothing. *)
Theorem update_text_font_drops_prefixed_keys :
  forall (py_str : pyval -> string) (task_id : string)
         (font_size font_name font_file force_chinese : option pyval)
         (tasks : registry) (c : text_cache) (gl : gl_log),
    NoDup (od_keys (text_texture_cache c)) ->
    (forall t, tasks !! task_id = Some t -> t !! "type"%string <> None) ->
    update_text_font py_str task_id font_size font_name font_file force_chinese tasks (c, gl) =
      match tasks !! task_id with
      | Some t =>
          if is_text t
          then
            let t' := with_font font_size font_name font_file force_chinese t in
            Return true
              (<[task_id := t']> tasks,
               (set_entries c
                  (List.filter
                     (fun e => negb (String.prefix (text_of py_str t' ++ "_") (fst e)))
                     (text_texture_cache c)),
                gl))
          else Return false (tasks, (c, gl))
      | None => Return false (tasks, (c, gl))
      end.
Proof.
  intros py_str task_id fs fn ff fc tasks c gl Hnd Htype. unfold update_text_font.
  destruct (tasks !! task_id) as [t|] eqn:Et; [|reflexivity].
  specialize (Htype t eq_refl).
  destruct (t !! "type"%string) as [ty|] eqn:Ety; [|contradiction].
  unfold is_text. rewrite Ety.
  destruct ty as [f | l | s | r]; try reflexivity.
  destruct (String.eqb s "text") eqn:E.
  - apply String.eqb_eq in E. subst s.
    cbv zeta. cbn [fst snd]. fold (with_font fs fn ff fc t).
    rewrite (fold_del_filter _ _ Hnd). reflexivity.
  - revert E.
    repeat (match goal with
            | |- context [match ?x with EmptyString => _ | String _ _ => _ end] => destruct x
            | |- context [match ?x with Ascii.Ascii _ _ _ _ _ _ _ _ => _ end] => destruct x
            | |- context [if ?b then _ else _] => destruct b
            end; try reflexivity; try discriminate).
Qed.

(** X11: A hit in a text-render path uploads nothing and releases nothing,
    whether or not glDeleteTextures would raise: the keys and their order
    stay, the hit counter grows by one, the miss counter stays, and only the
    entry that was hit changes: its last_used is now the time of the call,
    its texture, size, creation time and font information are the same. *)
Theorem render_text_hit :
  forall (gl_raises : Z -> bool) (with_created : bool) (r : render_call) (c : text_cache)
         (gl : gl_log) (e : entry),
    od_get String.eqb (cache_key r) (text_texture_cache c) = Some e ->
    let s' := render_text gl_raises with_created r (c, gl) in
    snd s' = gl /\
    od_keys (text_texture_cache (fst s')) = od_keys (text_texture_cache c) /\
    (exists e',
       od_get String.eqb (cache_key r) (text_texture_cache (fst s')) = Some e' /\
       last_used e' = t_used r /\
       texture_id e' = texture_id e /\ width e' = width e /\ height e' = height e /\
       created e' = created e /\ font_info e' = font_info e) /\
    (forall k, k <> cache_key r ->
       od_get String.eqb k (text_texture_cache (fst s')) =
       od_get String.eqb k (text_texture_cache c)) /\
    text_cache_hits (fst s') = text_cache_hits c + 1 /\
    text_cache_misses (fst s') = text_cache_misses c.
Proof.
  intros gl_raises wc r c gl e Hget. unfold render_text. rewrite Hget.
  cbn [fst snd set_entries count_hit text_texture_cache text_cache_hits text_cache_misses].
  assert (Hin : In (cache_key r) (od_keys (text_texture_cache c))).
  { apply (od_mem_true_in _ string_eqb_iff). unfold od_mem. now rewrite Hget. }
  split; [reflexivity|]. split; [|split; [|split; [|split; reflexivity]]].
  - apply (od_set_mem_keys _ string_eqb_iff). exact Hin.
  - exists (set_last_used e (t_used r)).
    split; [apply (od_get_set_same _ string_eqb_iff)|]. cbn. repeat split; reflexivity.
  - intros k Hk. apply (od_get_set_other _ string_eqb_iff). exact Hk.
Qed.

End TextCache_more.

(** * The font-instance cache and the teardown *)

Section StableSortFacts.
Context {A : Type}.
Variable key : A -> Q.

Definition key_le (a b : A) : Prop := (key a <= key b)%Q.

Lemma insert_by_perm x l : Permutation (insert_by key x l) (x :: l).
Proof.
  induction l as [|y l IH]; simpl; [reflexivity|].
  destruct (Qle_bool _ _); [reflexivity|].
  rewrite IH. apply perm_swap.
Qed.

Lemma sorted_by_perm l : Permutation (sorted_by key l) l.
Proof.
  induction l as [|x l IH]; simpl; [reflexivity|].
  rewrite insert_by_perm. now constructor.
Qed.

Lemma insert_by_sorted x l :
  StronglySorted key_le l -> StronglySorted key_le (insert_by key x l).
Proof.
  induction l as [|y l IH]; simpl; intros Hs.
  - repeat constructor.
  - inversion Hs as [|? ? Hl Hy]; subst.
    destruct (Qle_bool (key x) (key y)) eqn:E.
    + apply Qle_bool_iff in E. constructor; [assumption|].
      constructor; [exact E|].
      rewrite Forall_forall in Hy |- *. intros z Hz.
      unfold key_le in *. eapply Qle_trans; [exact E | now apply Hy].
    + assert (Hyx : key_le y x).
      { unfold key_le. apply Qlt_le_weak, Qnot_le_lt. intros H.
        apply Qle_bool_iff in H. congruence. }
      constructor; [now apply IH|].
      rewrite Forall_forall in Hy |- *. intros z Hz.
      apply (Permutation_in _ (insert_by_perm x l)) in Hz.
      destruct Hz as [<- | Hz]; [exact Hyx | now apply Hy].
Qed.

Lemma sorted_by_sorted l : StronglySorted key_le (sorted_by key l).
Proof.
  induction l as [|x l IH]; simpl; [constructor|].
  now apply insert_by_sorted.
Qed.

Lemma StronglySorted_app_le (a b : list A) :
  StronglySorted key_le (a ++ b) -> forall x y, In x a -> In y b -> key_le x y.
Proof.
  induction a as [|z a IH]; simpl; intros Hs x y Hx Hy; [tauto|].
  inversion Hs as [|? ? Hrest Hz]; subst.
  destruct Hx as [<- | Hx].
  - rewrite Forall_forall in Hz. apply Hz, in_or_app. now right.
  - now apply IH.
Qed.

End StableSortFacts.

Module FontCache_facts.
Import FontCache.

Lemma drop_oldest_spec target :
  0 <= target ->
  forall sorted_instances d,
    NoDup (od_keys d) ->
    Permutation sorted_instances d ->
    exists evicted rest d',
      sorted_instances = evicted ++ rest /\
      drop_oldest sorted_instances d target = Return tt d' /\
      Permutation rest d' /\
      NoDup (od_keys d') /\
      Z.of_nat (List.length d') = Z.min (Z.of_nat (List.length d)) target.
Proof.
  intros Htarget sorted_instances.
  induction sorted_instances as [|[key data] srt IH]; intros d Hnd Hperm.
  - apply Permutation_nil in Hperm. subst d.
    exists [], [], []. simpl. change (Z.of_nat 0) with 0.
    destruct (0 <=? target) eqn:E; [|apply Z.leb_gt in E; lia].
    repeat split; auto. lia.
  - simpl. destruct (Z.of_nat (List.length d) <=? target) eqn:E.
    + apply Z.leb_le in E. exists [], ((key, data) :: srt), d. simpl.
      repeat split; auto. lia.
    + apply Z.leb_gt in E.
      assert (Hin : In (key, data) d)
        by (eapply Permutation_in; [exact Hperm | now left]).
      assert (Hget : od_get String.eqb key d <> None).
      { intros Hn. apply (od_get_None_notin _ string_eqb_iff) in Hn.
        apply Hn. apply (in_map fst) in Hin. exact Hin. }
      destruct (od_get String.eqb key d) as [v|]; [|congruence].
      pose proof (od_del_Permutation _ string_eqb_iff key data d Hnd Hin) as Hdel.
      assert (Hperm' : Permutation srt (od_del String.eqb key d)).
      { eapply Permutation_cons_inv. rewrite Hperm. exact Hdel. }
      assert (Hd : S (List.length (od_del String.eqb key d)) = List.length d).
      { apply (od_del_length _ string_eqb_iff). apply (in_map fst) in Hin. exact Hin. }
      destruct (IH (od_del String.eqb key d) (od_del_NoDup _ key d Hnd) Hperm')
        as (evicted & rest & d' & Hsplit & Hrun & Hrest & Hnd' & Hmin).
      exists ((key, data) :: evicted), rest, d'. simpl. rewrite <- Hsplit.
      repeat split; auto. lia.
Qed.

(** X12: _cleanup_font_instances never raises, whatever the limit.  At or under
    the limit it does nothing; above it, it removes the instances used
    longest ago until max(5, limit // 2) are left: none of the removed ones
    was used later than one that stays.  With a limit under 5 the cache can
    therefore stay above its limit, but never above 5. *)
Theorem font_cleanup_leaves_half :
  forall (c : font_cache),
    NoDup (od_keys (font_instances c)) ->
    exists evicted d',
      _cleanup_font_instances c = Return tt (set_instances c d') /\
      Permutation (font_instances c) (evicted ++ d') /\
      (forall e s, In e evicted -> In s d' -> (last_used (snd e) <= last_used (snd s))%Q) /\
      Z.of_nat (List.length d') =
        (if Z.of_nat (List.length (font_instances c)) <=? max_font_instances c
         then Z.of_nat (List.length (font_instances c))
         else Z.min (Z.of_nat (List.length (font_instances c)))
                    (Z.max 5 (max_font_instances c / 2))) /\
      Z.of_nat (List.length d') <= Z.max 5 (max_font_instances c).
Proof.
  intros c Hnd. unfold _cleanup_font_instances.
  destruct (Z.of_nat (List.length (font_instances c)) <=? max_font_instances c) eqn:E.
  - apply Z.leb_le in E. exists [], (font_instances c). simpl.
    repeat split; auto; try tauto; try lia. destruct c; reflexivity.
  - apply Z.leb_gt in E.
    destruct (drop_oldest_spec (Z.max 5 (max_font_instances c / 2)) ltac:(lia)
                (sorted_by (fun e => last_used (snd e)) (font_instances c))
                (font_instances c) Hnd (sorted_by_perm _ _))
      as (evicted & rest & d' & Hsplit & Hrun & Hrest & Hnd' & Hmin).
    exists evicted, d'. rewrite Hrun. repeat split; auto.
    + transitivity (evicted ++ rest); [|apply Permutation_app_head; exact Hrest].
      rewrite <- Hsplit. symmetry. apply sorted_by_perm.
    + intros e s He Hs.
      apply (StronglySorted_app_le (fun e => last_used (snd e)) evicted rest).
      * rewrite <- Hsplit. apply sorted_by_sorted.
      * exact He.
      * eapply Permutation_in; [symmetry; exact Hrest | exact Hs].
    + rewrite Hmin.
      assert (max_font_instances c / 2 <= max_font_instances c \/ max_font_instances c < 0)
        by (destruct (Z_lt_le_dec (max_font_instances c) 0);
            [now right | left; apply Z.div_le_upper_bound; lia]).
      assert (max_font_instances c < 0 -> max_font_instances c / 2 < 0)
        by (intros; apply Z.div_lt_upper_bound; lia).
      lia.
Qed.

End FontCache_facts.

Module Teardown_facts.
Import Teardown.

Lemma fold_release_ids (ids : list (string * Z)) :
  forall gl, fold_left (fun g e => glDeleteTextures (snd e) g) ids gl = gl ++ map snd ids.
Proof.
  induction ids as [|[k i] ids IH]; intros gl; simpl; [now rewrite app_nil_r|].
  rewrite IH. unfold glDeleteTextures. now rewrite <- app_assoc.
Qed.

Lemma fold_release_entries (d : list (string * TextCache.entry)) :
  forall gl,
    fold_left (fun g e => glDeleteTextures (TextCache.texture_id (snd e)) g) d gl =
    gl ++ map (fun e => TextCache.texture_id (snd e)) d.
Proof.
  induction d as [|[k e] d IH]; intros gl; simpl; [now rewrite app_nil_r|].
  rewrite IH. unfold glDeleteTextures. now rewrite <- app_assoc.
Qed.

(** X13: The teardown releases every texture of the three texture caches exactly
    once (first those of the LRU cache, then the compatibility dictionary,
    then the text cache, each in its own order), empties all caches, and is
    idempotent: a second call, or the destructor after it, changes nothing
    and releases nothing. *)
Theorem cleanup_releases_once_and_is_idempotent :
  forall (m : caches) (gl : gl_log),
    _cleaned_up m = false ->
    exists m',
      cleanup (m, gl) =
        Return tt (m', gl ++ LRU_more.held_textures (LRU.cache (lru_texture_cache m))
                          ++ map snd (texture_cache m)
                          ++ map (fun e => TextCache.texture_id (snd e))
                                 (TextCache.text_texture_cache (text_cache m))) /\
      LRU.cache (lru_texture_cache m') = [] /\
      LRU.total_memory_usage (lru_texture_cache m') = 0 /\
      texture_cache m' = [] /\
      TextCache.text_texture_cache (text_cache m') = [] /\
      font_cache m' = [] /\ font_instances m' = [] /\
      (forall gl', cleanup (m', gl') = Return tt (m', gl')) /\
      (forall gl', __del__ (m', gl') = Return tt (m', gl')).
Proof.
  intros m gl Hflag. unfold cleanup. rewrite Hflag.
  destruct (LRU_more.clear_spec (lru_texture_cache m) gl)
    as (c' & Hclear & Hc & Ht).
  rewrite Hclear. unfold TextCache.cleanup_text_cache.
  rewrite fold_release_ids, fold_release_entries, <- !app_assoc.
  eexists. split; [reflexivity|]. cbn. repeat split; auto.
Qed.

End Teardown_facts.

(** * More on the physics step *)

Module Physics_more.
Import Physics.
#[local] Open Scope float_scope.

(* the loop passes over an entry that is disabled or whose task is gone *)
Lemma update_bodies_passes_over w window dt task_id todo :
  forall visited (tasks : registry),
    (forall b, In (task_id, b) todo -> enabled b = false \/ tasks !! task_id = None) ->
    let o := update_bodies w window dt todo visited tasks in
    fst (state_of o) !! task_id = tasks !! task_id /\
    od_get String.eqb task_id (snd (state_of o)) =
      od_get String.eqb task_id (visited ++ todo).
Proof.
  induction todo as [|[k b] rest IH]; intros visited tasks Hdis; cbn [update_bodies].
  - cbn. rewrite app_nil_r. auto.
  - assert (Hrest : forall b', In (task_id, b') rest ->
                               enabled b' = false \/ tasks !! task_id = None)
      by (intros b' Hb'; apply Hdis; now right).
    assert (Hskip : let o := update_bodies w window dt rest (visited ++ [(k, b)]) tasks in
                    fst (state_of o) !! task_id = tasks !! task_id /\
                    od_get String.eqb task_id (snd (state_of o)) =
                      od_get String.eqb task_id (visited ++ (k, b) :: rest)).
    { cbv zeta. destruct (IH (visited ++ [(k, b)]) tasks Hrest) as [H1 H2].
      split; [exact H1|]. rewrite H2, <- app_assoc. reflexivity. }
    destruct (tasks !! k) as [t|] eqn:Et; [|exact Hskip].
    destruct (enabled b) eqn:Een; cbn [negb]; [|exact Hskip].
    assert (Hne : task_id <> k).
    { intros ->. destruct (Hdis b) as [H | H]; [now left | congruence | congruence]. }
    assert (Hrest' : forall t' b', In (task_id, b') rest ->
                       enabled b' = false \/ <[k := t']> tasks !! task_id = None).
    { intros t' b' Hb'. destruct (Hrest b' Hb') as [H | H]; [now left | right].
      rewrite lookup_insert_ne; [exact H | congruence]. }
    destruct (integrate w window dt t b) as [[] [t' b'] | e [t' b']].
    + destruct (IH (visited ++ [(k, b')]) (<[k := t']> tasks) (Hrest' t')) as [H1 H2].
      cbv zeta. split.
      * rewrite H1. apply lookup_insert_ne. congruence.
      * rewrite H2, <- app_assoc. cbn [app].
        apply (od_get_app_other _ string_eqb_iff). exact Hne.
    + cbn. split.
      * apply lookup_insert_ne. congruence.
      * apply (od_get_app_other _ string_eqb_iff). exact Hne.
Qed.

(** X14: A body that is disabled, or whose task is no longer registered, is
    frozen by _update_physics: its entry (velocity included) and the task
    registered under its id are the same after the step, also when the step
    raises at another body. *)
Theorem physics_step_freezes_disabled_bodies :
  forall current_time s task_id b,
    NoDup (od_keys (physics_tasks s)) ->
    od_get String.eqb task_id (physics_tasks s) = Some b ->
    enabled b = false \/ tasks s !! task_id = None ->
    let s' := state_of (_update_physics current_time s) in
    od_get String.eqb task_id (physics_tasks s') = Some b /\
    tasks s' !! task_id = tasks s !! task_id.
Proof.
  intros current_time s task_id b Hnd Hget Hdis. unfold _update_physics.
  destruct (world_enabled (physics_world s)); cbn [negb]; [|cbn; auto].
  cbn [physics_world set_last_physics_update max_delta_time original_window_size
       physics_tasks tasks].
  set (dt := py_min _ _).
  assert (Hall : forall b', In (task_id, b') (physics_tasks s) ->
                            enabled b' = false \/ tasks s !! task_id = None).
  { intros b' Hin. apply (od_get_In_NoDup _ string_eqb_iff) in Hin; [|exact Hnd].
    rewrite Hget in Hin. injection Hin as <-. exact Hdis. }
  pose proof (update_bodies_passes_over (physics_world s) (original_window_size s) dt
                task_id (physics_tasks s) [] (tasks s) Hall) as H.
  cbv zeta in H. cbn [app] in H. rewrite Hget in H.
  destruct (update_bodies _ _ _ _ _ _) as [[] [t p] | e [t p]]; cbn in *; tauto.
Qed.

Lemma update_bodies_keys w window dt todo :
  forall visited (tasks : registry),
    let o := update_bodies w window dt todo visited tasks in
    od_keys (snd (state_of o)) = od_keys (visited ++ todo) /\
    forall k, fst (state_of o) !! k = None <-> tasks !! k = None.
Proof.
  induction todo as [|[k b] rest IH]; intros visited tasks; cbn [update_bodies].
  - cbn. rewrite app_nil_r. split; [reflexivity | tauto].
  - assert (Hskip : let o := update_bodies w window dt rest (visited ++ [(k, b)]) tasks in
                    od_keys (snd (state_of o)) = od_keys (visited ++ (k, b) :: rest) /\
                    forall k', fst (state_of o) !! k' = None <-> tasks !! k' = None).
    { cbv zeta. destruct (IH (visited ++ [(k, b)]) tasks) as [H1 H2].
      split; [|exact H2]. rewrite H1, <- app_assoc. reflexivity. }
    destruct (tasks !! k) as [t|] eqn:Et; [|exact Hskip].
    destruct (enabled b); cbn [negb]; [|exact Hskip].
    assert (Hdom : forall t' k', <[k := t']> tasks !! k' = None <-> tasks !! k' = None).
    { intros t' k'. destruct (String.eqb_spec k k') as [<- | Hne].
      - rewrite lookup_insert_eq, Et. split; discriminate.
      - now rewrite lookup_insert_ne. }
    destruct (integrate w window dt t b) as [[] [t' b'] | e [t' b']].
    + destruct (IH (visited ++ [(k, b')]) (<[k := t']> tasks)) as [H1 H2].
      cbv zeta. split.
      * rewrite H1, <- app_assoc. unfold od_keys. now rewrite !map_app.
      * intros k'. rewrite H2. apply Hdom.
    + cbn. split.
      * unfold od_keys. now rewrite !map_app.
      * apply Hdom.
Qed.

(** X15: _update_physics neither registers nor drops anything: the bodies keep
    their ids and their order, and the registry has the same task ids before
    and after, whether the step returns or raises. *)
Theorem physics_step_keeps_ids :
  forall current_time s,
    let s' := state_of (_update_physics current_time s) in
    od_keys (physics_tasks s') = od_keys (physics_tasks s) /\
    forall k, tasks s' !! k = None <-> tasks s !! k = None.
Proof.
  intros current_time s. unfold _update_physics.
  destruct (world_enabled (physics_world s)); cbn [negb]; [|cbn; split; [reflexivity|tauto]].
  cbn [physics_world set_last_physics_update max_delta_time original_window_size
       physics_tasks tasks].
  set (dt := py_min _ _).
  pose proof (update_bodies_keys (physics_world s) (original_window_size s) dt
                (physics_tasks s) [] (tasks s)) as H.
  cbv zeta in H. cbn [app] in H.
  destruct (update_bodies _ _ _ _ _ _) as [[] [t p] | e [t p]]; cbn in *; exact H.
Qed.

Lemma update_bodies_raises w window dt task_id b t todo :
  forall visited (tasks : registry),
    NoDup (od_keys todo) ->
    In (task_id, b) todo ->
    enabled b = true ->
    tasks !! task_id = Some t ->
    t !! "x"%string = None ->
    raised (update_bodies w window dt todo visited tasks) <> None.
Proof.
  induction todo as [|[k b0] rest IH]; intros visited tasks Hnd Hin Hen Ht Hx;
    [destruct Hin|].
  cbn [update_bodies]. cbn in Hnd. inversion Hnd as [|? ? Hk Hrest]; subst.
  destruct (String.eqb_spec k task_id) as [-> | Hne].
  - assert (b0 = b) as ->.
    { destruct Hin as [H | H]; [congruence|].
      exfalso. apply Hk. apply (in_map fst) in H. exact H. }
    rewrite Ht, Hen. cbn [negb]. unfold integrate.
    destruct (gravity w) as [gx gy]. unfold attr_num at 1. rewrite Hx. cbn. discriminate.
  - destruct Hin as [H | Hin]; [congruence|].
    destruct (tasks !! k) as [t0|] eqn:Et; [|now apply IH].
    destruct (enabled b0); cbn [negb]; [|now apply IH].
    destruct (integrate w window dt t0 b0) as [[] [t' b'] | e [t' b']].
    + apply IH; auto. rewrite lookup_insert_ne; auto.
    + cbn. discriminate.
Qed.

(** X16: A body attached to a task without an 'x' attribute (a line task has
    x1, y1, x2, y2) makes every step of an enabled world raise: the step does
    not return, and the physics clock has already been advanced. *)
Theorem physics_step_raises_without_position :
  forall current_time s task_id b t,
    world_enabled (physics_world s) = true ->
    NoDup (od_keys (physics_tasks s)) ->
    od_get String.eqb task_id (physics_tasks s) = Some b ->
    enabled b = true ->
    tasks s !! task_id = Some t ->
    t !! "x"%string = None ->
    raised (_update_physics current_time s) <> None /\
    last_physics_update (state_of (_update_physics current_time s)) = current_time.
Proof.
  intros current_time s task_id b t Hw Hnd Hget Hen Ht Hx. unfold _update_physics.
  rewrite Hw. cbn [negb].
  cbn [physics_world set_last_physics_update max_delta_time original_window_size
       physics_tasks tasks].
  set (dt := py_min _ _).
  pose proof (update_bodies_raises (physics_world s) (original_window_size s) dt
                task_id b t (physics_tasks s) [] (tasks s) Hnd
                (od_get_Some_in _ string_eqb_iff _ _ _ Hget) Hen Ht Hx) as H.
  destruct (update_bodies _ _ _ _ _ _) as [[] [t' p] | e [t' p]]; cbn in *.
  - congruence.
  - split; [discriminate | reflexivity].
Qed.

(** X17: add_physics_body accepts a mass of zero, and every later apply_force
    or apply_impulse on that body raises ZeroDivisionError and changes
    nothing. *)
Theorem zero_mass_body_makes_forces_raise :
  forall s task_id t friction restitution damping collision gravity fx fy,
    tasks s !! task_id = Some t ->
    let r := add_physics_body task_id "dynamic" 0 friction restitution damping
                              collision gravity s in
    fst r = true /\
    apply_force task_id fx fy (snd r) = Raise ZeroDivisionError (snd r) /\
    apply_impulse task_id fx fy (snd r) = Raise ZeroDivisionError (snd r).
Proof.
  intros s task_id t fr re da co gr fx fy Ht. unfold add_physics_body. rewrite Ht.
  cbn [fst snd]. split; [reflexivity|].
  unfold apply_force, apply_impulse. cbn [physics_tasks set_physics_tasks].
  rewrite (od_get_set_same _ string_eqb_iff). cbn [body_type mass].
  change (String.eqb "dynamic" "dynamic") with true. cbn [negb].
  unfold py_div. change (0 =? 0) with true. cbn. auto.
Qed.

End Physics_more.

(** * More on the animation engine *)

Module Anim_more.
Import Anim Anim_facts.
#[local] Open Scope float_scope.

Lemma collect_start_values_complete (t : task) properties :
  forall acc,
    collect_start_values t properties acc <> None <->
    forall p, In p (od_keys properties) -> t !! p <> None.
Proof.
  induction properties as [|[prop tv] rest IH]; intros acc; cbn.
  - split; [intros _ p [] | discriminate].
  - destruct (t !! prop) as [v|] eqn:E.
    + rewrite IH. split.
      * intros H p [<- | Hp]; [congruence | now apply H].
      * intros H p Hp. apply H. now right.
    + split; [congruence|]. intros H. exfalso. apply (H prop); auto.
Qed.

(** X18: animate_task returns True exactly when the task is registered and has
    every property that is to be animated; when it returns False no
    animation has been added. *)
Theorem animate_task_succeeds_iff :
  forall task_id duration properties easing on_complete delay s,
    let r := animate_task task_id duration properties easing on_complete delay s in
    (fst r = true <->
       exists t, tasks s !! task_id = Some t /\
                 forall p, In p (od_keys properties) -> t !! p <> None) /\
    (fst r = false -> animations (snd r) = animations s).
Proof.
  intros task_id duration properties easing on_complete delay s. unfold animate_task.
  destruct (tasks s !! task_id) as [t|] eqn:Et; cbn [fst snd].
  - pose proof (collect_start_values_complete t properties []) as Hc.
    destruct (collect_start_values t properties []) as [sv|]; cbn [fst snd].
    + split; [|discriminate]. split; [intros _ | reflexivity].
      exists t. split; [reflexivity|]. apply Hc. discriminate.
    + split; [|reflexivity]. split; [discriminate|].
      intros (t' & [= <-] & H). apply Hc in H. congruence.
  - split; [|reflexivity]. split; [discriminate|]. intros (t' & H & _). discriminate.
Qed.

(** X19: The animation id is the task id and the clock reading.  When the
    clock has not moved between two calls of animate_task for the same task,
    the second animation takes the place of the first: the number of
    animations does not grow, and the entry under the id is the second one. *)
Theorem same_tick_animation_replaces_the_first :
  forall task_id t s d1 p1 e1 c1 dl1 d2 p2 e2 c2 dl2,
    tasks s !! task_id = Some t ->
    (forall p, In p (od_keys p1) -> t !! p <> None) ->
    (forall p, In p (od_keys p2) -> t !! p <> None) ->
    time_time s (S (S (clock_reads s))) = time_time s (clock_reads s) ->
    let s1 := snd (animate_task task_id d1 p1 e1 c1 dl1 s) in
    let r2 := animate_task task_id d2 p2 e2 c2 dl2 s1 in
    fst r2 = true /\
    od_keys (animations (snd r2)) = od_keys (animations s1) /\
    exists a, od_get id_eqb (task_id, time_time s (clock_reads s)) (animations (snd r2)) = Some a /\
              target_values a = p2 /\ duration a = d2 /\ easing a = e2 /\ on_complete a = c2.
Proof.
  intros task_id t s d1 p1 e1 c1 dl1 d2 p2 e2 c2 dl2 Ht H1 H2 Hclock.
  apply (collect_start_values_complete t p1 []) in H1.
  apply (collect_start_values_complete t p2 []) in H2.
  unfold animate_task. rewrite Ht.
  destruct (collect_start_values t p1 []) as [sv1|]; [|congruence].
  cbn [snd tasks set_animations set_clock_reads time_time clock_reads animations].
  rewrite Ht.
  destruct (collect_start_values t p2 []) as [sv2|]; [|congruence].
  cbn [fst snd tasks set_animations set_clock_reads time_time clock_reads animations].
  rewrite Hclock. split; [reflexivity|]. split.
  - apply (od_set_keys_mem _ id_eqb_iff).
    apply (od_mem_true_in _ id_eqb_iff). unfold od_mem.
    now rewrite (od_get_set_same _ id_eqb_iff).
  - eexists. split; [apply (od_get_set_same _ id_eqb_iff)|]. cbn. auto.
Qed.

Section Passes.
Variables (math_cos math_sin : float -> float) (float_pow : float -> float -> float).

(* an animation the loop passes over: finished, or not yet started *)
Definition idle (current_time : float) (a : animation) : bool :=
  completed a || (current_time <? start_time a).

Lemma advance_idle current_time anim_id a s :
  idle current_time a = true ->
  advance math_cos math_sin float_pow current_time anim_id a s = Return false s.
Proof.
  unfold idle, advance. destruct (completed a); [reflexivity|]. cbn [orb].
  now intros ->.
Qed.

Lemma visit_idle_prefix current_time s used pre :
  forall done rest remaining acc,
    animations s = done ++ pre ++ rest ->
    List.length (animations s) = used ->
    (forall e, In e pre -> idle current_time (snd e) = true) ->
    (List.length pre <= remaining)%nat ->
    visit math_cos math_sin float_pow remaining (List.length done) used current_time acc s =
    visit math_cos math_sin float_pow (remaining - List.length pre)
          (List.length done + List.length pre) used current_time acc s.
Proof.
  induction pre as [|[anim_id a] pre IH]; intros done rest remaining acc Hs Hused Hidle Hlen.
  - cbn [List.length]. now rewrite Nat.sub_0_r, Nat.add_0_r.
  - cbn [List.length] in *. destruct remaining as [|remaining]; [lia|].
    cbn [visit]. rewrite Hused, Nat.eqb_refl. cbn [negb].
    assert (Hnth : nth_error (animations s) (List.length done) = Some (anim_id, a)).
    { rewrite Hs. rewrite nth_error_app2 by lia. now rewrite Nat.sub_diag. }
    rewrite Hnth, advance_idle by (apply (Hidle (anim_id, a)); now left).
    assert (Hs' : animations s = (done ++ [(anim_id, a)]) ++ pre ++ rest)
      by (rewrite Hs, <- app_assoc; reflexivity).
    pose proof (IH (done ++ [(anim_id, a)]) rest remaining acc Hs' Hused
                  (fun e He => Hidle e (or_intror He)) ltac:(lia)) as H.
    rewrite length_app in H. cbn [List.length] in H.
    replace (List.length done + 1)%nat with (S (List.length done)) in H by lia.
    rewrite H. f_equal; lia.
Qed.

(** X20: Before its start time an animation does nothing: when every animation
    is either still waiting for its start (a delay that has not run out) or
    already marked completed, _update_animations returns and leaves tasks
    and animations exactly as they are. *)
Theorem waiting_animations_change_nothing :
  forall current_time s,
    (forall e, In e (animations s) -> idle current_time (snd e) = true) ->
    _update_animations math_cos math_sin float_pow current_time s = Return tt s.
Proof.
  intros current_time s Hidle. unfold _update_animations.
  pose proof (visit_idle_prefix current_time s (List.length (animations s)) (animations s)
                [] [] (List.length (animations s)) [] ltac:(now rewrite app_nil_r)
                eq_refl Hidle ltac:(lia)) as H.
  cbn [List.length] in H. rewrite H, Nat.sub_diag. cbn [visit].
  rewrite Nat.eqb_refl. reflexivity.
Qed.

(** X21: animate_task does not check the duration, and the update divides by
    it: the first animation that has started with a duration of zero makes
    _update_animations raise ZeroDivisionError before anything is changed,
    so that the animations after it are not advanced either. *)
Theorem zero_duration_animation_raises :
  forall current_time s pre anim_id a post,
    animations s = pre ++ (anim_id, a) :: post ->
    (forall e, In e pre -> idle current_time (snd e) = true) ->
    idle current_time a = false ->
    (duration a =? 0) = true ->
    _update_animations math_cos math_sin float_pow current_time s = Raise ZeroDivisionError s.
Proof.
  intros current_time s pre anim_id a post Hs Hidle Ha Hd. unfold _update_animations.
  assert (Hlen : List.length (animations s) = (List.length pre + S (List.length post))%nat)
    by (rewrite Hs, length_app; reflexivity).
  pose proof (visit_idle_prefix current_time s (List.length (animations s)) pre
                [] ((anim_id, a) :: post) (List.length (animations s)) [] Hs
                eq_refl Hidle ltac:(lia)) as H.
  cbn [List.length] in H. rewrite H.
  replace (List.length (animations s) - List.length pre)%nat with (S (List.length post)) by lia.
  cbn [visit Nat.add]. rewrite Nat.eqb_refl. cbn [negb].
  assert (Hnth : nth_error (animations s) (List.length pre) = Some (anim_id, a)).
  { rewrite Hs. rewrite nth_error_app2 by lia. now rewrite Nat.sub_diag. }
  rewrite Hnth. unfold advance. unfold idle in Ha.
  destruct (completed a); [discriminate|]. cbn [orb] in Ha. rewrite Ha, Hd. reflexivity.
Qed.













End Passes.

End Anim_more.

(** * The task registry and the draw order *)

Module Registry_facts.
Import Registry.

(* the ids on a layer, none for a layer without a list *)
Definition layer_ids (layer : string) (s : state) : list string :=
  match od_get String.eqb layer (task_layers s) with Some ids => ids | None => [] end.

(* the id is on none of the layer lists *)
Definition unlisted (task_id : string) (s : state) : Prop :=
  forall layer, ~ In task_id (layer_ids layer s).

(* every registered task has a type, as create_task gives it *)
Definition typed (r : registry) : Prop :=
  forall task_id t, r !! task_id = Some t -> t !! "type"%string <> None.

Lemma with_properties_keeps (k : string) properties :
  forall t : task, t !! k <> None -> with_properties properties t !! k <> None.
Proof.
  unfold with_properties.
  induction properties as [|[p v] rest IH]; intros t Ht; cbn [fold_left fst snd];
    [exact Ht|].
  apply IH. destruct (String.eqb_spec p k) as [-> | Hne].
  - now rewrite lookup_insert_eq.
  - now rewrite lookup_insert_ne.
Qed.

Lemma setdefault_keeps (k k' : string) v (t : task) :
  t !! k <> None -> setdefault k' v t !! k <> None.
Proof.
  intros Ht. unfold setdefault. destruct (t !! k') eqn:E; [exact Ht|].
  destruct (String.eqb_spec k' k) as [-> | Hne].
  - now rewrite lookup_insert_eq.
  - now rewrite lookup_insert_ne.
Qed.

Lemma new_task_has_type task_type task_id properties created font_size :
  new_task task_type task_id properties created font_size !! "type"%string <> None.
Proof.
  unfold new_task.
  set (base := with_properties properties _).
  assert (Hb : base !! "type"%string <> None).
  { apply with_properties_keeps.
    rewrite !lookup_insert_ne by discriminate. now rewrite lookup_insert_eq. }
  destruct (String.eqb task_type "rect"); [repeat apply setdefault_keeps; exact Hb|].
  destruct (String.eqb task_type "circle"); [repeat apply setdefault_keeps; exact Hb|].
  destruct (String.eqb task_type "text"); [repeat apply setdefault_keeps; exact Hb|].
  exact Hb.
Qed.

Lemma nonempty_task (t : task) k : t !! k <> None -> Nat.eqb (base.size t) 0 = false.
Proof.
  intros Hk. apply Nat.eqb_neq. intros Hs. apply map_size_empty_iff in Hs. subst t.
  now rewrite lookup_empty in Hk.
Qed.

Lemma until_untyped_incl (r : registry) ids x : In x (until_untyped r ids) -> In x ids.
Proof.
  induction ids as [|y ids IH]; cbn; [tauto|].
  destruct (r !! y) as [t|]; [|intros []].
  destruct (t !! "type"%string); [|intros []].
  intros [-> | H]; auto.
Qed.

Lemma until_untyped_typed (r : registry) ids :
  typed r -> (forall x, In x ids -> r !! x <> None) -> until_untyped r ids = ids.
Proof.
  intros Hty. induction ids as [|y ids IH]; intros Hall; cbn; [reflexivity|].
  destruct (r !! y) as [t|] eqn:Ey; [|exfalso; apply (Hall y); [now left | exact Ey]].
  pose proof (Hty y t Ey) as Ht. destruct (t !! "type"%string); [|congruence].
  f_equal. apply IH. intros x Hx. apply Hall. now right.
Qed.

Section DrawingFacts.
Variable other_true : string -> bool.

Lemma selected_in task_id (s : state) :
  In task_id (selected other_true s) <->
  exists layer, In layer layer_order /\ In task_id (layer_ids layer s) /\
                is_drawable other_true (tasks s) task_id = true.
Proof.
  unfold selected, layer_ids. rewrite in_flat_map. split.
  - intros (layer & Hl & Hin). exists layer. split; [exact Hl|].
    destruct (od_get String.eqb layer (task_layers s)); [|destruct Hin].
    apply filter_In in Hin. exact Hin.
  - intros (layer & Hl & Hin & Hd). exists layer. split; [exact Hl|].
    destruct (od_get String.eqb layer (task_layers s)); [|destruct Hin].
    apply filter_In. auto.
Qed.

Lemma selected_registered (s : state) x :
  In x (selected other_true s) -> tasks s !! x <> None.
Proof.
  intros H. apply selected_in in H. destruct H as (_ & _ & _ & Hd).
  unfold is_drawable in Hd. destruct (tasks s !! x); [discriminate | discriminate].
Qed.

Lemma render_calls_typed (s : state) :
  typed (tasks s) -> render_calls other_true s = selected other_true s.
Proof.
  intros Hty. unfold render_calls. apply until_untyped_typed; [exact Hty|].
  apply selected_registered.
Qed.

(* create_task, spelled out for a string layer *)
Lemma create_task_layers task_type task_id properties created (s : state) layer :
  layer_of (new_task task_type task_id properties created (default_font_size s)) = Some layer ->
  exists s1,
    create_task task_type task_id properties created s = Some (task_id, s1) /\
    tasks s1 = <[task_id := new_task task_type task_id properties created (default_font_size s)]>
                 (tasks s) /\
    layer_ids layer s1 = layer_ids layer s ++ [task_id] /\
    (forall layer', layer' <> layer -> layer_ids layer' s1 = layer_ids layer' s) /\
    draggable_tasks s1 = draggable_tasks s /\ physics_tasks s1 = physics_tasks s /\
    clickable_tasks s1 = clickable_tasks s /\ default_font_size s1 = default_font_size s.
Proof.
  intros Hl. unfold create_task. rewrite Hl.
  cbn [task_layers set_tasks]. unfold od_mem, layer_ids.
  destruct (od_get String.eqb layer (task_layers s)) as [ids|] eqn:E; cbn [negb].
  - rewrite E. eexists. split; [reflexivity|].
    cbn [tasks task_layers set_task_layers set_tasks draggable_tasks physics_tasks
         clickable_tasks default_font_size].
    rewrite (od_get_set_same _ string_eqb_iff).
    repeat split; auto.
    intros layer' Hne. now rewrite (od_get_set_other _ string_eqb_iff).
  - rewrite (od_get_set_same _ string_eqb_iff). eexists. split; [reflexivity|].
    cbn [tasks task_layers set_task_layers set_tasks draggable_tasks physics_tasks
         clickable_tasks default_font_size].
    rewrite (od_get_set_same _ string_eqb_iff).
    repeat split; auto.
    intros layer' Hne. now rewrite !(od_get_set_other _ string_eqb_iff).
Qed.

(** X23: A task created under an id that is on no layer list, on a layer that
    is not one of the eight layers of layer_order, is registered (get_task
    returns it) but render_frame never draws it. *)
Theorem task_on_unknown_layer_is_never_drawn :
  forall task_type task_id properties created s layer,
    layer_of (new_task task_type task_id properties created (default_font_size s)) = Some layer ->
    ~ In layer layer_order ->
    unlisted task_id s ->
    exists s1,
      create_task task_type task_id properties created s = Some (task_id, s1) /\
      get_task task_id s1 =
        Some (new_task task_type task_id properties created (default_font_size s)) /\
      ~ In task_id (render_calls other_true s1).
Proof.
  intros task_type task_id properties created s layer Hl Hunknown Hfresh.
  destruct (create_task_layers task_type task_id properties created s layer Hl)
    as (s1 & Hc & Ht & _ & Hother & _).
  exists s1. split; [exact Hc|]. split.
  - unfold get_task. rewrite Ht. apply lookup_insert_eq.
  - intros H. apply until_untyped_incl, selected_in in H.
    destruct H as (layer' & Hin & Hids & _).
    rewrite Hother in Hids by (intros ->; contradiction).
    exact (Hfresh layer' Hids).
Qed.

(** X24: After set_task_visibility(task_id, v) with a value v that Python
    counts as false (False, 0, an empty string or list, and whatever else
    bool() maps to False: None, an empty dict, ...) render_frame does not
    draw the task, whatever the layers hold. *)
Theorem hidden_task_is_not_drawn :
  forall task_id visible s,
    truthy other_true visible = false ->
    ~ In task_id (render_calls other_true (snd (set_task_visibility task_id visible s))).
Proof.
  intros task_id visible s Hv H. apply until_untyped_incl, selected_in in H.
  destruct H as (_ & _ & _ & Hd). revert Hd.
  unfold set_task_visibility, update_task_property, is_drawable.
  destruct (tasks s !! task_id) as [t|] eqn:Et; cbn [snd tasks set_tasks].
  - rewrite lookup_insert_eq, lookup_insert_eq, Hv, andb_false_r. discriminate.
  - rewrite Et. discriminate.
Qed.

Lemma count_occ_filter_true (f : string -> bool) x l :
  f x = true -> count_occ string_dec (filter f l) x = count_occ string_dec l x.
Proof.
  intros Hx. induction l as [|y l IH]; cbn; [reflexivity|].
  destruct (f y) eqn:Ey; cbn; destruct (string_dec y x) as [-> | Hne]; auto; congruence.
Qed.

Lemma count_occ_flat_map_ge {A} (f : A -> list string) x a l :
  In a l -> (count_occ string_dec (f a) x <= count_occ string_dec (flat_map f l) x)%nat.
Proof.
  induction l as [|b l IH]; cbn; [tauto|].
  rewrite count_occ_app. intros [-> | H]; [lia|]. specialize (IH H). lia.
Qed.

(** X25: create_task does not look for an earlier task with the same id.
    Creating a task whose 'visible' attribute Python counts as true (or that
    has none) again under an id that is still on the list of the same
    (known) layer overwrites the registered task but appends the id a second
    time, so that render_frame draws the task at least twice per frame. *)
Theorem recreated_task_is_drawn_twice :
  forall task_type task_id properties created s layer,
    let task := new_task task_type task_id properties created (default_font_size s) in
    typed (tasks s) ->
    layer_of task = Some layer ->
    In layer layer_order ->
    In task_id (layer_ids layer s) ->
    is_drawable other_true (<[task_id := task]> (tasks s)) task_id = true ->
    exists s1,
      create_task task_type task_id properties created s = Some (task_id, s1) /\
      (2 <= count_occ string_dec (render_calls other_true s1) task_id)%nat.
Proof.
  intros task_type task_id properties created s layer task Hty Hl Hknown Hin Hd.
  destruct (create_task_layers task_type task_id properties created s layer Hl)
    as (s1 & Hc & Ht & Hids & _).
  fold task in Ht. exists s1. split; [exact Hc|].
  assert (Hty1 : typed (tasks s1)).
  { intros k t. rewrite Ht. destruct (String.eqb_spec task_id k) as [<- | Hne].
    - rewrite lookup_insert_eq. intros [= <-]. apply new_task_has_type.
    - rewrite lookup_insert_ne by exact Hne. apply Hty. }
  rewrite (render_calls_typed s1 Hty1). unfold selected.
  etransitivity; [|apply (count_occ_flat_map_ge _ task_id layer layer_order Hknown)].
  cbv beta. unfold layer_ids in Hids.
  destruct (od_get String.eqb layer (task_layers s1)) as [ids1|];
    [|exfalso; exact (app_cons_not_nil _ _ _ Hids)].
  rewrite count_occ_filter_true by (rewrite Ht; exact Hd).
  subst ids1. rewrite count_occ_app. cbn.
  destruct (string_dec task_id task_id); [|congruence].
  apply (count_occ_In string_dec) in Hin. unfold layer_ids in Hin. lia.
Qed.

End DrawingFacts.

Lemma list_remove_snoc x l : ~ In x l -> list_remove x (l ++ [x]) = l.
Proof.
  induction l as [|y l IH]; cbn; intros Hn.
  - now rewrite String.eqb_refl.
  - destruct (String.eqb_spec x y) as [-> | Hne]; [tauto|].
    f_equal. apply IH. tauto.
Qed.

(* if k in d: del d[k] *)
Lemma od_del_forgets {V} (k : string) (d : list (string * V)) :
  NoDup (od_keys d) ->
  od_mem String.eqb k (if od_mem String.eqb k d then od_del String.eqb k d else d) = false.
Proof.
  intros Hnd. destruct (od_mem String.eqb k d) eqn:E; [|exact E].
  unfold od_mem. now rewrite (od_get_del_same _ string_eqb_iff).
Qed.

(* remove_task after create_task: the layer lists are back to what they
   were *)
Lemma removed_from_its_layer task_id (s s1 : state) layer :
  unlisted task_id s ->
  layer_ids layer s1 = layer_ids layer s ++ [task_id] ->
  (forall layer', layer' <> layer -> layer_ids layer' s1 = layer_ids layer' s) ->
  forall layer',
    match
      od_get String.eqb layer'
        match od_get String.eqb layer (task_layers s1) with
        | Some ids =>
            if existsb (String.eqb task_id) ids
            then od_set String.eqb layer (list_remove task_id ids) (task_layers s1)
            else task_layers s1
        | None => task_layers s1
        end
    with Some ids => ids | None => [] end = layer_ids layer' s.
Proof.
  intros Hfresh Hids Hother layer'. unfold layer_ids in *.
  destruct (od_get String.eqb layer (task_layers s1)) as [ids1|] eqn:E1;
    [|exfalso; exact (app_cons_not_nil _ _ _ Hids)].
  assert (Hex : existsb (String.eqb task_id) ids1 = true).
  { apply existsb_exists. exists task_id. split; [|apply String.eqb_refl].
    rewrite Hids. apply in_or_app. right. now left. }
  rewrite Hex.
  destruct (String.eqb_spec layer' layer) as [-> | Hne].
  - rewrite (od_get_set_same _ string_eqb_iff), Hids.
    apply list_remove_snoc. apply (Hfresh layer).
  - rewrite (od_get_set_other _ string_eqb_iff) by exact Hne.
    specialize (Hother layer' Hne). exact Hother.
Qed.

(** X26: For an id that is neither registered nor on a layer list, and a
    manager built with physics (self.physics_tasks exists), remove_task
    undoes create_task: it returns True, the registry is the one before the
    creation, every layer lists the ids it listed before, and the side
    tables do not know the id.  On a manager built with enable_physics=False
    remove_task raises AttributeError instead: the id is off its layer list
    again, but the task stays registered. *)
Theorem remove_task_undoes_create_task :
  forall task_type task_id properties created s layer,
    layer_of (new_task task_type task_id properties created (default_font_size s)) = Some layer ->
    tasks s !! task_id = None ->
    unlisted task_id s ->
    NoDup (od_keys (draggable_tasks s)) ->
    (forall bodies, physics_tasks s = Some bodies -> NoDup (od_keys bodies)) ->
    NoDup (od_keys (clickable_tasks s)) ->
    exists s1 s2,
      create_task task_type task_id properties created s = Some (task_id, s1) /\
      (forall layer', layer_ids layer' s2 = layer_ids layer' s) /\
      od_mem String.eqb task_id (draggable_tasks s2) = false /\
      match physics_tasks s with
      | Some _ =>
          remove_task task_id s1 = Some (Return true s2) /\
          tasks s2 = tasks s /\
          (exists bodies2, physics_tasks s2 = Some bodies2 /\
                           od_mem String.eqb task_id bodies2 = false) /\
          od_mem String.eqb task_id (clickable_tasks s2) = false
      | None =>
          remove_task task_id s1 = Some (Raise AttributeError s2) /\
          tasks s2 = tasks s1 /\ get_task task_id s2 <> None /\
          physics_tasks s2 = None /\
          clickable_tasks s2 = clickable_tasks s
      end.
Proof.
  intros task_type task_id properties created s layer Hl Hnone Hfresh Hn1 Hn2 Hn3.
  destruct (create_task_layers task_type task_id properties created s layer Hl)
    as (s1 & Hc & Ht & Hids & Hother & Hdr & Hph & Hcl & _).
  exists s1. unfold remove_task. rewrite Ht, lookup_insert_eq, Hl, Hph.
  destruct (physics_tasks s) as [bodies|] eqn:Eb.
  - eexists. split; [exact Hc|].
    split; [|split; [|split; [reflexivity|]]];
      cbn [tasks task_layers draggable_tasks physics_tasks clickable_tasks].
    + apply (removed_from_its_layer task_id s s1 layer Hfresh Hids Hother).
    + rewrite Hdr. now apply od_del_forgets.
    + split; [now apply delete_insert_id|]. split.
      * eexists. split; [reflexivity|]. apply od_del_forgets. now apply Hn2.
      * rewrite Hcl. now apply od_del_forgets.
  - eexists. split; [exact Hc|].
    split; [|split; [|split; [reflexivity|]]];
      cbn [tasks task_layers draggable_tasks physics_tasks clickable_tasks].
    + apply (removed_from_its_layer task_id s s1 layer Hfresh Hids Hother).
    + rewrite Hdr. now apply od_del_forgets.
    + split; [reflexivity|]. split; [|split; [reflexivity | exact Hcl]].
      unfold get_task. cbn [tasks]. rewrite lookup_insert_eq. discriminate.
Qed.

(** X27: The layer lists are filled at creation only, and remove_task looks
    the task up on the list named by its current 'layer' attribute.  Once
    update_task_property has changed that attribute to another layer name,
    remove_task on a manager built with physics (self.physics_tasks exists)
    unregisters the task but leaves its id on the list of the layer it was
    created on. *)
Theorem changed_layer_attribute_strands_the_id :
  forall task_id t s layer ids layer' bodies,
    tasks s !! task_id = Some t ->
    od_get String.eqb layer (task_layers s) = Some ids ->
    In task_id ids ->
    layer' <> layer ->
    physics_tasks s = Some bodies ->
    let r := update_task_property task_id "layer" (VStr layer') s in
    fst r = true /\
    exists s2,
      remove_task task_id (snd r) = Some (Return true s2) /\
      get_task task_id s2 = None /\
      od_get String.eqb layer (task_layers s2) = Some ids.
Proof.
  intros task_id t s layer ids layer' bodies Ht Hids Hin Hne Hb.
  unfold update_task_property. rewrite Ht. cbn [fst snd]. split; [reflexivity|].
  unfold remove_task. cbn [tasks set_tasks task_layers physics_tasks].
  rewrite lookup_insert_eq. unfold layer_of at 1. rewrite lookup_insert_eq, Hb.
  eexists. split; [reflexivity|]. unfold get_task. cbn [tasks task_layers]. split.
  - apply lookup_delete_eq.
  - destruct (od_get String.eqb layer' (task_layers s)) as [ids'|]; [|exact Hids].
    destruct (existsb (String.eqb task_id) ids'); [|exact Hids].
    rewrite (od_get_set_other _ string_eqb_iff) by congruence. exact Hids.
Qed.

End Registry_facts.

(** * The coordinate origin and the frame statistics *)

Module Coordinates_facts.
Import Coordinates.

(** X28: The two tables of the coordinate system agree: for each of the five
    origin names, the window point that coordinate_origin_options lists for
    the name is the point that _transform_mouse_position maps to (0, 0) once
    _update_coordinate_transform has run for that name and the same window
    size. *)
Theorem origin_maps_to_zero :
  forall coordinate_origin window_size point t,
    od_get String.eqb coordinate_origin (coordinate_origin_options window_size) = Some point ->
    _transform_mouse_position
      (_update_coordinate_transform coordinate_origin window_size t)
      (fst point) (snd point) = (0, 0).
Proof.
  intros coordinate_origin [w h] point t.
  unfold coordinate_origin_options, _update_coordinate_transform, _transform_mouse_position.
  cbn [od_get fst snd].
  repeat (destruct (String.eqb coordinate_origin _);
          [intros [= <-]; cbn; f_equal; lia|]).
  discriminate.
Qed.

End Coordinates_facts.

Module Perf_facts.
Import Perf.
#[local] Open Scope float_scope.

Lemma ge_one_nonzero (d : float) : (1.0 <=? d) = true -> (d =? 0) = false.
Proof.
  rewrite leb_spec, eqb_spec.
  change (Prim2SF 1.0) with (S754_finite false 4503599627370496 (-52)).
  change (Prim2SF 0) with (S754_zero false).
  destruct (Prim2SF d) as [s | s | | s m e]; cbn; try discriminate; try reflexivity.
  all: destruct s; cbn; try discriminate; try reflexivity.
Qed.

(* the history holds the latest entries, at most one is dropped per call *)
Lemma append_bounded_spec (m : Z) (l : list float) (x : float) :
  exists dropped,
    l ++ [x] = dropped ++ append_bounded m l x /\
    (List.length dropped <= 1)%nat /\
    ((Z.of_nat (List.length l) <= Z.max 0 m)%Z ->
     (Z.of_nat (List.length (append_bounded m l x)) <= Z.max 0 m)%Z).
Proof.
  unfold append_bounded.
  destruct (m <? Z.of_nat (List.length (l ++ [x])))%Z eqn:E.
  - apply Z.ltb_lt in E. destruct (l ++ [x]) as [|y l1] eqn:El.
    + exfalso. symmetry in El. exact (app_cons_not_nil _ _ _ El).
    + exists [y]. cbn [tl app List.length]. split; [reflexivity|]. split; [lia|].
      intros Hb. apply (f_equal (@List.length float)) in El.
      rewrite length_app in El. cbn [List.length] in El. lia.
  - apply Z.ltb_ge in E. exists []. cbn [app List.length]. split; [reflexivity|].
    split; [lia|]. intros _. lia.
Qed.

Section UpdateFacts.
Variable py_sum : list float -> float.

(** X29: In _update_performance_stats the average is only taken of a non-empty
    history and the frame rate is only computed over an interval of at least
    one second, so the arithmetic never raises.  On a manager built with
    physics (len(self.physics_tasks) is defined) the call returns and writes
    the six statistics; on one built with enable_physics=False building the
    statistics raises AttributeError on every call and self.stats stays as it
    was.  Either way each history has received its new entry at the end and
    lost at most its oldest one, and a history that is within
    max_history_size stays within it. *)
Theorem performance_stats_keep_a_bounded_history :
  forall current_time n p,
    (Z.of_nat (List.length (frame_times p)) <= Z.max 0 (max_history_size p))%Z ->
    (Z.of_nat (List.length (fps_history p)) <= Z.max 0 (max_history_size p))%Z ->
    exists p' dropped,
      match physics_body_count n with
      | Some bodies =>
          _update_performance_stats py_sum current_time n p = Return tt p' /\
          stats_fps p' = current_fps p' /\
          stats_frame_time p' = average_frame_time p' * 1000 /\
          stats_task_count p' = task_count n /\
          stats_animation_count p' = animation_count n /\
          stats_physics_body_count p' = bodies /\
          stats_texture_count p' = texture_count n
      | None =>
          _update_performance_stats py_sum current_time n p = Raise AttributeError p' /\
          stats_fps p' = stats_fps p /\
          stats_frame_time p' = stats_frame_time p /\
          stats_task_count p' = stats_task_count p /\
          stats_animation_count p' = stats_animation_count p /\
          stats_physics_body_count p' = stats_physics_body_count p /\
          stats_texture_count p' = stats_texture_count p
      end /\
      frame_times p ++ [current_time - last_frame_time p] = dropped ++ frame_times p' /\
      (List.length dropped <= 1)%nat /\
      max_history_size p' = max_history_size p /\
      (Z.of_nat (List.length (frame_times p')) <= Z.max 0 (max_history_size p'))%Z /\
      (Z.of_nat (List.length (fps_history p')) <= Z.max 0 (max_history_size p'))%Z.
Proof.
  intros current_time n p Hft Hfps. unfold _update_performance_stats, update_stats.
  destruct (append_bounded_spec (max_history_size p) (frame_times p)
              (current_time - last_frame_time p)) as (dropped & Hsplit & Hlen & Hb).
  destruct (1.0 <=? current_time - last_fps_update p) eqn:E.
  - unfold Physics.py_div. rewrite (ge_one_nonzero _ E).
    destruct (append_bounded_spec (max_history_size p) (fps_history p)
                (float_of_int (frame_count p + 1) / (current_time - last_fps_update p)))
      as (_ & _ & _ & Hb').
    destruct (physics_body_count n) as [bodies|];
      (eexists; exists dropped; split; [split; [reflexivity|]|]; cbn; repeat split; auto).
  - destruct (physics_body_count n) as [bodies|];
      (eexists; exists dropped; split; [split; [reflexivity|]|]; cbn; repeat split; auto).
Qed.

End UpdateFacts.

End Perf_facts.

(** * Concrete instances of the further properties *)

Module More_instances.
Import Instances.
#[local] Open Scope string_scope.

(** ** Texture cache and loader *)

Definition empty_cache : LRU.LRUTextureCache := LRU.__init__ 100 (8 # 10).

(* the cache after put("p0", photo 0) *)
Definition one_photo : LRU.LRUTextureCache :=
  LRU.set_total (LRU.set_cache empty_cache [("p0", photo 0)]) 8388608.

Example one_photo_is_put :
  LRU.put "p0" (photo 0) (empty_cache, []) = Return true (one_photo, []).
Proof. vm_compute. reflexivity. Qed.

(* the cache after ten photos: unique keys, exact accounting *)
Lemma warm_inv : LRU_facts.inv (fst warm).
Proof.
  split; [|vm_compute; reflexivity].
  vm_compute. repeat (constructor; [cbn; intuition discriminate|]). constructor.
Qed.

(* an eleventh photo put into the cache of ten: four entries are evicted *)
Lemma put_then_get_witness :
  od_keys (LRU.cache (fst warm)) =
    ["p0"; "p1"; "p2"; "p3"; "p4"; "p5"; "p6"; "p7"; "p8"; "p9"] /\
  (inject_Z (LRU._calculate_texture_size (photo 10)) <= LRU.oversize_limit (fst warm))%Q /\
  exists c1 gl1 c2 rest,
    LRU.put "p10" (photo 10) (fst warm, snd warm) = Return true (c1, gl1) /\
    LRU.cache c1 = (rest ++ [("p10", photo 10)])%list /\
    LRU.get "p10" (c1, gl1) = Return (Some (photo 10)) (c2, gl1) /\
    LRU.cache c2 = LRU.cache c1 /\
    LRU.hits c2 = LRU.hits c1 + 1.
Proof.
  split; [vm_compute; reflexivity|]. split; [vm_compute; discriminate|].
  apply (LRU_more.put_then_get "p10" (photo 10) (fst warm) (snd warm)).
  - exact warm_inv.
  - vm_compute. reflexivity.
  - vm_compute. discriminate.
Defined.

(* the oldest of ten photos is used, then the cache is cut down to 50 MB:
   the four photos after it go, it stays *)
Lemma recently_used_is_evicted_last_witness :
  od_keys (LRU.cache (fst (state_of (LRU._cleanup (52428800 # 1)
                                       (state_of (LRU.get "p0" (fst warm, snd warm))))))) =
    ["p5"; "p6"; "p7"; "p8"; "p9"; "p0"] /\
  exists c1 c2 gl2,
    LRU.get "p0" (fst warm, snd warm) = Return (Some (photo 0)) (c1, snd warm) /\
    LRU._cleanup (52428800 # 1) (c1, snd warm) = Return tt (c2, gl2) /\
    (od_get String.eqb "p0" (LRU.cache c2) = Some (photo 0) \/ LRU.cache c2 = []).
Proof.
  split; [vm_compute; reflexivity|].
  apply (LRU_more.recently_used_is_evicted_last "p0" (photo 0) (fst warm) (snd warm)
           (52428800 # 1)).
  - apply warm_inv.
  - vm_compute. reflexivity.
Defined.

Lemma remove_forgets_one_key_witness :
  exists b c',
    LRU.remove "p0" (one_photo, []) = Return b (c', []) /\
    b = od_mem String.eqb "p0" (LRU.cache one_photo) /\
    od_mem String.eqb "p0" (LRU.cache c') = false /\
    (forall k, k <> "p0" ->
       od_get String.eqb k (LRU.cache c') = od_get String.eqb k (LRU.cache one_photo)) /\
    LRU.total_memory_usage c' =
      LRU.total_memory_usage one_photo - LRU_facts.old_size "p0" (LRU.cache one_photo) /\
    (b = false -> c' = one_photo).
Proof.
  apply (LRU_more.remove_forgets_one_key "p0" one_photo []).
  vm_compute. constructor; [intros [] | constructor].
Defined.

Definition icon_file : Loader.load_env :=
  {| Loader.surface := Some (64, 64); Loader.new_texture := 7 |}.

Definition poster_file : Loader.load_env :=
  {| Loader.surface := Some (4096, 4096); Loader.new_texture := 8 |}.

(* an icon loaded twice into the cache of ten photos *)
Lemma load_twice_uploads_once_witness :
  (inject_Z (64 * 64 * 4) <= LRU.oversize_limit (fst warm))%Q /\
  exists c1 gl1 c2 rest,
    Loader._load_texture_with_cache "icon.png" icon_file (fst warm, snd warm) =
      Return (Some 7) (c1, gl1) /\
    LRU.cache c1 = (rest ++ [("icon.png", Loader_facts.texture_info icon_file 64 64)])%list /\
    LRU.misses c1 = LRU.misses (fst warm) + 1 /\
    Loader._load_texture_with_cache "icon.png" poster_file (c1, gl1) =
      Return (Some 7) (c2, gl1) /\
    LRU.cache c2 = LRU.cache c1 /\
    LRU.hits c2 = LRU.hits c1 + 1 /\ LRU.misses c2 = LRU.misses c1.
Proof.
  split; [vm_compute; discriminate|].
  apply (Loader_facts.load_twice_uploads_once "icon.png" icon_file poster_file 64 64
           (fst warm) (snd warm)).
  - exact warm_inv.
  - vm_compute. reflexivity.
  - discriminate.
  - vm_compute. reflexivity.
  - reflexivity.
  - vm_compute. discriminate.
Defined.

(* a 64 MB poster against the 10 MB limit of a 100 MB cache *)
Lemma oversized_image_is_never_cached_witness :
  (LRU.oversize_limit (fst warm) < inject_Z (4096 * 4096 * 4))%Q /\
  Loader._load_texture_with_cache "poster.png" poster_file (fst warm, snd warm) =
    Return (Some 8) (LRU.set_misses (fst warm) (LRU.misses (fst warm) + 1), snd warm) /\
  od_get String.eqb "poster.png"
         (LRU.cache (LRU.set_misses (fst warm) (LRU.misses (fst warm) + 1))) = None.
Proof.
  split; [vm_compute; reflexivity|].
  apply (Loader_facts.oversized_image_is_never_cached "poster.png" poster_file 4096 4096
           (fst warm) (snd warm)).
  - apply warm_inv.
  - vm_compute. reflexivity.
  - discriminate.
  - vm_compute. reflexivity.
  - reflexivity.
  - vm_compute. reflexivity.
Defined.

(** ** Text cache, fonts and teardown *)

Definition label_registry : registry := <["label" := Release_facts.label_task]> ∅.

Definition show (v : pyval) : string :=
  match v with VStr s => s | _ => "14" end.

Lemma update_text_font_drops_prefixed_keys_witness :
  exists tasks' c',
    TextCache.update_text_font show "label" (Some (VNum 20)) None None None label_registry
                               (Release_facts.label_cache, []) =
      Return true (tasks', (c', [])) /\
    TextCache.text_texture_cache c' = [].
Proof.
  eexists _, _. split.
  - etransitivity.
    + apply (TextCache_more.update_text_font_drops_prefixed_keys show "label"
               (Some (VNum 20)) None None None label_registry Release_facts.label_cache []).
      * vm_compute. constructor; [intros [] | constructor].
      * intros t Ht. unfold label_registry in Ht. rewrite lookup_insert_eq in Ht.
        injection Ht as <-. vm_compute. discriminate.
    + vm_compute. reflexivity.
  - reflexivity.
Defined.

(* the cache after "one" was drawn at time 1 and "two" at time 3/2 *)
Definition two_labels : TextCache.text_cache :=
  fst (TextCache.run (fun _ => false)
         [(true, label "one" 1 (1 # 1)); (true, label "two" 2 (3 # 2))] (TextCache.init, [])).

Example two_labels_last_used :
  map (fun e => (TextCache.texture_id (snd e), TextCache.last_used (snd e)))
      (TextCache.text_texture_cache two_labels) = [(1, (1 # 1)%Q); (2, (3 # 2)%Q)].
Proof. vm_compute. reflexivity. Qed.

(* "one" drawn again at time 2, with a glDeleteTextures that would raise *)
Lemma render_text_hit_witness :
  let s' := TextCache.render_text (fun _ => true) true (label "one" 9 (2 # 1)) (two_labels, []) in
  snd s' = [] /\
  (exists e',
     od_get String.eqb (TextCache.cache_key (label "one" 9 (2 # 1)))
            (TextCache.text_texture_cache (fst s')) = Some e' /\
     TextCache.last_used e' = (2 # 1)%Q /\ TextCache.texture_id e' = 1 /\
     TextCache.created e' = Some (1 # 1)%Q) /\
  od_get String.eqb (TextCache.cache_key (label "two" 2 (3 # 2)))
         (TextCache.text_texture_cache (fst s')) =
    od_get String.eqb (TextCache.cache_key (label "two" 2 (3 # 2)))
           (TextCache.text_texture_cache two_labels) /\
  TextCache.text_cache_hits (fst s') = TextCache.text_cache_hits two_labels + 1.
Proof.
  destruct (od_get String.eqb (TextCache.cache_key (label "one" 9 (2 # 1)))
                   (TextCache.text_texture_cache two_labels)) as [e|] eqn:E;
    [|vm_compute in E; discriminate].
  destruct (TextCache_more.render_text_hit (fun _ => true) true (label "one" 9 (2 # 1))
              two_labels [] e E)
    as (Hgl & _ & (e' & Hget & Hused & Htex & _ & _ & Hcreated & _) & Hother & Hhits & _).
  vm_compute in E. injection E as <-.
  cbv zeta. split; [exact Hgl|]. split; [|split; [|exact Hhits]].
  - exists e'. split; [exact Hget|]. split; [exact Hused|]. split; assumption.
  - apply Hother. vm_compute. discriminate.
Defined.

Definition arial (t : Q) : FontCache.font_instance :=
  {| FontCache.font := 1; FontCache.size := 14; FontCache.name := "arial";
     FontCache.last_used := t; FontCache.created := t;
     FontCache.supports_chinese := false |}.

(* seven instances in a cache limited to six *)
Definition seven_fonts : FontCache.font_cache :=
  {| FontCache.font_instances :=
       [("a", arial (7 # 1)); ("b", arial (1 # 1)); ("c", arial (5 # 1)); ("d", arial (2 # 1));
        ("e", arial (6 # 1)); ("f", arial (3 # 1)); ("g", arial (4 # 1))];
     FontCache.max_font_instances := 6 |}.

Example seven_fonts_cleanup :
  option_map (fun c => od_keys (FontCache.font_instances c))
    (match FontCache._cleanup_font_instances seven_fonts with
     | Return _ c => Some c
     | Raise _ _ => None
     end) = Some ["a"; "c"; "e"; "f"; "g"].
Proof. vm_compute. reflexivity. Qed.

Lemma font_cleanup_leaves_half_witness :
  exists d',
    FontCache._cleanup_font_instances seven_fonts =
      Return tt (FontCache.set_instances seven_fonts d') /\
    Z.of_nat (List.length d') <= 6.
Proof.
  destruct (FontCache_facts.font_cleanup_leaves_half seven_fonts) as
    (evicted & d' & Hrun & _ & _ & _ & Hbound).
  - cbn. repeat (constructor; [cbn; intuition discriminate|]). constructor.
  - exists d'. split; [exact Hrun | exact Hbound].
Defined.

Definition loaded : Teardown.caches :=
  {| Teardown.lru_texture_cache := one_photo;
     Teardown.texture_cache := [("old.png", 9)];
     Teardown.text_cache := Release_facts.label_cache;
     Teardown.font_cache := [("default_24", arial (1 # 1))];
     Teardown.font_instances := [("arial_14", arial (1 # 1))];
     Teardown._cleaned_up := false |}.

Lemma cleanup_releases_once_and_is_idempotent_witness :
  exists m',
    Teardown.cleanup (loaded, []) = Return tt (m', [0; 9; 5]) /\
    Teardown.cleanup (m', [0; 9; 5]) = Return tt (m', [0; 9; 5]).
Proof.
  destruct (Teardown_facts.cleanup_releases_once_and_is_idempotent loaded [] eq_refl) as
    (m' & Hrun & _ & _ & _ & _ & _ & _ & Hagain & _).
  exists m'. split; [exact Hrun | apply Hagain].
Defined.

(** ** Physics *)

Definition frozen_body : Physics.physics_body :=
  {| Physics.body_type := "dynamic"; Physics.mass := 1; Physics.friction := 0.3;
     Physics.restitution := 0.5; Physics.damping := 0.99;
     Physics.velocity_x := 3; Physics.velocity_y := 4;
     Physics.collision_enabled := true; Physics.affected_by_gravity := true;
     Physics.enabled := false |}.

Definition frozen_scene : Physics.state :=
  {| Physics.tasks := <["ball" := ball_task]> ∅;
     Physics.physics_tasks := [("ball", frozen_body)];
     Physics.physics_world := Physics.default_world;
     Physics.last_physics_update := 0;
     Physics.original_window_size := (960, 540)%float |}.

Lemma physics_step_freezes_disabled_bodies_witness :
  od_get String.eqb "ball"
    (Physics.physics_tasks (state_of (Physics._update_physics 0.1 frozen_scene))) =
    Some frozen_body /\
  Physics.tasks (state_of (Physics._update_physics 0.1 frozen_scene)) !! "ball" =
    Physics.tasks frozen_scene !! "ball".
Proof.
  apply (Physics_more.physics_step_freezes_disabled_bodies 0.1 frozen_scene "ball" frozen_body).
  - cbn. constructor; [intros [] | constructor].
  - reflexivity.
  - left. reflexivity.
Defined.

Definition line_task : task :=
  <["x1" := VNum 0]> (<["y1" := VNum 0]> (<["x2" := VNum 10]> (<["y2" := VNum 10]> ∅))).

Definition line_scene : Physics.state :=
  {| Physics.tasks := <["line" := line_task]> ∅;
     Physics.physics_tasks := [("line", Physics_facts.falling_body 0.3 0.5 0 0)];
     Physics.physics_world := Physics.default_world;
     Physics.last_physics_update := 0;
     Physics.original_window_size := (960, 540)%float |}.

Lemma physics_step_raises_without_position_witness :
  raised (Physics._update_physics 0.1 line_scene) <> None /\
  Physics.last_physics_update (state_of (Physics._update_physics 0.1 line_scene)) = 0.1%float.
Proof.
  apply (Physics_more.physics_step_raises_without_position 0.1 line_scene "line"
           (Physics_facts.falling_body 0.3 0.5 0 0) line_task).
  - reflexivity.
  - cbn. constructor; [intros [] | constructor].
  - reflexivity.
  - reflexivity.
  - unfold line_scene. cbn [Physics.tasks]. apply lookup_insert_eq.
  - vm_compute. reflexivity.
Defined.

Lemma zero_mass_body_makes_forces_raise_witness :
  let r := Physics.add_physics_body "ball" "dynamic" 0 0.3 0.5 0.99 true true frozen_scene in
  fst r = true /\
  Physics.apply_force "ball" 3 4 (snd r) = Raise ZeroDivisionError (snd r) /\
  Physics.apply_impulse "ball" 3 4 (snd r) = Raise ZeroDivisionError (snd r).
Proof.
  apply (Physics_more.zero_mass_body_makes_forces_raise frozen_scene "ball" ball_task).
  unfold frozen_scene. cbn [Physics.tasks]. apply lookup_insert_eq.
Defined.

(** ** Animation *)

(* a clock that stands still *)
Definition still_scene : Anim.state :=
  {| Anim.tasks := <["ball" := ball_task]> ∅;
     Anim.animations := [];
     Anim.time_time := fun _ => 10%float;
     Anim.clock_reads := 0 |}.

Lemma same_tick_animation_replaces_the_first_witness :
  let s1 := snd (Anim.animate_task "ball" 2 [("x", VNum 100)] "linear" None 0 still_scene) in
  let r2 := Anim.animate_task "ball" 3 [("y", VNum 50)] "linear" None 0 s1 in
  fst r2 = true /\
  od_keys (Anim.animations (snd r2)) = od_keys (Anim.animations s1) /\
  exists a, od_get Anim.id_eqb ("ball", 10%float) (Anim.animations (snd r2)) = Some a /\
            Anim.target_values a = [("y", VNum 50)] /\ Anim.duration a = 3%float /\
            Anim.easing a = "linear" /\ Anim.on_complete a = None.
Proof.
  apply (Anim_more.same_tick_animation_replaces_the_first "ball" ball_task still_scene
           2%float [("x", VNum 100)] "linear" None 0%float
           3%float [("y", VNum 50)] "linear" None 0%float).
  - unfold still_scene. cbn [Anim.tasks]. apply lookup_insert_eq.
  - intros p [<- | []]. vm_compute. discriminate.
  - intros p [<- | []]. vm_compute. discriminate.
  - reflexivity.
Defined.

(* the ball of the animation scene, animated after a delay of 5 s: the two
   clock readings are 10 and 11, so that the animation starts at 16 *)
Definition delayed : Anim.state :=
  snd (Anim.animate_task "ball" 2 [("x", VNum 100)] "linear" None 5 Anim_facts.ball_scene).

Lemma waiting_animations_change_nothing_witness :
  Anim._update_animations no_libm no_libm no_pow 12 delayed = Return tt delayed.
Proof.
  apply (Anim_more.waiting_animations_change_nothing no_libm no_libm no_pow 12%float delayed).
  intros e He. vm_compute in He. destruct He as [<- | []]. vm_compute. reflexivity.
Defined.

Definition instant : Anim.state :=
  snd (Anim.animate_task "ball" 0 [("x", VNum 100)] "linear" None 0 Anim_facts.ball_scene).

Lemma zero_duration_animation_raises_witness :
  Anim._update_animations no_libm no_libm no_pow 13.5 instant = Raise ZeroDivisionError instant.
Proof.
  eapply (Anim_more.zero_duration_animation_raises no_libm no_libm no_pow 13.5%float instant
            [] _ _ []).
  - vm_compute. reflexivity.
  - intros e [].
  - vm_compute. reflexivity.
  - vm_compute. reflexivity.
Defined.



(** ** Registry and draw order *)

(* bool() of the values that are neither numbers, strings nor sequences *)
Definition bool_of_repr (repr : string) : bool :=
  negb (existsb (String.eqb repr) ["None"; "{}"; "set()"]).

(* the manager after __init__ *)
Definition fresh : Registry.state :=
  {| Registry.tasks := ∅;
     Registry.task_layers := Registry.initial_task_layers;
     Registry.draggable_tasks := [];
     Registry.physics_tasks := Some [];
     Registry.clickable_tasks := [];
     Registry.default_font_size := 24 |}.

(* the manager after create_rect("box", 0, 0, 10, 10) at time 0 *)
Definition boxed : Registry.state :=
  {| Registry.tasks := <["box" := Registry.new_task "rect" "box"
                                    [("x", VNum 0); ("y", VNum 0);
                                     ("width", VNum 10); ("height", VNum 10)] 0 24]> ∅;
     Registry.task_layers :=
       od_set String.eqb "game" ["box"] Registry.initial_task_layers;
     Registry.draggable_tasks := [];
     Registry.physics_tasks := Some [];
     Registry.clickable_tasks := [];
     Registry.default_font_size := 24 |}.

(* the manager after __init__ with enable_physics=False *)
Definition fresh_without_physics : Registry.state :=
  {| Registry.tasks := ∅;
     Registry.task_layers := Registry.initial_task_layers;
     Registry.draggable_tasks := [];
     Registry.physics_tasks := None;
     Registry.clickable_tasks := [];
     Registry.default_font_size := 24 |}.

Example boxed_is_created :
  Registry.create_rect "box" (VNum 0) (VNum 0) (VNum 10) (VNum 10) [] 0 fresh =
    Some ("box", boxed).
Proof. reflexivity. Qed.

Lemma fresh_unlisted task_id : Registry_facts.unlisted task_id fresh.
Proof.
  intros layer. unfold Registry_facts.layer_ids. cbn.
  repeat (destruct (String.eqb layer _); [intros []|]). intros [].
Qed.

Lemma fresh_without_physics_unlisted task_id :
  Registry_facts.unlisted task_id fresh_without_physics.
Proof.
  intros layer. unfold Registry_facts.layer_ids. cbn.
  repeat (destruct (String.eqb layer _); [intros []|]). intros [].
Qed.

Lemma task_on_unknown_layer_is_never_drawn_witness :
  exists s1,
    Registry.create_task "rect" "hud1" [("layer", VStr "hud")] 0 fresh = Some ("hud1", s1) /\
    Registry.get_task "hud1" s1 =
      Some (Registry.new_task "rect" "hud1" [("layer", VStr "hud")] 0 24) /\
    ~ In "hud1" (Registry.render_calls bool_of_repr s1).
Proof.
  apply (Registry_facts.task_on_unknown_layer_is_never_drawn bool_of_repr "rect" "hud1"
           [("layer", VStr "hud")] 0%float fresh "hud").
  - vm_compute. reflexivity.
  - cbn. intuition discriminate.
  - apply fresh_unlisted.
Defined.

(* box.visible = {} hides the box *)
Lemma hidden_task_is_not_drawn_witness :
  In "box" (Registry.render_calls bool_of_repr boxed) /\
  ~ In "box" (Registry.render_calls bool_of_repr
                (snd (Registry.set_task_visibility "box" (VOther "{}") boxed))).
Proof.
  split; [vm_compute; now left|].
  apply (Registry_facts.hidden_task_is_not_drawn bool_of_repr "box" (VOther "{}") boxed).
  reflexivity.
Defined.

Lemma boxed_typed : Registry_facts.typed (Registry.tasks boxed).
Proof.
  intros task_id t. unfold boxed. cbn [Registry.tasks].
  destruct (String.eqb_spec "box" task_id) as [<- | Hne].
  - rewrite lookup_insert_eq. intros [= <-]. apply Registry_facts.new_task_has_type.
  - rewrite lookup_insert_ne by exact Hne. rewrite lookup_empty. discriminate.
Qed.

Lemma recreated_task_is_drawn_twice_witness :
  exists s1,
    Registry.create_task "rect" "box" [] 1 boxed = Some ("box", s1) /\
    (2 <= count_occ string_dec (Registry.render_calls bool_of_repr s1) "box")%nat.
Proof.
  apply (Registry_facts.recreated_task_is_drawn_twice bool_of_repr "rect" "box" [] 1%float
           boxed "game").
  - apply boxed_typed.
  - vm_compute. reflexivity.
  - cbn. tauto.
  - cbn. now left.
  - vm_compute. reflexivity.
Defined.

(* a box created and removed again, with and without the physics table *)
Lemma remove_task_undoes_create_task_witness :
  (exists s1 s2,
     Registry.create_task "rect" "box" [] 0 fresh = Some ("box", s1) /\
     Registry.remove_task "box" s1 = Some (Return true s2) /\
     Registry.tasks s2 = Registry.tasks fresh /\
     (forall layer', Registry_facts.layer_ids layer' s2 = Registry_facts.layer_ids layer' fresh)) /\
  (exists s1 s2,
     Registry.create_task "rect" "box" [] 0 fresh_without_physics = Some ("box", s1) /\
     Registry.remove_task "box" s1 = Some (Raise AttributeError s2) /\
     Registry.get_task "box" s2 <> None).
Proof.
  split.
  - destruct (Registry_facts.remove_task_undoes_create_task "rect" "box" [] 0%float fresh "game")
      as (s1 & s2 & Hc & Hl & _ & Hr & Ht & _).
    + vm_compute. reflexivity.
    + reflexivity.
    + apply fresh_unlisted.
    + constructor.
    + intros bodies [= <-]. constructor.
    + constructor.
    + exists s1, s2. auto.
  - destruct (Registry_facts.remove_task_undoes_create_task "rect" "box" [] 0%float
                fresh_without_physics "game")
      as (s1 & s2 & Hc & _ & _ & Hr & _ & Hg & _).
    + vm_compute. reflexivity.
    + reflexivity.
    + apply fresh_without_physics_unlisted.
    + constructor.
    + intros bodies [=].
    + constructor.
    + exists s1, s2. auto.
Defined.

Lemma changed_layer_attribute_strands_the_id_witness :
  let r := Registry.update_task_property "box" "layer" (VStr "gui") boxed in
  fst r = true /\
  exists s2,
    Registry.remove_task "box" (snd r) = Some (Return true s2) /\
    Registry.get_task "box" s2 = None /\
    od_get String.eqb "game" (Registry.task_layers s2) = Some ["box"].
Proof.
  apply (Registry_facts.changed_layer_attribute_strands_the_id "box"
           (Registry.new_task "rect" "box"
              [("x", VNum 0); ("y", VNum 0); ("width", VNum 10); ("height", VNum 10)] 0 24)
           boxed "game" ["box"] "gui" []).
  - unfold boxed. cbn [Registry.tasks]. apply lookup_insert_eq.
  - reflexivity.
  - now left.
  - discriminate.
  - reflexivity.
Defined.

(** ** Coordinates and frame statistics *)

Lemma origin_maps_to_zero_witness :
  Coordinates._transform_mouse_position
    (Coordinates._update_coordinate_transform "center" (960, 540) Coordinates.initial_transform)
    480 270 = (0, 0).
Proof.
  apply (Coordinates_facts.origin_maps_to_zero "center" (960, 540) (480, 270)
           Coordinates.initial_transform).
  reflexivity.
Defined.

(* sum() as a left fold *)
Definition plain_sum (l : list float) : float := fold_left PrimFloat.add l 0%float.

(* the statistics after __init__ at time 100 *)
Definition first_frame : Perf.perf :=
  {| Perf.frame_times := []; Perf.fps_history := []; Perf.max_history_size := 100;
     Perf.last_frame_time := 100; Perf.current_fps := 60; Perf.frame_count := 0;
     Perf.last_fps_update := 100; Perf.average_frame_time := 0.016;
     Perf.stats_fps := 0; Perf.stats_frame_time := 0;
     Perf.stats_task_count := 0; Perf.stats_animation_count := 0;
     Perf.stats_physics_body_count := 0; Perf.stats_texture_count := 0 |}.

(* three tasks, one animation, two bodies, four textures *)
Definition busy : Perf.sizes :=
  {| Perf.task_count := 3; Perf.animation_count := 1;
     Perf.physics_body_count := Some 2; Perf.texture_count := 4 |}.

(* the same without self.physics_tasks *)
Definition busy_without_physics : Perf.sizes :=
  {| Perf.task_count := 3; Perf.animation_count := 1;
     Perf.physics_body_count := None; Perf.texture_count := 4 |}.

Lemma performance_stats_keep_a_bounded_history_witness :
  (exists p',
     Perf._update_performance_stats plain_sum 100.5 busy first_frame = Return tt p' /\
     Perf.stats_physics_body_count p' = 2 /\
     Z.of_nat (List.length (Perf.frame_times p')) <= Z.max 0 (Perf.max_history_size p')) /\
  (exists p',
     Perf._update_performance_stats plain_sum 100.5 busy_without_physics first_frame =
       Raise AttributeError p' /\
     Perf.stats_task_count p' = 0 /\
     Z.of_nat (List.length (Perf.frame_times p')) <= Z.max 0 (Perf.max_history_size p')).
Proof.
  split.
  - destruct (Perf_facts.performance_stats_keep_a_bounded_history plain_sum 100.5%float
                busy first_frame)
      as (p' & dropped & (Hrun & _ & _ & _ & _ & Hbodies & _) & _ & _ & _ & Hb & _).
    + cbn. lia.
    + cbn. lia.
    + exists p'. repeat split; assumption.
  - destruct (Perf_facts.performance_stats_keep_a_bounded_history plain_sum 100.5%float
                busy_without_physics first_frame)
      as (p' & dropped & (Hrun & _ & _ & Htasks & _) & _ & _ & _ & Hb & _).
    + cbn. lia.
    + cbn. lia.
    + exists p'. repeat split; assumption.
Defined.

End More_instances.
